(** * Request lifecycle and authorization engine of the service-centre
      application (app/rbac.py, app/services.py, app/usecases.py).

    The Python code is embedded shallowly: ORM classes become records,
    the SQLAlchemy session becomes a record of tables (finite maps from
    primary key to object), exceptions become an error type, and the use
    cases become functions from a session to an outcome and the session
    they leave behind. *)

From stdpp Require Import gmap list sorting.
From Stdlib Require Import String Ascii.

Open Scope Z_scope.

(** ** Python values *)

(** A Python [str] is a sequence of Unicode code points. *)
Definition str : Type := list N.

(** Literals are written as UTF-8 text, as in the source files, and
    decoded to code points. *)
Fixpoint decode_utf8 (bs : list N) : str :=
  match bs with
  | [] => []
  | b :: rest =>
      if (b <? 128)%N then b :: decode_utf8 rest
      else if (b <? 224)%N then
        match rest with
        | c1 :: rest' => ((b mod 32) * 64 + c1 mod 64)%N :: decode_utf8 rest'
        | _ => []
        end
      else if (b <? 240)%N then
        match rest with
        | c1 :: c2 :: rest' =>
            ((b mod 16) * 4096 + (c1 mod 64) * 64 + c2 mod 64)%N
              :: decode_utf8 rest'
        | _ => []
        end
      else
        match rest with
        | c1 :: c2 :: c3 :: rest' =>
            ((b mod 8) * 262144 + (c1 mod 64) * 4096
             + (c2 mod 64) * 64 + c3 mod 64)%N :: decode_utf8 rest'
        | _ => []
        end
  end.

Definition lit (s : string) : str :=
  decode_utf8 (List.map N_of_ascii (list_ascii_of_string s)).

(** [str.isspace] for one character. *)
Definition isspace (c : N) : bool :=
  ((9 <=? c) && (c <=? 13) || (28 <=? c) && (c <=? 32)
   || (c =? 133) || (c =? 160) || (c =? 5760)
   || (8192 <=? c) && (c <=? 8202)
   || (c =? 8232) || (c =? 8233) || (c =? 8239) || (c =? 8287)
   || (c =? 12288))%N.

Fixpoint lstrip (s : str) : str :=
  match s with
  | c :: s' => if isspace c then lstrip s' else s
  | [] => []
  end.

Definition rstrip (s : str) : str := rev (lstrip (rev s)).

(** [s.strip()] *)
Definition strip (s : str) : str := rstrip (lstrip s).

(** [s or ""] for an optional string.  A parameter or field annotated
    [str] is a [str] here, and on it the guard [s or ""] of the source
    is [s] itself. *)
Definition or_empty (s : option str) : str := default [] s.

(** [s or None] for a string: the empty string is falsy. *)
Definition or_None (s : str) : option str :=
  match s with [] => None | _ => Some s end.

(** [x if x else None] and [not x] for an optional integer: [None] and
    [0] are falsy. *)
Definition truthy_int (x : option Z) : option Z :=
  match x with
  | Some v => if bool_decide (v = 0) then None else Some v
  | None => None
  end.

(** [x in (a, b, ...)] on strings. *)
Definition in_ (x : str) (t : list str) : bool := bool_decide (x ∈ t).

(** [a <= b] on strings: lexicographic, by code point. *)
Fixpoint str_le (a b : str) : bool :=
  match a, b with
  | [], _ => true
  | _ :: _, [] => false
  | x :: a', y :: b' =>
      if (x <? y)%N then true
      else if (x =? y)%N then str_le a' b'
      else false
  end.

(** [d[k] = d.get(k, 0) + 1] on a [dict], which keeps its keys in the
    order of their first insertion. *)
Fixpoint dict_incr (k : str) (d : list (str * Z)) : list (str * Z) :=
  match d with
  | [] => [(k, 1)]
  | (k', n) :: d' =>
      if bool_decide (k' = k) then (k', n + 1) :: d'
      else (k', n) :: dict_incr k d'
  end.

(** The order of two items under [key=lambda item: (-item[1], item[0])]:
    tuples compare lexicographically. *)
Definition by_count_then_name (a b : str * Z) : Prop :=
  - a.2 < - b.2 ∨ (- a.2 = - b.2 ∧ str_le a.1 b.1 = true).

#[global] Instance by_count_then_name_dec a b :
  Decision (by_count_then_name a b).
Proof. unfold by_count_then_name. apply _. Defined.

(** [dict(sorted(d.items(), key=...))].  The keys of a [dict] are
    distinct, so the order is strict on its items and the sorted list
    does not depend on the sorting algorithm; the new [dict] keeps
    that list's order. *)
Definition sorted_items (d : list (str * Z)) : list (str * Z) :=
  merge_sort by_count_then_name d.

(** A [datetime.date] is its proleptic ordinal, a [datetime] an instant
    on a linear clock; only their order and equality are used. *)
Definition date : Type := Z.
Definition datetime : Type := Z.

(** ** Exceptions *)

(** The [DomainError] hierarchy of usecases.py, with its base class, and
    the exceptions outside it that the engine can raise: the
    [RuntimeError] of [services.get_new_request_status], the
    [AttributeError] of an attribute read on [None], the [TypeError] of
    ordering a date against [None], and the two exceptions of
    sqlalchemy.exc that a flush can raise, [IntegrityError] for a
    violated constraint and [DataError] for a value that does not fit
    its column. *)
Inductive exn : Type :=
  | DomainError
  | PermissionDeniedError
  | StatusChangeForbiddenError
  | RequestNotFoundError
  | HelpRequestNotFoundError
  | HelpRequestAlreadyOpenError
  | BusinessRuleViolationError
  | RuntimeError
  | AttributeError
  | TypeError
  | IntegrityError
  | DataError.

#[global] Instance exn_eq_dec : EqDecision exn.
Proof. solve_decision. Defined.

(** [isinstance(e, DomainError)]: what the callers in main.py catch. *)
Definition is_DomainError (e : exn) : bool :=
  match e with
  | RuntimeError | AttributeError | TypeError
  | IntegrityError | DataError => false
  | _ => true
  end.

(** [isinstance(e, SQLAlchemyError)]: what the callers in main.py catch
    next to [DomainError]. *)
Definition is_SQLAlchemyError (e : exn) : bool :=
  match e with
  | IntegrityError | DataError => true
  | _ => false
  end.

(** [isinstance(e, PermissionDeniedError)] *)
Definition is_PermissionDeniedError (e : exn) : bool :=
  match e with
  | PermissionDeniedError | StatusChangeForbiddenError => true
  | _ => false
  end.

(** The class attribute [code]. *)
Definition code (e : exn) : option str :=
  match e with
  | DomainError => Some (lit "error")
  | PermissionDeniedError => Some (lit "forbidden")
  | StatusChangeForbiddenError => Some (lit "forbidden_status_change")
  | RequestNotFoundError => Some (lit "request_not_found")
  | HelpRequestNotFoundError => Some (lit "help_not_found")
  | HelpRequestAlreadyOpenError => Some (lit "help_exists")
  | BusinessRuleViolationError => Some (lit "db_error")
  | RuntimeError | AttributeError | TypeError
  | IntegrityError | DataError => None
  end.

Inductive result (A : Type) : Type :=
  | Ok (a : A)
  | Raise (e : exn).
Arguments Ok {A} a.
Arguments Raise {A} e.

Definition bind {A B} (r : result A) (k : A → result B) : result B :=
  match r with
  | Ok a => k a
  | Raise e => Raise e
  end.

Notation "'do' x <- r ; k" := (bind r (λ x, k))
  (at level 10, x name, r at level 100, k at level 200).

Definition is_Ok {A} (r : result A) : bool :=
  match r with Ok _ => true | Raise _ => false end.

(** ** app/models.py *)

Module UserRole.
Record t : Type := mk { id : Z; name : str }.
End UserRole.

Module RequestStatus.
Record t : Type := mk { id : Z; name : str; is_final : bool }.
End RequestStatus.

Module EquipmentType.
Record t : Type := mk { id : Z; name : str }.
End EquipmentType.

Module EquipmentModel.
Record t : Type := mk { id : Z; equipment_type_id : Z; name : str }.
End EquipmentModel.

Module IssueType.
Record t : Type := mk { id : Z; name : str }.
End IssueType.

(** [role] is the relationship attribute as loaded with the user. *)
Module User.
Record t : Type := mk {
  id : Z;
  fio : str;
  phone : str;
  login : str;
  password_hash : str;
  role_id : Z;
  role : option UserRole.t
}.
End User.

(** Every column is [None] on a freshly constructed [RepairRequest()].
    [status] is the relationship attribute: the session fills it from
    [status_id] when it loads the object (see [db_get_request]).  The
    server-side timestamps [created_at] and [updated_at] are never read
    or written by the engine and are left out. *)
Module RepairRequest.
Record t : Type := mk {
  id : option Z;
  start_date : option date;
  equipment_model_id : option Z;
  issue_type_id : option Z;
  problem_description : option str;
  status_id : option Z;
  completion_date : option date;
  due_date : option date;
  repair_parts : option str;
  master_id : option Z;
  client_id : option Z;
  status : option RequestStatus.t
}.

(** [RepairRequest()] *)
Definition new : t :=
  mk None None None None None None None None None None None None.

Definition set_id v (r : t) : t :=
  mk v (start_date r) (equipment_model_id r) (issue_type_id r)
     (problem_description r) (status_id r) (completion_date r)
     (due_date r) (repair_parts r) (master_id r) (client_id r) (status r).
Definition set_start_date v (r : t) : t :=
  mk (id r) v (equipment_model_id r) (issue_type_id r)
     (problem_description r) (status_id r) (completion_date r)
     (due_date r) (repair_parts r) (master_id r) (client_id r) (status r).
Definition set_equipment_model_id v (r : t) : t :=
  mk (id r) (start_date r) v (issue_type_id r)
     (problem_description r) (status_id r) (completion_date r)
     (due_date r) (repair_parts r) (master_id r) (client_id r) (status r).
Definition set_issue_type_id v (r : t) : t :=
  mk (id r) (start_date r) (equipment_model_id r) v
     (problem_description r) (status_id r) (completion_date r)
     (due_date r) (repair_parts r) (master_id r) (client_id r) (status r).
Definition set_problem_description v (r : t) : t :=
  mk (id r) (start_date r) (equipment_model_id r) (issue_type_id r)
     v (status_id r) (completion_date r)
     (due_date r) (repair_parts r) (master_id r) (client_id r) (status r).
Definition set_status_id v (r : t) : t :=
  mk (id r) (start_date r) (equipment_model_id r) (issue_type_id r)
     (problem_description r) v (completion_date r)
     (due_date r) (repair_parts r) (master_id r) (client_id r) (status r).
Definition set_completion_date v (r : t) : t :=
  mk (id r) (start_date r) (equipment_model_id r) (issue_type_id r)
     (problem_description r) (status_id r) v
     (due_date r) (repair_parts r) (master_id r) (client_id r) (status r).
Definition set_due_date v (r : t) : t :=
  mk (id r) (start_date r) (equipment_model_id r) (issue_type_id r)
     (problem_description r) (status_id r) (completion_date r)
     v (repair_parts r) (master_id r) (client_id r) (status r).
Definition set_repair_parts v (r : t) : t :=
  mk (id r) (start_date r) (equipment_model_id r) (issue_type_id r)
     (problem_description r) (status_id r) (completion_date r)
     (due_date r) v (master_id r) (client_id r) (status r).
Definition set_master_id v (r : t) : t :=
  mk (id r) (start_date r) (equipment_model_id r) (issue_type_id r)
     (problem_description r) (status_id r) (completion_date r)
     (due_date r) (repair_parts r) v (client_id r) (status r).
Definition set_client_id v (r : t) : t :=
  mk (id r) (start_date r) (equipment_model_id r) (issue_type_id r)
     (problem_description r) (status_id r) (completion_date r)
     (due_date r) (repair_parts r) (master_id r) v (status r).
Definition set_status v (r : t) : t :=
  mk (id r) (start_date r) (equipment_model_id r) (issue_type_id r)
     (problem_description r) (status_id r) (completion_date r)
     (due_date r) (repair_parts r) (master_id r) (client_id r) v.
End RepairRequest.

Module RequestComment.
Record t : Type := mk {
  id : option Z;
  request_id : Z;
  master_id : Z;
  message : str
}.
End RequestComment.

(** [created_at] is set by the server and never read by the engine; it
    is left out. *)
Module HelpRequest.
Record t : Type := mk {
  id : option Z;
  request_id : Z;
  created_by_master_id : Z;
  quality_manager_id : option Z;
  assigned_master_id : option Z;
  status : str;
  message : str;
  resolution_note : option str;
  proposed_due_date : option date;
  closed_at : option datetime
}.

Definition set_id v (h : t) : t :=
  mk v (request_id h) (created_by_master_id h) (quality_manager_id h)
     (assigned_master_id h) (status h) (message h) (resolution_note h)
     (proposed_due_date h) (closed_at h).
Definition set_quality_manager_id v (h : t) : t :=
  mk (id h) (request_id h) (created_by_master_id h) v
     (assigned_master_id h) (status h) (message h) (resolution_note h)
     (proposed_due_date h) (closed_at h).
Definition set_assigned_master_id v (h : t) : t :=
  mk (id h) (request_id h) (created_by_master_id h) (quality_manager_id h)
     v (status h) (message h) (resolution_note h)
     (proposed_due_date h) (closed_at h).
Definition set_status v (h : t) : t :=
  mk (id h) (request_id h) (created_by_master_id h) (quality_manager_id h)
     (assigned_master_id h) v (message h) (resolution_note h)
     (proposed_due_date h) (closed_at h).
Definition set_resolution_note v (h : t) : t :=
  mk (id h) (request_id h) (created_by_master_id h) (quality_manager_id h)
     (assigned_master_id h) (status h) (message h) v
     (proposed_due_date h) (closed_at h).
Definition set_closed_at v (h : t) : t :=
  mk (id h) (request_id h) (created_by_master_id h) (quality_manager_id h)
     (assigned_master_id h) (status h) (message h) (resolution_note h)
     (proposed_due_date h) v.
End HelpRequest.

(** ** The session *)

(** A mapped class has an integer primary key [id]. *)
Class Model (T : Type) := with_id : Z → T → T.

#[global] Instance RequestStatus_Model : Model RequestStatus.t :=
  λ k s, RequestStatus.mk k (RequestStatus.name s) (RequestStatus.is_final s).
#[global] Instance EquipmentModel_Model : Model EquipmentModel.t :=
  λ k m,
    EquipmentModel.mk k (EquipmentModel.equipment_type_id m)
      (EquipmentModel.name m).
#[global] Instance IssueType_Model : Model IssueType.t :=
  λ k i, IssueType.mk k (IssueType.name i).
#[global] Instance User_Model : Model User.t :=
  λ k u,
    User.mk k (User.fio u) (User.phone u) (User.login u)
      (User.password_hash u) (User.role_id u) (User.role u).
#[global] Instance RepairRequest_Model : Model RepairRequest.t :=
  λ k r, RepairRequest.set_id (Some k) r.
#[global] Instance RequestComment_Model : Model RequestComment.t :=
  λ k c,
    RequestComment.mk (Some k) (RequestComment.request_id c)
      (RequestComment.master_id c) (RequestComment.message c).
#[global] Instance HelpRequest_Model : Model HelpRequest.t :=
  λ k h, HelpRequest.set_id (Some k) h.

(** A table maps each primary key to the object stored under it; the
    [id] attribute of a loaded object is that key. *)
Definition db_get {T} `{Model T} (tbl : gmap Z T) (k : Z) : option T :=
  with_id k <$> tbl !! k.

Definition rows {T} `{Model T} (tbl : gmap Z T) : list (Z * T) :=
  map_to_list (map_imap (λ k r, Some (with_id k r)) tbl).

Definition min_entry {T} (acc : option (Z * T)) (e : Z * T)
  : option (Z * T) :=
  match acc with
  | None => Some e
  | Some a => if bool_decide (e.1 < a.1) then Some e else acc
  end.

(** [db.query(T).filter(P).order_by(T.id.asc()).first()].  The queries
    of the engine that give no order either match at most one row
    (unique columns) or are only tested for a result, so they are read
    with this order too. *)
Definition query_first {T} `{Model T} (P : T → bool) (tbl : gmap Z T)
  : option T :=
  snd <$> foldl min_entry None (List.filter (λ e, P e.2) (rows tbl)).

(** [db.add(obj)] for a new object, as of the flush: the database
    assigns a primary key not yet in the table. *)
Definition db_add {T} `{Model T} (obj : T) (tbl : gmap Z T)
  : T * gmap Z T :=
  let k := fresh (dom tbl) in
  (with_id k obj, <[k := with_id k obj]> tbl).

(** The tables of the database as the session sees them.  The engine
    never writes [equipment_types]; it is the target of the foreign key
    of [EquipmentModel.equipment_type_id]. *)
Module Session.
Record t : Type := mk {
  request_statuses : gmap Z RequestStatus.t;
  users : gmap Z User.t;
  equipment_models : gmap Z EquipmentModel.t;
  issue_types : gmap Z IssueType.t;
  repair_requests : gmap Z RepairRequest.t;
  request_comments : gmap Z RequestComment.t;
  help_requests : gmap Z HelpRequest.t;
  equipment_types : gmap Z EquipmentType.t
}.

Definition set_equipment_models v (db : t) : t :=
  mk (request_statuses db) (users db) v (issue_types db)
     (repair_requests db) (request_comments db) (help_requests db)
     (equipment_types db).
Definition set_issue_types v (db : t) : t :=
  mk (request_statuses db) (users db) (equipment_models db) v
     (repair_requests db) (request_comments db) (help_requests db)
     (equipment_types db).
Definition set_repair_requests v (db : t) : t :=
  mk (request_statuses db) (users db) (equipment_models db) (issue_types db)
     v (request_comments db) (help_requests db) (equipment_types db).
Definition set_request_comments v (db : t) : t :=
  mk (request_statuses db) (users db) (equipment_models db) (issue_types db)
     (repair_requests db) v (help_requests db) (equipment_types db).
Definition set_help_requests v (db : t) : t :=
  mk (request_statuses db) (users db) (equipment_models db) (issue_types db)
     (repair_requests db) (request_comments db) v (equipment_types db).
End Session.

(** [db.get(models.RepairRequest, k)]: the object with its [status]
    relationship read through [status_id]. *)
Definition db_get_request (db : Session.t) (k : Z)
  : option RepairRequest.t :=
  (λ r,
     RepairRequest.set_status
       (RepairRequest.status_id r ≫= db_get (Session.request_statuses db)) r)
  <$> db_get (Session.repair_requests db) k.

(** An attribute assignment on a loaded (persistent) object is an
    assignment to the object the session holds. *)
Definition put_request (k : Z) (req : RepairRequest.t) (db : Session.t)
  : Session.t :=
  Session.set_repair_requests (<[k := req]> (Session.repair_requests db)) db.

Definition put_help_request (k : Z) (h : HelpRequest.t) (db : Session.t)
  : Session.t :=
  Session.set_help_requests (<[k := h]> (Session.help_requests db)) db.

(** ** app/services.py *)

Module services.

Definition ROLE_MANAGER : str := Eval vm_compute in lit "Менеджер".
Definition ROLE_MASTER : str := Eval vm_compute in lit "Мастер".
Definition ROLE_SPECIALIST : str := Eval vm_compute in lit "Специалист".
Definition ROLE_OPERATOR : str := Eval vm_compute in lit "Оператор".
Definition ROLE_CLIENT : str := Eval vm_compute in lit "Заказчик".
Definition ROLE_QUALITY_MANAGER : str :=
  Eval vm_compute in lit "Менеджер по качеству".

Definition is_master_role (role : str) : bool :=
  in_ role [ROLE_MASTER; ROLE_SPECIALIST].

Definition normalize_issue_type_name (problem_description : str) : str :=
  let text := strip problem_description in
  match text with
  | [] => lit "Не указано"
  | _ =>
      if bool_decide (List.length text ≤ 255)%nat then text
      else rstrip (take 252 text) ++ lit "..."
  end.

(** A created object gets its [id] from [db_add] (the flush); the
    [0] in the constructor is a placeholder.

    The flush sends the [INSERT], which the database refuses in two
    cases that the code does not exclude: [name] is a [String(200)], so
    a longer name ends in a [DataError], and [equipment_type_id] is a
    foreign key, so an id that names no equipment type ends in an
    [IntegrityError].  The width is checked when the row is formed, the
    foreign key after it is inserted.  The refused row is not in the
    table. *)
Definition get_or_create_equipment_model (db : Session.t)
    (equipment_type_id : Z) (model_name : str)
  : result EquipmentModel.t * Session.t :=
  let cleaned_name := strip model_name in
  match
    query_first
      (λ m, bool_decide (EquipmentModel.equipment_type_id m
                         = equipment_type_id)
            && bool_decide (EquipmentModel.name m = cleaned_name))
      (Session.equipment_models db)
  with
  | Some existing => (Ok existing, db)
  | None =>
      if bool_decide (200 < List.length cleaned_name)%nat
      then (Raise DataError, db)
      else if bool_decide (Session.equipment_types db !! equipment_type_id
                           = None)
      then (Raise IntegrityError, db)
      else
        let '(created, tbl) :=
          db_add (EquipmentModel.mk 0 equipment_type_id cleaned_name)
            (Session.equipment_models db) in
        (Ok created, Session.set_equipment_models tbl db)
  end.

Definition get_or_create_issue_type (db : Session.t)
    (problem_description : str) : IssueType.t * Session.t :=
  let name := normalize_issue_type_name problem_description in
  match
    query_first (λ i, bool_decide (IssueType.name i = name))
      (Session.issue_types db)
  with
  | Some existing => (existing, db)
  | None =>
      let '(created, tbl) :=
        db_add (IssueType.mk 0 name) (Session.issue_types db) in
      (created, Session.set_issue_types tbl db)
  end.

Definition get_new_request_status (db : Session.t)
  : result RequestStatus.t :=
  match
    query_first
      (λ s, bool_decide (RequestStatus.name s = lit "Новая заявка"))
      (Session.request_statuses db)
  with
  | Some status => Ok status
  | None =>
      match
        query_first (λ s, negb (RequestStatus.is_final s))
          (Session.request_statuses db)
      with
      | Some status => Ok status
      | None => Raise RuntimeError
      end
  end.

(** *** Authentication *)

Section authenticate.

(** [verify_password] rests on PBKDF2 and Base64, which are outside
    this development: it is any test of a password against a stored
    hash. *)
Variable verify_password : str → str → bool.

Definition authenticate_user (db : Session.t) (login password : str)
  : option User.t :=
  let login_clean := strip login in
  match login_clean with
  | [] => None
  | _ =>
      match
        query_first (λ u, bool_decide (User.login u = login_clean))
          (Session.users db)
      with
      | None => None
      | Some user =>
          if negb (verify_password password (User.password_hash user))
          then None
          else Some user
      end
  end.

End authenticate.

(** *** Statistics *)

Module RequestRow.
Record t : Type := mk {
  start_date : date;
  completion_date : option date;
  status_is_final : bool;
  equipment_type : str;
  issue_type : str
}.
End RequestRow.

(** The local variables of the loop of
    [calculate_statistics_from_rows]. *)
Module Counters.
Record t : Type := mk {
  total_requests : Z;
  completed_requests : Z;
  durations_days : list Z;
  by_equipment_type : list (str * Z);
  by_issue_type : list (str * Z)
}.
End Counters.

(** [(name or "").strip() or "Не указано"] *)
Definition display_name (name : str) : str :=
  match strip name with
  | [] => lit "Не указано"
  | text => text
  end.

(** One turn of the loop.  [(a - b).days] on dates is the difference
    of their ordinals; the [continue] skips only the [append]. *)
Definition count_row (acc : Counters.t) (r : RequestRow.t) : Counters.t :=
  let total_requests := Counters.total_requests acc + 1 in
  let equipment_name := display_name (RequestRow.equipment_type r) in
  let by_equipment_type :=
    dict_incr equipment_name (Counters.by_equipment_type acc) in
  let issue_name := display_name (RequestRow.issue_type r) in
  let by_issue_type := dict_incr issue_name (Counters.by_issue_type acc) in
  match RequestRow.status_is_final r, RequestRow.completion_date r with
  | true, Some completion_date =>
      let completed_requests := Counters.completed_requests acc + 1 in
      let delta := completion_date - RequestRow.start_date r in
      if bool_decide (delta < 0) then
        Counters.mk total_requests completed_requests
          (Counters.durations_days acc) by_equipment_type by_issue_type
      else
        Counters.mk total_requests completed_requests
          (Counters.durations_days acc ++ [delta]) by_equipment_type
          by_issue_type
  | _, _ =>
      Counters.mk total_requests (Counters.completed_requests acc)
        (Counters.durations_days acc) by_equipment_type by_issue_type
  end.

(** The returned [dict].  [average_repair_time_days] holds the two
    operands of the true division [sum(durations_days) /
    len(durations_days)], whose quotient, as a float, is the value of
    that key. *)
Module Statistics.
Record t : Type := mk {
  total_requests : Z;
  completed_requests : Z;
  average_repair_time_days : option (Z * Z);
  by_equipment_type : list (str * Z);
  by_issue_type : list (str * Z)
}.
End Statistics.

Definition calculate_statistics_from_rows (rows : list RequestRow.t)
  : Statistics.t :=
  let acc := foldl count_row (Counters.mk 0 0 [] [] []) rows in
  let durations_days := Counters.durations_days acc in
  let average_repair_time_days :=
    match durations_days with
    | [] => None
    | _ =>
        Some (foldr Z.add 0 durations_days,
              Z.of_nat (List.length durations_days))
    end in
  Statistics.mk (Counters.total_requests acc)
    (Counters.completed_requests acc) average_repair_time_days
    (sorted_items (Counters.by_equipment_type acc))
    (sorted_items (Counters.by_issue_type acc)).

(** *** Overdue tickets *)

(** The order of [order_by(due_date.asc(), id.asc())] on rows that
    carry their due date and id. *)
Definition by_due_date_then_id (a b : Z * Z * RepairRequest.t) : Prop :=
  a.1.1 < b.1.1 ∨ (a.1.1 = b.1.1 ∧ a.1.2 ≤ b.1.2).

#[global] Instance by_due_date_then_id_dec a b :
  Decision (by_due_date_then_id a b).
Proof. unfold by_due_date_then_id. apply _. Defined.

(** The tickets that have a due date before [today] (the database's
    [current_date]) and, by the inner join, a status, which is not
    final. *)
Definition get_overdue_requests (today : date) (db : Session.t)
  : list RepairRequest.t :=
  let overdue :=
    omap
      (λ e : Z * RepairRequest.t,
         req ← db_get_request db e.1;
         status ← RepairRequest.status req;
         due_date ← RepairRequest.due_date req;
         if negb (RequestStatus.is_final status)
            && bool_decide (due_date < today)
         then Some (due_date, e.1, req)
         else None)
      (rows (Session.repair_requests db)) in
  snd <$> merge_sort by_due_date_then_id overdue.

End services.
Import services.


(** ** app/rbac.py *)

Module rbac.

Definition role_name (user : option User.t) : str :=
  match user with
  | None => lit ""
  | Some u =>
      match User.role u with
      | None => lit ""
      | Some r => UserRole.name r
      end
  end.

Definition user_can_create_request (user : User.t) : bool :=
  let r := role_name (Some user) in
  in_ r [ROLE_MANAGER; ROLE_OPERATOR; ROLE_QUALITY_MANAGER; ROLE_CLIENT].

Definition user_can_view_request (user : User.t) (req : RepairRequest.t)
  : bool :=
  let r := role_name (Some user) in
  if in_ r [ROLE_MANAGER; ROLE_OPERATOR; ROLE_QUALITY_MANAGER] then true
  else if is_master_role r then
    bool_decide (RepairRequest.master_id req = Some (User.id user))
  else if bool_decide (r = ROLE_CLIENT) then
    bool_decide (RepairRequest.client_id req = Some (User.id user))
  else false.

(** The client branch reads [req.status.is_final] only when the client
    owns the ticket ([and] short-circuits); on a ticket without a loaded
    status that read raises. *)
Definition user_can_edit_request (user : User.t) (req : RepairRequest.t)
  : result bool :=
  let r := role_name (Some user) in
  if in_ r [ROLE_MANAGER; ROLE_OPERATOR; ROLE_QUALITY_MANAGER] then Ok true
  else if is_master_role r then
    Ok (bool_decide (RepairRequest.master_id req = Some (User.id user)))
  else if bool_decide (r = ROLE_CLIENT) then
    if bool_decide (RepairRequest.client_id req = Some (User.id user)) then
      match RepairRequest.status req with
      | Some st => Ok (negb (RequestStatus.is_final st))
      | None => Raise AttributeError
      end
    else Ok false
  else Ok false.

Definition user_can_delete_request (user : User.t) : bool :=
  let r := role_name (Some user) in
  in_ r [ROLE_MANAGER; ROLE_OPERATOR].

Definition user_can_add_comment (user : User.t) (req : RepairRequest.t)
  : bool :=
  let r := role_name (Some user) in
  is_master_role r
  && bool_decide (RepairRequest.master_id req = Some (User.id user)).

Definition user_can_assign_master (user : User.t) : bool :=
  let r := role_name (Some user) in
  in_ r [ROLE_MANAGER; ROLE_OPERATOR; ROLE_QUALITY_MANAGER].

Definition user_can_change_status (user : User.t)
    (old_status new_status : RequestStatus.t) : bool :=
  let r := role_name (Some user) in
  if in_ r [ROLE_MANAGER; ROLE_OPERATOR; ROLE_QUALITY_MANAGER] then true
  else if is_master_role r then
    if bool_decide (RequestStatus.id old_status = RequestStatus.id new_status)
    then true
    else if RequestStatus.is_final old_status
            && negb (RequestStatus.is_final new_status)
    then false
    else true
  else if bool_decide (r = ROLE_CLIENT) then
    bool_decide (RequestStatus.id old_status = RequestStatus.id new_status)
  else false.

Definition user_can_manage_users (user : User.t) : bool :=
  bool_decide (role_name (Some user) = ROLE_MANAGER).

Definition user_can_view_statistics (user : User.t) : bool :=
  bool_decide (role_name (Some user) = ROLE_MANAGER).

Definition user_can_view_quality_desk (user : User.t) : bool :=
  in_ (role_name (Some user)) [ROLE_QUALITY_MANAGER; ROLE_MANAGER].

Definition user_can_create_help_request (user : User.t) : bool :=
  is_master_role (role_name (Some user)).

Definition user_can_handle_help_request (user : User.t) : bool :=
  in_ (role_name (Some user)) [ROLE_QUALITY_MANAGER; ROLE_MANAGER].

End rbac.

(** ** app/usecases.py *)

Module RequestInput.
Record t : Type := mk {
  id : option Z;
  start_date : date;
  equipment_type_id : Z;
  equipment_model_name : str;
  issue_type_id : option Z;
  problem_description : str;
  status_id : option Z;
  completion_date : option date;
  due_date : option date;
  repair_parts : option str;
  master_id : option Z;
  client_id : option Z
}.
End RequestInput.

Module HelpRequestCreateInput.
Record t : Type := mk {
  request_id : Z;
  message : str;
  proposed_due_date : option date
}.
End HelpRequestCreateInput.

Module HelpRequestCloseInput.
Record t : Type := mk {
  help_id : Z;
  resolution_note : str;
  assigned_master_id : option Z;
  new_due_date : option date
}.
End HelpRequestCloseInput.

Module usecases.

Definition _resolve_equipment_and_issue (db : Session.t)
    (data : RequestInput.t)
  : result (EquipmentModel.t * IssueType.t) * Session.t :=
  match
    services.get_or_create_equipment_model db
      (RequestInput.equipment_type_id data)
      (RequestInput.equipment_model_name data)
  with
  | (Raise e, db) => (Raise e, db)
  | (Ok equipment_model, db) =>
      let '(issue_type_obj, db) :=
        match truthy_int (RequestInput.issue_type_id data) with
        | Some issue_type_id =>
            match db_get (Session.issue_types db) issue_type_id with
            | Some issue_type_obj => (issue_type_obj, db)
            | None =>
                services.get_or_create_issue_type db
                  (RequestInput.problem_description data)
            end
        | None =>
            services.get_or_create_issue_type db
              (RequestInput.problem_description data)
        end in
      (Ok (equipment_model, issue_type_obj), db)
  end.

Definition _resolve_new_status_for_create (db : Session.t) (user : User.t)
    (data : RequestInput.t) : result RequestStatus.t :=
  let role := rbac.role_name (Some user) in
  if bool_decide (role = ROLE_CLIENT) then services.get_new_request_status db
  else
    match RequestInput.status_id data with
    | None => Raise BusinessRuleViolationError
    | Some status_id =>
        match db_get (Session.request_statuses db) status_id with
        | None => Raise BusinessRuleViolationError
        | Some status_obj => Ok status_obj
        end
    end.

(** The result is [req.status] itself where the status is kept, so it is
    [None] when the ticket has none; [old_status.id] on [None] raises. *)
Definition _resolve_new_status_for_update (db : Session.t) (user : User.t)
    (req : RepairRequest.t) (data : RequestInput.t)
  : result (option RequestStatus.t) :=
  let role := rbac.role_name (Some user) in
  let old_status := RepairRequest.status req in
  if bool_decide (role = ROLE_CLIENT) then Ok old_status
  else
    match RequestInput.status_id data with
    | None => Ok old_status
    | Some status_id =>
        match old_status with
        | None => Raise AttributeError
        | Some old =>
            if bool_decide (status_id = RequestStatus.id old)
            then Ok old_status
            else
              match db_get (Session.request_statuses db) status_id with
              | None => Raise BusinessRuleViolationError
              | Some new_status =>
                  if negb (rbac.user_can_change_status user old new_status)
                  then Raise StatusChangeForbiddenError
                  else Ok (Some new_status)
              end
        end
    end.

(** [today] is [date.today()]. *)
Definition _apply_completion_date (today : date) (req : RepairRequest.t)
    (new_status : RequestStatus.t) (data : RequestInput.t)
  : RepairRequest.t :=
  if RequestStatus.is_final new_status then
    RepairRequest.set_completion_date
      (Some (default today (RequestInput.completion_date data))) req
  else
    RepairRequest.set_completion_date (RequestInput.completion_date data) req.

Definition _apply_due_date (user : User.t) (req : RepairRequest.t)
    (data : RequestInput.t) : RepairRequest.t :=
  let role := rbac.role_name (Some user) in
  if in_ role [ROLE_MANAGER; ROLE_OPERATOR; ROLE_QUALITY_MANAGER] then
    RepairRequest.set_due_date (RequestInput.due_date data) req
  else
    match RepairRequest.id req with
    | None => RepairRequest.set_due_date None req
    | Some _ => req
    end.

Definition _apply_repair_parts (user : User.t) (req : RepairRequest.t)
    (data : RequestInput.t) : RepairRequest.t :=
  let role := rbac.role_name (Some user) in
  if in_ role [ROLE_MANAGER; ROLE_OPERATOR; ROLE_MASTER; ROLE_SPECIALIST] then
    let text := strip (or_empty (RequestInput.repair_parts data)) in
    RepairRequest.set_repair_parts (or_None text) req
  else
    match RepairRequest.id req with
    | None => RepairRequest.set_repair_parts None req
    | Some _ => req
    end.

Definition _apply_master (user : User.t) (req : RepairRequest.t)
    (data : RequestInput.t) : RepairRequest.t :=
  if rbac.user_can_assign_master user then
    RepairRequest.set_master_id (truthy_int (RequestInput.master_id data)) req
  else
    match RepairRequest.id req with
    | None => RepairRequest.set_master_id None req
    | Some _ => req
    end.

Definition _apply_client (user : User.t) (req : RepairRequest.t)
    (data : RequestInput.t) : result RepairRequest.t :=
  let role := rbac.role_name (Some user) in
  if bool_decide (role = ROLE_CLIENT) then
    Ok (RepairRequest.set_client_id (Some (User.id user)) req)
  else if in_ role [ROLE_MANAGER; ROLE_OPERATOR] then
    match truthy_int (RequestInput.client_id data) with
    | None => Raise BusinessRuleViolationError
    | Some client_id => Ok (RepairRequest.set_client_id (Some client_id) req)
    end
  else
    match RepairRequest.id req with
    | None => Raise BusinessRuleViolationError
    | Some _ => Ok req
    end.

(** The ticket a save works on, with the status it resolved: the loaded
    ticket on the edit path, a new one on the create path. *)
Definition save_request_begin (db : Session.t) (user : User.t)
    (data : RequestInput.t)
  : result (RepairRequest.t * option RequestStatus.t) :=
  match RequestInput.id data with
  | Some id =>
      match db_get_request db id with
      | None => Raise RequestNotFoundError
      | Some req =>
          do can_edit <- rbac.user_can_edit_request user req;
          if negb can_edit then Raise PermissionDeniedError
          else
            do new_status <- _resolve_new_status_for_update db user req data;
            Ok (req, new_status)
      end
  | None =>
      if negb (rbac.user_can_create_request user)
      then Raise PermissionDeniedError
      else
        do new_status <- _resolve_new_status_for_create db user data;
        Ok (RepairRequest.new, Some new_status)
  end.

(** The state of the session when a save stops on the ticket [req]: a
    loaded ticket is the session's own object, so what was assigned to
    it so far is in the session; a new ticket that was not added is
    not. *)
Definition leave_request (req : RepairRequest.t) (db : Session.t)
  : Session.t :=
  match RepairRequest.id req with
  | Some k => put_request k req db
  | None => db
  end.

(** [db.add(req)]: nothing more for a loaded ticket, an insert for a
    new one. *)
Definition add_request (req : RepairRequest.t) (db : Session.t)
  : RepairRequest.t * Session.t :=
  match RepairRequest.id req with
  | Some k => (req, put_request k req db)
  | None =>
      let '(req, tbl) := db_add req (Session.repair_requests db) in
      (req, Session.set_repair_requests tbl db)
  end.

Definition save_request (today : date) (db : Session.t) (user : User.t)
    (data : RequestInput.t) : result RepairRequest.t * Session.t :=
  match _resolve_equipment_and_issue db data with
  | (Raise e, db) => (Raise e, db)
  | (Ok (equipment_model, issue_type_obj), db) =>
      match save_request_begin db user data with
      | Raise e => (Raise e, db)
      | Ok (req, new_status) =>
          let req :=
            RepairRequest.set_start_date
              (Some (RequestInput.start_date data)) req in
          let req :=
            RepairRequest.set_equipment_model_id
              (Some (EquipmentModel.id equipment_model)) req in
          let req :=
            RepairRequest.set_issue_type_id
              (Some (IssueType.id issue_type_obj)) req in
          let req :=
            RepairRequest.set_problem_description
              (Some (RequestInput.problem_description data)) req in
          match new_status with
          | None => (Raise AttributeError, leave_request req db)
          | Some new_status =>
              let req :=
                RepairRequest.set_status_id
                  (Some (RequestStatus.id new_status)) req in
              let req :=
                _apply_completion_date today req new_status data in
              let req := _apply_due_date user req data in
              let req := _apply_repair_parts user req data in
              let req := _apply_master user req data in
              match _apply_client user req data with
              | Raise e => (Raise e, leave_request req db)
              | Ok req =>
                  let '(req, db) := add_request req db in
                  (Ok req, db)
              end
          end
      end
  end.

(** [db.delete(req)] removes the ticket and, by the cascade declared on
    its relationships, its comments and help requests. *)
Definition db_delete_request (k : Z) (db : Session.t) : Session.t :=
  Session.mk (Session.request_statuses db) (Session.users db)
    (Session.equipment_models db) (Session.issue_types db)
    (delete k (Session.repair_requests db))
    (filter (λ e, RequestComment.request_id e.2 ≠ k)
       (Session.request_comments db))
    (filter (λ e, HelpRequest.request_id e.2 ≠ k)
       (Session.help_requests db))
    (Session.equipment_types db).

Definition delete_request (db : Session.t) (user : User.t) (request_id : Z)
  : result unit * Session.t :=
  match db_get_request db request_id with
  | None => (Raise RequestNotFoundError, db)
  | Some req =>
      if negb (rbac.user_can_delete_request user)
      then (Raise PermissionDeniedError, db)
      else (Ok (), db_delete_request request_id db)
  end.

Definition add_comment (db : Session.t) (user : User.t) (request_id : Z)
    (message : str) : result RequestComment.t * Session.t :=
  match db_get_request db request_id with
  | None => (Raise RequestNotFoundError, db)
  | Some req =>
      if negb (rbac.user_can_add_comment user req)
      then (Raise PermissionDeniedError, db)
      else
        let msg_clean := strip message in
        match msg_clean with
        | [] => (Raise BusinessRuleViolationError, db)
        | _ =>
            let '(comment, tbl) :=
              db_add
                (RequestComment.mk None request_id (User.id user) msg_clean)
                (Session.request_comments db) in
            (Ok comment, Session.set_request_comments tbl db)
        end
  end.

Definition create_help_request (db : Session.t) (user : User.t)
    (data : HelpRequestCreateInput.t) : result HelpRequest.t * Session.t :=
  if negb (rbac.user_can_create_help_request user)
  then (Raise PermissionDeniedError, db)
  else
    match db_get_request db (HelpRequestCreateInput.request_id data) with
    | None => (Raise RequestNotFoundError, db)
    | Some req =>
        if bool_decide (RepairRequest.master_id req ≠ Some (User.id user))
        then (Raise PermissionDeniedError, db)
        else
          let open_exists :=
            query_first
              (λ h,
                 bool_decide (HelpRequest.request_id h
                              = HelpRequestCreateInput.request_id data)
                 && bool_decide (HelpRequest.status h = lit "open"))
              (Session.help_requests db) in
          match open_exists with
          | Some _ => (Raise HelpRequestAlreadyOpenError, db)
          | None =>
              let msg_clean := strip (HelpRequestCreateInput.message data) in
              match msg_clean with
              | [] => (Raise BusinessRuleViolationError, db)
              | _ =>
                  let '(help_req, tbl) :=
                    db_add
                      (HelpRequest.mk None
                         (HelpRequestCreateInput.request_id data)
                         (User.id user) None None (lit "open") msg_clean
                         None
                         (HelpRequestCreateInput.proposed_due_date data)
                         None)
                      (Session.help_requests db) in
                  (Ok help_req, Session.set_help_requests tbl db)
              end
          end
    end.

(** The ticket's new master, when one is requested: the [id] of the
    user found, who must carry a master-class role. *)
Definition close_help_request_master (db : Session.t)
    (data : HelpRequestCloseInput.t) : result (option Z) :=
  match HelpRequestCloseInput.assigned_master_id data with
  | None => Ok None
  | Some assigned_master_id =>
      match db_get (Session.users db) assigned_master_id with
      | None => Raise BusinessRuleViolationError
      | Some master_user =>
          match User.role master_user with
          | None => Raise AttributeError
          | Some role =>
              if negb (is_master_role (UserRole.name role))
              then Raise BusinessRuleViolationError
              else Ok (Some (User.id master_user))
          end
      end
  end.

(** [now] is [datetime.now(tz=timezone.utc)]. *)
Definition close_help_request (now : datetime) (db : Session.t)
    (user : User.t) (data : HelpRequestCloseInput.t)
  : result HelpRequest.t * Session.t :=
  if negb (rbac.user_can_handle_help_request user)
  then (Raise PermissionDeniedError, db)
  else
    match
      db_get (Session.help_requests db) (HelpRequestCloseInput.help_id data)
    with
    | None => (Raise HelpRequestNotFoundError, db)
    | Some help_req =>
        if bool_decide (HelpRequest.status help_req ≠ lit "open")
        then (Raise BusinessRuleViolationError, db)
        else
          match db_get_request db (HelpRequest.request_id help_req) with
          | None => (Raise RequestNotFoundError, db)
          | Some req =>
              let due_check : result unit :=
                match HelpRequestCloseInput.new_due_date data with
                | None => Ok ()
                | Some new_due_date =>
                    match RepairRequest.start_date req with
                    | None => Raise TypeError
                    | Some start_date =>
                        if bool_decide (new_due_date < start_date)
                        then Raise BusinessRuleViolationError
                        else Ok ()
                    end
                end in
              match due_check with
              | Raise e => (Raise e, db)
              | Ok _ =>
                  match close_help_request_master db data with
                  | Raise e => (Raise e, db)
                  | Ok new_master =>
                      let '(req, help_req) :=
                        match new_master with
                        | Some master_user_id =>
                            (RepairRequest.set_master_id
                               (Some master_user_id) req,
                             HelpRequest.set_assigned_master_id
                               (Some master_user_id) help_req)
                        | None => (req, help_req)
                        end in
                      let req :=
                        match HelpRequestCloseInput.new_due_date data with
                        | Some new_due_date =>
                            RepairRequest.set_due_date (Some new_due_date) req
                        | None => req
                        end in
                      let note_clean :=
                        strip (HelpRequestCloseInput.resolution_note data) in
                      let help_req :=
                        HelpRequest.set_resolution_note (or_None note_clean)
                          help_req in
                      let help_req :=
                        HelpRequest.set_quality_manager_id
                          (Some (User.id user)) help_req in
                      let help_req :=
                        HelpRequest.set_status (lit "closed") help_req in
                      let help_req :=
                        HelpRequest.set_closed_at (Some now) help_req in
                      let db :=
                        put_request (HelpRequest.request_id help_req) req db in
                      let db :=
                        put_help_request (HelpRequestCloseInput.help_id data)
                          help_req db in
                      (Ok help_req, db)
                  end
              end
          end
    end.

End usecases.

(** ** Predicates of the specification *)

(** The status "literally named" for new tickets. *)
Definition named_new (s : RequestStatus.t) : Prop :=
  RequestStatus.name s = lit "Новая заявка".

(** The engine operations, and the session each leaves behind. *)
Inductive operation : Type :=
  | SaveRequest (today : date) (user : User.t) (data : RequestInput.t)
  | DeleteRequest (user : User.t) (request_id : Z)
  | AddComment (user : User.t) (request_id : Z) (message : str)
  | CreateHelpRequest (user : User.t) (data : HelpRequestCreateInput.t)
  | CloseHelpRequest (now : datetime) (user : User.t)
      (data : HelpRequestCloseInput.t).

Definition run (op : operation) (db : Session.t) : Session.t :=
  match op with
  | SaveRequest today user data =>
      (usecases.save_request today db user data).2
  | DeleteRequest user request_id =>
      (usecases.delete_request db user request_id).2
  | AddComment user request_id message =>
      (usecases.add_comment db user request_id message).2
  | CreateHelpRequest user data =>
      (usecases.create_help_request db user data).2
  | CloseHelpRequest now user data =>
      (usecases.close_help_request now db user data).2
  end.

Definition succeeds (op : operation) (db : Session.t) : bool :=
  match op with
  | SaveRequest today user data =>
      is_Ok (usecases.save_request today db user data).1
  | DeleteRequest user request_id =>
      is_Ok (usecases.delete_request db user request_id).1
  | AddComment user request_id message =>
      is_Ok (usecases.add_comment db user request_id message).1
  | CreateHelpRequest user data =>
      is_Ok (usecases.create_help_request db user data).1
  | CloseHelpRequest now user data =>
      is_Ok (usecases.close_help_request now db user data).1
  end.

(** The callers in main.py commit after a call that returns and roll
    back after one that raises. *)
Definition transaction (op : operation) (db : Session.t) : Session.t :=
  if succeeds op db then run op db else db.

(** A store with reference data and users only. *)
Definition initial (db : Session.t) : Prop :=
  Session.repair_requests db = ∅
  ∧ Session.request_comments db = ∅
  ∧ Session.help_requests db = ∅.

(** The stores the engine can produce: after any call, committed or
    not yet rolled back. *)
Inductive reachable : Session.t → Prop :=
  | reachable_initial db : initial db → reachable db
  | reachable_run op db : reachable db → reachable (run op db)
  | reachable_transaction op db :
      reachable db → reachable (transaction op db).

Definition is_open (h : HelpRequest.t) : Prop :=
  HelpRequest.status h = lit "open".

(** At most one open help request per ticket. *)
Definition at_most_one_open (db : Session.t) : Prop :=
  ∀ k1 k2 h1 h2,
    Session.help_requests db !! k1 = Some h1 →
    Session.help_requests db !! k2 = Some h2 →
    is_open h1 → is_open h2 →
    HelpRequest.request_id h1 = HelpRequest.request_id h2 →
    k1 = k2.

(** [completion_date] is set on every ticket whose current status is
    final. *)
Definition completion_set_when_final (db : Session.t) : Prop :=
  ∀ k req st,
    Session.repair_requests db !! k = Some req →
    RepairRequest.status_id req ≫= db_get (Session.request_statuses db)
      = Some st →
    RequestStatus.is_final st = true →
    is_Some (RepairRequest.completion_date req).

(** The outcome of a save, in four cases: the database refused the
    equipment model; it stopped before touching a ticket; it stopped
    midway on a ticket; it went through. *)
Inductive save_outcome (today : date) (db : Session.t) (user : User.t)
    (data : RequestInput.t) : Prop :=
  | save_not_started e :
      usecases._resolve_equipment_and_issue db data = (Raise e, db) →
      is_SQLAlchemyError e = true →
      usecases.save_request today db user data = (Raise e, db) →
      save_outcome today db user data
  | save_stopped_early db1 e :
      (usecases._resolve_equipment_and_issue db data).2 = db1 →
      usecases.save_request_begin db1 user data = Raise e →
      usecases.save_request today db user data = (Raise e, db1) →
      save_outcome today db user data
  | save_stopped_midway db1 req0 new_status req1 e :
      (usecases._resolve_equipment_and_issue db data).2 = db1 →
      usecases.save_request_begin db1 user data = Ok (req0, new_status) →
      RepairRequest.id req1 = RepairRequest.id req0 →
      (RepairRequest.status_id req1 = RepairRequest.status_id req0
       ∧ RepairRequest.completion_date req1
         = RepairRequest.completion_date req0
       ∨ ∃ ns, new_status = Some ns
           ∧ RepairRequest.status_id req1 = Some (RequestStatus.id ns)
           ∧ RepairRequest.completion_date req1
             = if RequestStatus.is_final ns
               then Some (default today (RequestInput.completion_date data))
               else RequestInput.completion_date data) →
      e = match new_status with
          | None => AttributeError
          | Some _ => BusinessRuleViolationError
          end →
      usecases.save_request today db user data
        = (Raise e, usecases.leave_request req1 db1) →
      save_outcome today db user data
  | save_done db1 req0 ns req1 :
      (usecases._resolve_equipment_and_issue db data).2 = db1 →
      usecases.save_request_begin db1 user data = Ok (req0, Some ns) →
      RepairRequest.id req1 = RepairRequest.id req0 →
      RepairRequest.status_id req1 = Some (RequestStatus.id ns) →
      RepairRequest.completion_date req1
        = (if RequestStatus.is_final ns
           then Some (default today (RequestInput.completion_date data))
           else RequestInput.completion_date data) →
      RepairRequest.client_id req1
        = (if bool_decide (rbac.role_name (Some user) = ROLE_CLIENT)
           then Some (User.id user)
           else if in_ (rbac.role_name (Some user))
                     [ROLE_MANAGER; ROLE_OPERATOR]
                then truthy_int (RequestInput.client_id data)
                else RepairRequest.client_id req0) →
      (bool_decide (rbac.role_name (Some user) = ROLE_CLIENT) = false →
       in_ (rbac.role_name (Some user)) [ROLE_MANAGER; ROLE_OPERATOR]
         = false →
       is_Some (RepairRequest.id req0)) →
      usecases.save_request today db user data
        = (Ok (usecases.add_request req1 db1).1,
           (usecases.add_request req1 db1).2) →
      save_outcome today db user data.

(** The ticket and the help request as a close that goes through
    leaves them, [new_master] being the [id] of the user found for a
    requested master. *)
Definition ticket_after_close (new_master : option Z)
    (new_due_date : option date) (req : RepairRequest.t) : RepairRequest.t :=
  let req :=
    match new_master with
    | Some m => RepairRequest.set_master_id (Some m) req
    | None => req
    end in
  match new_due_date with
  | Some d => RepairRequest.set_due_date (Some d) req
  | None => req
  end.

Definition help_request_after_close (now : datetime) (user : User.t)
    (new_master : option Z) (resolution_note : str) (h : HelpRequest.t)
  : HelpRequest.t :=
  HelpRequest.mk (HelpRequest.id h) (HelpRequest.request_id h)
    (HelpRequest.created_by_master_id h) (Some (User.id user))
    (match new_master with
     | Some m => Some m
     | None => HelpRequest.assigned_master_id h
     end)
    (lit "closed") (HelpRequest.message h)
    (or_None (strip resolution_note))
    (HelpRequest.proposed_due_date h) (Some now).

(** The help request an escalation that goes through creates, before
    the database numbers it. *)
Definition opened_help_request (user : User.t)
    (data : HelpRequestCreateInput.t) : HelpRequest.t :=
  HelpRequest.mk None (HelpRequestCreateInput.request_id data)
    (User.id user) None None (lit "open")
    (strip (HelpRequestCreateInput.message data)) None
    (HelpRequestCreateInput.proposed_due_date data) None.

(** The query of [create_help_request] for an open help request of
    ticket [request_id]. *)
Definition open_for (request_id : Z) (h : HelpRequest.t) : bool :=
  bool_decide (HelpRequest.request_id h = request_id)
  && bool_decide (HelpRequest.status h = lit "open").

(** Exchanging the roles Master and Specialist: on a role name, on a
    user, and on the users of a session whose ids [who] selects. *)
Definition swap_role_name (r : str) : str :=
  if bool_decide (r = ROLE_MASTER) then ROLE_SPECIALIST
  else if bool_decide (r = ROLE_SPECIALIST) then ROLE_MASTER
  else r.

Definition swap_role (u : User.t) : User.t :=
  User.mk (User.id u) (User.fio u) (User.phone u) (User.login u)
    (User.password_hash u) (User.role_id u)
    ((λ r, UserRole.mk (UserRole.id r) (swap_role_name (UserRole.name r)))
       <$> User.role u).

Definition swap_roles_in (who : Z → bool) (db : Session.t) : Session.t :=
  Session.mk (Session.request_statuses db)
    (map_imap (λ k u, Some (if who k then swap_role u else u))
       (Session.users db))
    (Session.equipment_models db) (Session.issue_types db)
    (Session.repair_requests db) (Session.request_comments db)
    (Session.help_requests db) (Session.equipment_types db).

(** The uniqueness the schema declares: [IssueType.name] is unique,
    and so is the pair of equipment type and name of an
    [EquipmentModel] ([uq_equipment_model_type_name]). *)
Definition issue_type_names_unique (db : Session.t) : Prop :=
  ∀ k1 k2 x1 x2,
    Session.issue_types db !! k1 = Some x1 →
    Session.issue_types db !! k2 = Some x2 →
    IssueType.name x1 = IssueType.name x2 →
    k1 = k2.

Definition equipment_models_unique (db : Session.t) : Prop :=
  ∀ k1 k2 x1 x2,
    Session.equipment_models db !! k1 = Some x1 →
    Session.equipment_models db !! k2 = Some x2 →
    EquipmentModel.equipment_type_id x1 = EquipmentModel.equipment_type_id x2 →
    EquipmentModel.name x1 = EquipmentModel.name x2 →
    k1 = k2.

(** The two states of a help request as the engine writes them: open,
    with nothing of a close on it, or closed, with the closing actor
    and the time of the close; and its message, trimmed and not
    empty. *)
Definition help_request_well_formed (h : HelpRequest.t) : Prop :=
  (HelpRequest.status h = lit "open"
   ∧ HelpRequest.quality_manager_id h = None
   ∧ HelpRequest.assigned_master_id h = None
   ∧ HelpRequest.resolution_note h = None
   ∧ HelpRequest.closed_at h = None
   ∨ HelpRequest.status h = lit "closed"
     ∧ is_Some (HelpRequest.quality_manager_id h)
     ∧ is_Some (HelpRequest.closed_at h))
  ∧ HelpRequest.message h ≠ []
  ∧ strip (HelpRequest.message h) = HelpRequest.message h.

Definition help_requests_well_formed (db : Session.t) : Prop :=
  ∀ k h, Session.help_requests db !! k = Some h → help_request_well_formed h.

(** Every comment and every help request belongs to a ticket of the
    store, and the message of every comment is trimmed and not
    empty. *)
Definition references_intact (db : Session.t) : Prop :=
  (∀ k c, Session.request_comments db !! k = Some c →
          is_Some (Session.repair_requests db !! RequestComment.request_id c)
          ∧ RequestComment.message c ≠ []
          ∧ strip (RequestComment.message c) = RequestComment.message c)
  ∧ (∀ k h, Session.help_requests db !! k = Some h →
            is_Some (Session.repair_requests db !! HelpRequest.request_id h)).

(** The ticket of a save after the four assignments that open the
    body of [save_request], and after the assignment of the status and
    the four gates that follow and cannot raise. *)
Definition save_request_base (data : RequestInput.t)
    (equipment_model : EquipmentModel.t) (issue_type_obj : IssueType.t)
    (req : RepairRequest.t) : RepairRequest.t :=
  RepairRequest.set_problem_description
    (Some (RequestInput.problem_description data))
    (RepairRequest.set_issue_type_id (Some (IssueType.id issue_type_obj))
       (RepairRequest.set_equipment_model_id
          (Some (EquipmentModel.id equipment_model))
          (RepairRequest.set_start_date
             (Some (RequestInput.start_date data)) req))).

Definition save_request_gated (today : date) (user : User.t)
    (data : RequestInput.t) (equipment_model : EquipmentModel.t)
    (issue_type_obj : IssueType.t) (new_status : RequestStatus.t)
    (req : RepairRequest.t) : RepairRequest.t :=
  usecases._apply_master user
    (usecases._apply_repair_parts user
       (usecases._apply_due_date user
          (usecases._apply_completion_date today
             (RepairRequest.set_status_id
                (Some (RequestStatus.id new_status))
                (save_request_base data equipment_model issue_type_obj req))
             new_status data)
          data)
       data)
    data.

(** The value a column had on the stored ticket an input names; [None]
    for an input without an id. *)
Definition prior {A} (db : Session.t) (data : RequestInput.t)
    (column : RepairRequest.t → option A) : option A :=
  match RequestInput.id data with
  | Some k => Session.repair_requests db !! k ≫= column
  | None => None
  end.

(** The columns of a ticket that the schema declares [NOT NULL] are
    set, and its equipment model, issue type and status are rows of
    the store. *)
Definition ticket_well_formed (db : Session.t) (r : RepairRequest.t) : Prop :=
  is_Some (RepairRequest.start_date r)
  ∧ is_Some (RepairRequest.problem_description r)
  ∧ is_Some (RepairRequest.client_id r)
  ∧ is_Some (RepairRequest.equipment_model_id r
               ≫= (Session.equipment_models db !!.))
  ∧ is_Some (RepairRequest.issue_type_id r ≫= (Session.issue_types db !!.))
  ∧ is_Some (RepairRequest.status_id r
               ≫= (Session.request_statuses db !!.)).

Definition tickets_well_formed (db : Session.t) : Prop :=
  ∀ k r, Session.repair_requests db !! k = Some r → ticket_well_formed db r.

(** ** app/ui_utils.py *)

Module ui_utils.

Module Message.
Record t : Type := mk { type : str; title : str; text : str }.
End Message.

(** The [mapping] of [build_status_messages]: a [dict] literal, whose
    keys are distinct. *)
Definition mapping : list (str * (str * str * str)) :=
  [(lit "login_required",
    (lit "warning",
     lit "Требуется вход",
     lit "Для продолжения войдите в систему."));
   (lit "login_failed",
    (lit "error",
     lit "Ошибка входа",
     lit "Неверный логин или пароль."));
   (lit "logout_ok",
    (lit "info",
     lit "Выход выполнен",
     lit "Сеанс завершён."));
   (lit "request_created",
    (lit "success",
     lit "Заявка создана",
     lit "Новая заявка успешно сохранена."));
   (lit "request_updated",
    (lit "success",
     lit "Заявка обновлена",
     lit "Изменения успешно сохранены."));
   (lit "request_deleted",
    (lit "info",
     lit "Заявка удалена",
     lit "Запись удалена без ошибок."));
   (lit "request_not_found",
    (lit "error",
     lit "Заявка не найдена",
     lit "Запрошенная заявка не существует или уже удалена."));
   (lit "forbidden",
    (lit "error",
     lit "Доступ запрещён",
     lit "У вас нет прав на выполнение этого действия."));
   (lit "forbidden_status_change",
    (lit "error",
     lit "Недопустимое изменение статуса",
     lit "У вас нет прав изменять статус этой заявки."));
   (lit "comment_added",
    (lit "success",
     lit "Комментарий добавлен",
     lit "Сообщение мастера сохранено."));
   (lit "comment_empty",
    (lit "error",
     lit "Комментарий не сохранён",
     lit "Текст комментария не может быть пустым."));
   (lit "db_error",
    (lit "error",
     lit "Ошибка сохранения",
     lit ("Не удалось сохранить изменения. "
          ++ "Повторите попытку позже или обратитесь к администратору.")));
   (lit "user_created",
    (lit "success",
     lit "Пользователь создан",
     lit "Новый пользователь успешно добавлен в систему."));
   (lit "user_updated",
    (lit "success",
     lit "Пользователь обновлён",
     lit "Изменения данных пользователя сохранены."));
   (lit "user_deleted",
    (lit "info",
     lit "Пользователь удалён",
     lit "Запись пользователя удалена."));
   (lit "user_delete_failed",
    (lit "error",
     lit "Удаление невозможно",
     lit "Невозможно удалить пользователя, так как он связан с заявками или комментариями."));
   (lit "user_not_found",
    (lit "error",
     lit "Пользователь не найден",
     lit "Запрошенный пользователь не существует или уже удалён."));
   (lit "help_created",
    (lit "success",
     lit "Запрос помощи создан",
     lit "Запрос помощи отправлен менеджеру по качеству."));
   (lit "help_closed",
    (lit "success",
     lit "Запрос помощи закрыт",
     lit "Запрос помощи обработан и закрыт."));
   (lit "help_exists",
    (lit "warning",
     lit "Запрос уже существует",
     lit "По этой заявке уже есть открытый запрос помощи."));
   (lit "help_not_found",
    (lit "error",
     lit "Запрос помощи не найден",
     lit "Запрошенная запись не существует или уже удалена."))].

(** [mapping.get(code)] *)
Definition mapping_get (code : str) : option (str * str * str) :=
  (λ found, found.2.2) <$> list_find (λ item, item.1 = code) mapping.

(** [code] is [request.query_params.get("status")]: [None] when the
    query has no such parameter. *)
Definition build_status_messages (code : option str) : list Message.t :=
  match code with
  | None | Some [] => []
  | Some code =>
      match mapping_get code with
      | None => []
      | Some (msg_type, title, text) => [Message.mk msg_type title text]
      end
  end.

End ui_utils.

(** The exception a call ends with, if any. *)
Definition error {A} (r : result A) : option exn :=
  match r with
  | Ok _ => None
  | Raise e => Some e
  end.

Definition raised (op : operation) (db : Session.t) : option exn :=
  match op with
  | SaveRequest today user data =>
      error (usecases.save_request today db user data).1
  | DeleteRequest user request_id =>
      error (usecases.delete_request db user request_id).1
  | AddComment user request_id message =>
      error (usecases.add_comment db user request_id message).1
  | CreateHelpRequest user data =>
      error (usecases.create_help_request db user data).1
  | CloseHelpRequest now user data =>
      error (usecases.close_help_request now db user data).1
  end.

(** Every stored user has a role, as [role_id] is [NOT NULL] and a
    foreign key. *)
Definition users_have_roles (db : Session.t) : Prop :=
  ∀ k u, Session.users db !! k = Some u → is_Some (User.role u).

(** A save whose equipment model the database refuses, [e] being the
    exception of the flush. *)
Definition equipment_model_refused (op : operation) (db : Session.t)
    (e : exn) : Prop :=
  ∃ today user data,
    op = SaveRequest today user data
    ∧ (services.get_or_create_equipment_model db
         (RequestInput.equipment_type_id data)
         (RequestInput.equipment_model_name data)).1 = Raise e.

(** The one call that, on a well-formed store, ends on an exception
    that is neither a [DomainError] nor one of the database: a Client
    creates a ticket and the store has no status for it. *)
Definition client_create_without_status (op : operation) (db : Session.t)
  : Prop :=
  ∃ today user data,
    op = SaveRequest today user data
    ∧ rbac.role_name (Some user) = ROLE_CLIENT
    ∧ RequestInput.id data = None
    ∧ ∀ k st, db_get (Session.request_statuses db) k = Some st →
              ¬ named_new st ∧ RequestStatus.is_final st = true.

(** A row counts as completed when its status is final and it has a
    completion date; its days of repair enter the average when the
    completion date is not before the start date. *)
Definition is_completed (r : RequestRow.t) : Prop :=
  RequestRow.status_is_final r = true
  ∧ is_Some (RequestRow.completion_date r).

#[global] Instance is_completed_dec r : Decision (is_completed r).
Proof. unfold is_completed. apply _. Defined.

Definition repair_days (r : RequestRow.t) : option Z :=
  if RequestRow.status_is_final r then
    completion_date ← RequestRow.completion_date r;
    let delta := completion_date - RequestRow.start_date r in
    if bool_decide (0 ≤ delta) then Some delta else None
  else None.

(** [d] is the breakdown of [rows] by [name]: it has one item for each
    name that occurs, with the number of rows under that name, and its
    items come by falling count and, among equal counts, by rising
    name. *)
Definition breakdown_of (rows : list RequestRow.t)
    (name : RequestRow.t → str) (d : list (str * Z)) : Prop :=
  NoDup d.*1
  ∧ (∀ k n, (k, n) ∈ d ↔
            0 < n
            ∧ n = Z.of_nat
                    (List.length
                       (filter (λ r, display_name (name r) = k) rows)))
  ∧ (∀ i j a b, d !! i = Some a → d !! j = Some b → (i < j)%nat →
                b.2 < a.2 ∨ (b.2 = a.2 ∧ str_le a.1 b.1 = true)).

(** [login] is declared unique in the schema. *)
Definition logins_unique (db : Session.t) : Prop :=
  ∀ k1 k2 u1 u2,
    Session.users db !! k1 = Some u1 →
    Session.users db !! k2 = Some u2 →
    User.login u1 = User.login u2 → k1 = k2.

(** ** Sample data, in the manner of the fixtures of tests/ *)

Module fixtures.

Definition make_user (user_id : Z) (role_name : str) : User.t :=
  User.mk user_id (lit "User") (lit "000") (lit "u") (lit "x") 1
    (Some (UserRole.mk 1 role_name)).

Definition make_status (id : Z) (name : str) (is_final : bool)
  : RequestStatus.t :=
  RequestStatus.mk id name is_final.

(** A ticket as the session loads it. *)
Definition make_request (id : Z) (client_id master_id : Z)
    (status : RequestStatus.t) : RepairRequest.t :=
  RepairRequest.mk (Some id) (Some 738521) (Some 1) (Some 1) (Some (lit "x"))
    (Some (RequestStatus.id status)) None None None (Some master_id)
    (Some client_id) (Some status).

Definition st_new : RequestStatus.t := make_status 1 (lit "Новая заявка") false.
Definition st_work : RequestStatus.t := make_status 2 (lit "В работе") false.
Definition st_done : RequestStatus.t := make_status 3 (lit "Завершена") true.

Definition manager : User.t := make_user 1 ROLE_MANAGER.
Definition master : User.t := make_user 2 ROLE_MASTER.
Definition specialist : User.t := make_user 3 ROLE_SPECIALIST.
Definition quality : User.t := make_user 4 ROLE_QUALITY_MANAGER.
Definition operator : User.t := make_user 5 ROLE_OPERATOR.
Definition client : User.t := make_user 7 ROLE_CLIENT.

Definition db_empty : Session.t := Session.mk ∅ ∅ ∅ ∅ ∅ ∅ ∅ ∅.

(** The one equipment type of the sample stores. *)
Definition equipment_types : gmap Z EquipmentType.t :=
  {[ 1 := EquipmentType.mk 1 (lit "Кондиционер") ]}.



Definition db_statuses : Session.t :=
  Session.mk (<[1 := st_new]> (<[2 := st_work]> {[ 3 := st_done ]}))
    ∅ ∅ ∅ ∅ ∅ ∅ equipment_types.

(** A new ticket as the request form submits it. *)
Definition new_ticket (status_id client_id : option Z) : RequestInput.t :=
  RequestInput.mk None 738521 1 (lit "LG") None (lit "broken")
    status_id None None None None client_id.

Definition all_users : gmap Z User.t :=
  list_to_map
    ((λ u, (User.id u, u))
       <$> [manager; master; specialist; quality; operator; client]).

(** Ticket 10 of client 7, assigned to master 2, in work since day
    738521; and the same store with an open help request 1 on it. *)
Definition db_ticket : Session.t :=
  Session.mk (<[1 := st_new]> (<[2 := st_work]> {[ 3 := st_done ]}))
    all_users ∅ ∅ {[ 10 := make_request 10 7 2 st_work ]} ∅ ∅
    equipment_types.

Definition help_open : HelpRequest.t :=
  HelpRequest.mk (Some 1) 10 2 None None (lit "open") (lit "need parts")
    None None None.

Definition db_escalated : Session.t :=
  Session.set_help_requests {[ 1 := help_open ]} db_ticket.

(** Ticket 10 in a final status, with no help request on it. *)
Definition db_done : Session.t :=
  Session.mk (<[1 := st_new]> (<[2 := st_work]> {[ 3 := st_done ]}))
    all_users ∅ ∅ {[ 10 := make_request 10 7 2 st_done ]} ∅ ∅
    equipment_types.

(** An escalation of ticket 10. *)
Definition help_input (message : str) : HelpRequestCreateInput.t :=
  HelpRequestCreateInput.mk 10 message None.

(** Ticket 10 as the request form submits it for an update. *)
Definition edit_ticket (status_id client_id : option Z) : RequestInput.t :=
  RequestInput.mk (Some 10) 738521 1 (lit "LG") None (lit "broken")
    status_id None None None None client_id.

(** A new ticket for equipment of a type that is not stored. *)
Definition unknown_type_ticket : RequestInput.t :=
  RequestInput.mk None 738521 99 (lit "LG") None (lit "broken")
    (Some 1) None None None None (Some 7).

(** The object a call returned. *)
Definition returned (r : result RepairRequest.t) : RepairRequest.t :=
  match r with
  | Ok req => req
  | Raise _ => RepairRequest.new
  end.

Definition returned_help (r : result HelpRequest.t) : HelpRequest.t :=
  match r with
  | Ok h => h
  | Raise _ => help_open
  end.

(** The quality desk closes help request 1. *)
Definition close_input (assigned_master_id : option Z)
    (new_due_date : option date) : HelpRequestCloseInput.t :=
  HelpRequestCloseInput.mk 1 (lit "  replaced the pump ") assigned_master_id
    new_due_date.

(** Ticket 10, in work, was due on day 738530. *)
Definition db_due : Session.t :=
  put_request 10
    (RepairRequest.set_due_date (Some 738530)
       (make_request 10 7 2 st_work))
    db_ticket.

(** The rows of tests/test_statistics.py. *)
Definition statistics_rows : list RequestRow.t :=
  [RequestRow.mk 738521 (Some 738526) true (lit "Кондиционер")
     (lit "Не охлаждает");
   RequestRow.mk 738530 (Some 738531) true (lit "Кондиционер")
     (lit "Шумит");
   RequestRow.mk 738552 None false (lit "Увлажнитель") (lit "Запах")].

End fixtures.

(** * Properties *)

Lemma in_true (x : str) (t : list str) : in_ x t = true ↔ x ∈ t.
Proof. unfold in_. apply bool_decide_eq_true. Qed.

(** The six role names are pairwise different, and none is empty. *)
Lemma role_names_NoDup :
  NoDup [ROLE_MANAGER; ROLE_OPERATOR; ROLE_QUALITY_MANAGER;
         ROLE_MASTER; ROLE_SPECIALIST; ROLE_CLIENT; lit ""].
Proof. apply (bool_decide_unpack _). vm_compute. exact I. Qed.

Lemma in_cons (x y : str) (t : list str) :
  in_ x (y :: t) = bool_decide (x = y) || in_ x t.
Proof.
  unfold in_. destruct (decide (x = y)) as [->|Hne].
  - rewrite (bool_decide_eq_true_2 (y = y)) by done. simpl.
    apply bool_decide_eq_true_2. left.
  - rewrite (bool_decide_eq_false_2 (x = y)) by done. simpl.
    apply bool_decide_ext. rewrite elem_of_cons. tauto.
Qed.

Lemma in_nil (x : str) : in_ x [] = false.
Proof. unfold in_. apply bool_decide_eq_false_2. apply not_elem_of_nil. Qed.

(** Two different role-name literals are different strings. *)
Ltac role_neq :=
  let H := fresh in
  intro H; vm_compute in H; discriminate H.

(** Evaluates the membership and equality tests on role names once the
    role name is a literal or is known to differ from the literals. *)
Ltac eval_roles :=
  unfold is_master_role; rewrite ?in_cons, ?in_nil;
  repeat match goal with
    | |- context [bool_decide (?a = ?b)] =>
        first
          [ rewrite (bool_decide_eq_true_2 (a = b)) by reflexivity
          | rewrite (bool_decide_eq_false_2 (a = b))
              by (assumption || role_neq) ]
    end;
  cbn [orb andb negb].

(** Case analysis on a role name: one of the six literals, or none. *)
Ltac role_cases r :=
  destruct (decide (r = ROLE_MANAGER)) as [->|?];
  [| destruct (decide (r = ROLE_OPERATOR)) as [->|?];
  [| destruct (decide (r = ROLE_QUALITY_MANAGER)) as [->|?];
  [| destruct (decide (r = ROLE_MASTER)) as [->|?];
  [| destruct (decide (r = ROLE_SPECIALIST)) as [->|?];
  [| destruct (decide (r = ROLE_CLIENT)) as [->|?] ]]]]].

Lemma is_master_role_spec (r : str) :
  is_master_role r = true ↔ r = ROLE_MASTER ∨ r = ROLE_SPECIALIST.
Proof.
  unfold is_master_role. rewrite in_true, !elem_of_cons, elem_of_nil.
  tauto.
Qed.

Lemma staff_spec (r : str) :
  in_ r [ROLE_MANAGER; ROLE_OPERATOR; ROLE_QUALITY_MANAGER] = true
  ↔ r = ROLE_MANAGER ∨ r = ROLE_OPERATOR ∨ r = ROLE_QUALITY_MANAGER.
Proof. rewrite in_true, !elem_of_cons, elem_of_nil. tauto. Qed.

Lemma role_name_None (user : User.t) :
  User.role user = None → rbac.role_name (Some user) = lit "".
Proof. unfold rbac.role_name. by intros ->. Qed.

(** ** Status transition policy *)

Lemma change_status_staff user old new :
  in_ (rbac.role_name (Some user))
      [ROLE_MANAGER; ROLE_OPERATOR; ROLE_QUALITY_MANAGER] = true →
  rbac.user_can_change_status user old new = true.
Proof. unfold rbac.user_can_change_status. cbv zeta. by intros ->. Qed.

Lemma change_status_master user old new :
  is_master_role (rbac.role_name (Some user)) = true →
  rbac.user_can_change_status user old new =
    bool_decide (RequestStatus.id old = RequestStatus.id new)
    || negb (RequestStatus.is_final old && negb (RequestStatus.is_final new)).
Proof.
  intros Hm. unfold rbac.user_can_change_status. cbv zeta.
  rewrite Hm. apply is_master_role_spec in Hm.
  assert (in_ (rbac.role_name (Some user))
            [ROLE_MANAGER; ROLE_OPERATOR; ROLE_QUALITY_MANAGER] = false)
    as ->.
  { destruct Hm as [-> | ->]; by eval_roles. }
  case_bool_decide; [done|].
  by destruct (RequestStatus.is_final old), (RequestStatus.is_final new).
Qed.

Lemma change_status_client user old new :
  rbac.role_name (Some user) = ROLE_CLIENT →
  rbac.user_can_change_status user old new =
    bool_decide (RequestStatus.id old = RequestStatus.id new).
Proof.
  intros Hc. unfold rbac.user_can_change_status. cbv zeta.
  rewrite Hc. by eval_roles.
Qed.

Lemma change_status_other user old new :
  rbac.role_name (Some user) ∉
    [ROLE_MANAGER; ROLE_OPERATOR; ROLE_QUALITY_MANAGER;
     ROLE_MASTER; ROLE_SPECIALIST; ROLE_CLIENT] →
  rbac.user_can_change_status user old new = false.
Proof.
  intros Hn. unfold rbac.user_can_change_status. cbv zeta.
  rewrite !not_elem_of_cons in Hn. destruct_and!.
  by eval_roles.
Qed.

Lemma empty_role_name_unknown :
  lit "" ∉ [ROLE_MANAGER; ROLE_OPERATOR; ROLE_QUALITY_MANAGER;
            ROLE_MASTER; ROLE_SPECIALIST; ROLE_CLIENT].
Proof. apply (bool_decide_unpack _). vm_compute. exact I. Qed.

(** C2. The status transition policy [rbac.user_can_change_status], for
    every actor and every pair of statuses.  Staff (Manager, Operator,
    QualityManager) is always permitted.  A master-class actor is
    permitted iff the two statuses carry the same id, or the old one is
    non-final, or both are final; for statuses identified by their id
    (equal ids, equal finality) the actor is forbidden exactly when the
    old status is final and the new one is not.  A Client is permitted
    iff the two statuses carry the same id.  An actor without a role,
    or with a role name outside the six, is rejected. *)
Theorem C2_status_transition_policy
    (user : User.t) (old new : RequestStatus.t) :
  let r := rbac.role_name (Some user) in
  let same := RequestStatus.id old = RequestStatus.id new in
  let allowed := rbac.user_can_change_status user old new in
  (r = ROLE_MANAGER ∨ r = ROLE_OPERATOR ∨ r = ROLE_QUALITY_MANAGER →
   allowed = true)
  ∧ (r = ROLE_MASTER ∨ r = ROLE_SPECIALIST →
     (allowed = true ↔
        same ∨ RequestStatus.is_final old = false
        ∨ (RequestStatus.is_final old = true
           ∧ RequestStatus.is_final new = true))
     ∧ ((same → RequestStatus.is_final old = RequestStatus.is_final new) →
        (allowed = false ↔
           RequestStatus.is_final old = true
           ∧ RequestStatus.is_final new = false)))
  ∧ (r = ROLE_CLIENT → (allowed = true ↔ same))
  ∧ (User.role user = None → allowed = false)
  ∧ (r ∉ [ROLE_MANAGER; ROLE_OPERATOR; ROLE_QUALITY_MANAGER;
          ROLE_MASTER; ROLE_SPECIALIST; ROLE_CLIENT] → allowed = false).
Proof.
  cbv zeta. split; [|split; [|split; [|split]]].
  - intros Hr. apply change_status_staff. by apply staff_spec.
  - intros Hr%is_master_role_spec.
    rewrite (change_status_master _ _ _ Hr).
    rewrite orb_true_iff, orb_false_iff, bool_decide_eq_true,
      bool_decide_eq_false.
    destruct (RequestStatus.is_final old), (RequestStatus.is_final new);
      simpl; intuition congruence.
  - intros Hr. rewrite (change_status_client _ _ _ Hr).
    apply bool_decide_eq_true.
  - intros Hr. apply change_status_other.
    rewrite (role_name_None _ Hr). apply empty_role_name_unknown.
  - apply change_status_other.
Qed.

(** The roles of the sample users. *)
Lemma role_of_quality :
  rbac.role_name (Some fixtures.quality) = ROLE_QUALITY_MANAGER.
Proof. reflexivity. Qed.

Lemma role_of_master : rbac.role_name (Some fixtures.master) = ROLE_MASTER.
Proof. reflexivity. Qed.

Lemma role_of_specialist :
  rbac.role_name (Some fixtures.specialist) = ROLE_SPECIALIST.
Proof. reflexivity. Qed.

Lemma role_of_manager : rbac.role_name (Some fixtures.manager) = ROLE_MANAGER.
Proof. reflexivity. Qed.

Lemma role_of_client : rbac.role_name (Some fixtures.client) = ROLE_CLIENT.
Proof. reflexivity. Qed.

Lemma C2_status_transition_policy_witness :
  rbac.role_name (Some fixtures.master) = ROLE_MASTER
  ∧ rbac.user_can_change_status fixtures.master fixtures.st_done
      fixtures.st_work = false
  ∧ rbac.user_can_change_status fixtures.master fixtures.st_work
      fixtures.st_done = true
  ∧ rbac.user_can_change_status fixtures.client fixtures.st_work
      fixtures.st_work = true
  ∧ rbac.user_can_change_status fixtures.manager fixtures.st_done
      fixtures.st_work = true.
Proof.
  split; [exact role_of_master|]. split; [|split; [|split]].
  - apply (proj2 (proj1 (proj2
      (C2_status_transition_policy fixtures.master fixtures.st_done
         fixtures.st_work)) (or_introl role_of_master))).
    + intros H. vm_compute in H. discriminate H.
    + split; reflexivity.
  - apply (proj1 (proj1 (proj2
      (C2_status_transition_policy fixtures.master fixtures.st_work
         fixtures.st_done)) (or_introl role_of_master))).
    right. left. reflexivity.
  - apply (proj1 (proj2 (proj2
      (C2_status_transition_policy fixtures.client fixtures.st_work
         fixtures.st_work))) role_of_client).
    reflexivity.
  - apply (proj1
      (C2_status_transition_policy fixtures.manager fixtures.st_done
         fixtures.st_work)).
    left. exact role_of_manager.
Defined.

(** ** View and edit authorization *)

Lemma not_staff_of_master (r : str) :
  is_master_role r = true →
  in_ r [ROLE_MANAGER; ROLE_OPERATOR; ROLE_QUALITY_MANAGER] = false.
Proof.
  intros [-> | ->]%is_master_role_spec; by eval_roles.
Qed.

(** C3. View and edit authorization ([rbac.user_can_view_request],
    [rbac.user_can_edit_request]), for every actor and ticket.  Staff
    can view and edit any ticket.  A master-class actor can view, and
    can edit, iff the ticket's assigned master is the actor.  A Client
    can view iff the ticket's client is the actor, and, on a ticket
    with a status, can edit iff the ticket's client is the actor and
    the status is not final: on a final status the owner is refused. *)
Theorem C3_view_edit_authorization (user : User.t) (req : RepairRequest.t) :
  let r := rbac.role_name (Some user) in
  let assigned := RepairRequest.master_id req = Some (User.id user) in
  let owner := RepairRequest.client_id req = Some (User.id user) in
  (r = ROLE_MANAGER ∨ r = ROLE_OPERATOR ∨ r = ROLE_QUALITY_MANAGER →
   rbac.user_can_view_request user req = true
   ∧ rbac.user_can_edit_request user req = Ok true)
  ∧ (r = ROLE_MASTER ∨ r = ROLE_SPECIALIST →
     (rbac.user_can_view_request user req = true ↔ assigned)
     ∧ (rbac.user_can_edit_request user req = Ok true ↔ assigned)
     ∧ rbac.user_can_edit_request user req = Ok (bool_decide assigned))
  ∧ (r = ROLE_CLIENT →
     (rbac.user_can_view_request user req = true ↔ owner)
     ∧ ∀ st, RepairRequest.status req = Some st →
         (rbac.user_can_edit_request user req = Ok true
          ↔ owner ∧ RequestStatus.is_final st = false)
         ∧ rbac.user_can_edit_request user req
           = Ok (bool_decide owner && negb (RequestStatus.is_final st))
         ∧ (RequestStatus.is_final st = true →
            rbac.user_can_edit_request user req = Ok false)).
Proof.
  cbv zeta. unfold rbac.user_can_view_request, rbac.user_can_edit_request.
  cbv zeta. split; [|split].
  - intros Hs%staff_spec. by rewrite Hs.
  - intros Hm%is_master_role_spec.
    rewrite (not_staff_of_master _ Hm), Hm.
    rewrite bool_decide_eq_true. split; [done|]. split; [|done].
    split.
    + intros [= H]. by apply bool_decide_eq_true in H.
    + intros H. by rewrite bool_decide_eq_true_2.
  - intros ->. eval_roles. rewrite bool_decide_eq_true. split; [done|].
    intros st ->. case_bool_decide as Ho; simpl.
    + destruct (RequestStatus.is_final st); simpl;
        (split; [split|]); intuition congruence.
    + (split; [split|]); intuition congruence.
Qed.

Lemma C3_view_edit_authorization_witness :
  let open_req := fixtures.make_request 10 7 2 fixtures.st_work in
  let done_req := fixtures.make_request 10 7 2 fixtures.st_done in
  rbac.user_can_edit_request fixtures.quality done_req = Ok true
  ∧ rbac.user_can_view_request fixtures.master open_req = true
  ∧ rbac.user_can_edit_request fixtures.specialist open_req = Ok false
  ∧ rbac.user_can_edit_request fixtures.client open_req = Ok true
  ∧ rbac.user_can_edit_request fixtures.client done_req = Ok false.
Proof.
  cbv zeta. split; [|split; [|split; [|split]]].
  - apply (proj1 (C3_view_edit_authorization fixtures.quality
                    (fixtures.make_request 10 7 2 fixtures.st_done))).
    right. right. exact role_of_quality.
  - apply (proj1 (proj2 (C3_view_edit_authorization fixtures.master
                    (fixtures.make_request 10 7 2 fixtures.st_work)))
             (or_introl role_of_master)).
    reflexivity.
  - apply (proj2 (proj2 (proj1 (proj2 (C3_view_edit_authorization
             fixtures.specialist
             (fixtures.make_request 10 7 2 fixtures.st_work)))
             (or_intror role_of_specialist)))).
  - apply (proj1 (proj2 (proj2 (proj2 (C3_view_edit_authorization
             fixtures.client
             (fixtures.make_request 10 7 2 fixtures.st_work)))
             role_of_client) fixtures.st_work eq_refl)).
    split; reflexivity.
  - apply (proj2 (proj2 (proj2 (proj2 (proj2 (C3_view_edit_authorization
             fixtures.client
             (fixtures.make_request 10 7 2 fixtures.st_done)))
             role_of_client) fixtures.st_done eq_refl))).
    reflexivity.
Defined.

(** ** The session: loads and queries *)

Section tables.
Context {T : Type} `{Model T}.

Lemma db_get_Some (tbl : gmap Z T) k x :
  db_get tbl k = Some x ↔ ∃ r, tbl !! k = Some r ∧ x = with_id k r.
Proof.
  unfold db_get. destruct (tbl !! k) as [r|]; simpl.
  - split; [intros [= <-]; by exists r | by intros (? & [= <-] & ->)].
  - split; [done | by intros (? & ? & _)].
Qed.

Lemma elem_of_rows (tbl : gmap Z T) k x :
  (k, x) ∈ rows tbl ↔ db_get tbl k = Some x.
Proof.
  unfold rows, db_get. rewrite elem_of_map_to_list, map_lookup_imap.
  destruct (tbl !! k); simpl; naive_solver.
Qed.

Lemma foldl_min_entry (l : list (Z * T)) (acc : option (Z * T)) :
  match foldl min_entry acc l with
  | None => acc = None ∧ l = []
  | Some e =>
      (acc = Some e ∨ e ∈ l)
      ∧ (∀ a, acc = Some a → e.1 ≤ a.1)
      ∧ (∀ e', e' ∈ l → e.1 ≤ e'.1)
  end.
Proof.
  revert acc. induction l as [|x l IH]; intros acc; simpl.
  - destruct acc as [a|]; [|done].
    split; [by left|]. split; [by intros ? [= <-]|]. by intros ? ?%elem_of_nil.
  - specialize (IH (min_entry acc x)).
    destruct (foldl min_entry (min_entry acc x) l) as [e|].
    + destruct IH as (Hin & Hacc & Hl).
      assert (e.1 ≤ x.1 ∧ ∀ a, acc = Some a → e.1 ≤ a.1) as [Hx Ha].
      { unfold min_entry in Hacc. destruct acc as [a|].
        - case_bool_decide.
          + specialize (Hacc x eq_refl). split; [done|].
            intros ? [= <-]. lia.
          + specialize (Hacc a eq_refl). split; [lia|].
            by intros ? [= <-].
        - specialize (Hacc x eq_refl). done. }
      split; [|split; [done|]].
      * destruct Hin as [Hin|Hin]; [|right; by right].
        unfold min_entry in Hin. destruct acc as [a|].
        -- case_bool_decide; simplify_eq; [right; left | by left].
        -- simplify_eq. right. left.
      * intros e' [->|He']%elem_of_cons; [done | by apply Hl].
    + destruct IH as [Hacc _]. unfold min_entry in Hacc.
      destruct acc; [case_bool_decide|]; done.
Qed.

(** A query finds nothing exactly when no row of the table matches. *)
Lemma query_first_None (P : T → bool) (tbl : gmap Z T) :
  query_first P tbl = None ↔ ∀ k x, db_get tbl k = Some x → P x = false.
Proof.
  unfold query_first.
  pose proof (foldl_min_entry (List.filter (λ e, P e.2) (rows tbl)) None)
    as Hf.
  destruct (foldl min_entry None _) as [e|]; simpl.
  - destruct Hf as ([?|Hin] & _ & _); [done|].
    apply list_elem_of_In, filter_In in Hin as [Hin HP].
    apply list_elem_of_In in Hin. destruct e as [k x].
    apply elem_of_rows in Hin. split; [done|].
    intros Hall. specialize (Hall _ _ Hin). simpl in HP. congruence.
  - destruct Hf as [_ Hnil]. split; [|done]. intros _ k x Hk.
    apply elem_of_rows in Hk. destruct (P x) eqn:HP; [|done].
    assert (In (k, x) (List.filter (λ e, P e.2) (rows tbl))) as Hin.
    { apply filter_In. split; [by apply list_elem_of_In|done]. }
    rewrite Hnil in Hin. destruct Hin.
Qed.

(** A query that finds a row finds the matching row of least key. *)
Lemma query_first_Some (P : T → bool) (tbl : gmap Z T) x :
  query_first P tbl = Some x →
  ∃ k, db_get tbl k = Some x ∧ P x = true
       ∧ ∀ k' x', db_get tbl k' = Some x' → P x' = true → k ≤ k'.
Proof.
  unfold query_first.
  pose proof (foldl_min_entry (List.filter (λ e, P e.2) (rows tbl)) None)
    as Hf.
  destruct (foldl min_entry None _) as [[k y]|]; simpl; [|done].
  intros [= ->]. destruct Hf as ([?|Hin] & _ & Hmin); [done|].
  apply list_elem_of_In, filter_In in Hin as [Hin HP].
  apply list_elem_of_In, elem_of_rows in Hin. exists k.
  split; [done|]. split; [done|]. intros k' x' Hk' HP'.
  apply (Hmin (k', x')). apply list_elem_of_In, filter_In.
  split; [by apply list_elem_of_In, elem_of_rows | done].
Qed.

Lemma query_first_is_Some (P : T → bool) (tbl : gmap Z T) k x :
  db_get tbl k = Some x → P x = true → is_Some (query_first P tbl).
Proof.
  intros Hk HP. destruct (query_first P tbl) eqn:Hq; [done|].
  rewrite query_first_None in Hq. specialize (Hq _ _ Hk). congruence.
Qed.

Lemma db_add_fresh (tbl : gmap Z T) : tbl !! fresh (dom tbl) = None.
Proof. apply not_elem_of_dom, is_fresh. Qed.

End tables.

(** ** Frame of the reference-data lookups *)

Lemma get_or_create_equipment_model_frame db tid name :
  let db' := (services.get_or_create_equipment_model db tid name).2 in
  Session.request_statuses db' = Session.request_statuses db
  ∧ Session.users db' = Session.users db
  ∧ Session.issue_types db' = Session.issue_types db
  ∧ Session.repair_requests db' = Session.repair_requests db
  ∧ Session.request_comments db' = Session.request_comments db
  ∧ Session.help_requests db' = Session.help_requests db
  ∧ Session.equipment_types db' = Session.equipment_types db.
Proof.
  unfold services.get_or_create_equipment_model. cbv zeta.
  destruct (query_first _ _); [done|].
  repeat case_bool_decide; done.
Qed.

Lemma get_or_create_issue_type_frame db descr :
  let db' := (services.get_or_create_issue_type db descr).2 in
  Session.request_statuses db' = Session.request_statuses db
  ∧ Session.users db' = Session.users db
  ∧ Session.equipment_models db' = Session.equipment_models db
  ∧ Session.repair_requests db' = Session.repair_requests db
  ∧ Session.request_comments db' = Session.request_comments db
  ∧ Session.help_requests db' = Session.help_requests db
  ∧ Session.equipment_types db' = Session.equipment_types db.
Proof.
  unfold services.get_or_create_issue_type.
  destruct (query_first _ _); simpl; done.
Qed.

(** Resolving the equipment model and the issue type touches only
    their two tables. *)
Lemma resolve_equipment_and_issue_frame db data :
  let db' := (usecases._resolve_equipment_and_issue db data).2 in
  Session.request_statuses db' = Session.request_statuses db
  ∧ Session.users db' = Session.users db
  ∧ Session.repair_requests db' = Session.repair_requests db
  ∧ Session.request_comments db' = Session.request_comments db
  ∧ Session.help_requests db' = Session.help_requests db
  ∧ Session.equipment_types db' = Session.equipment_types db.
Proof.
  unfold usecases._resolve_equipment_and_issue.
  pose proof (get_or_create_equipment_model_frame db
                (RequestInput.equipment_type_id data)
                (RequestInput.equipment_model_name data)) as He.
  destruct (services.get_or_create_equipment_model _ _ _) as [[em|e] db1].
  2:{ simpl in He |- *. tauto. }
  simpl in He. destruct He as (He1 & He2 & He3 & He4 & He5 & He6 & He7).
  pose proof (get_or_create_issue_type_frame db1
                (RequestInput.problem_description data)) as Hi.
  destruct (services.get_or_create_issue_type db1 _) as [it db2].
  simpl in Hi. destruct Hi as (Hi1 & Hi2 & Hi3 & Hi4 & Hi5 & Hi6 & Hi7).
  destruct (truthy_int _); [destruct (db_get _ _)|]; simpl;
    repeat split; congruence.
Qed.

(** A refused equipment model leaves the session as it was, and the
    refusal is an exception of the database. *)
Lemma get_or_create_equipment_model_Raise db tid name e :
  (services.get_or_create_equipment_model db tid name).1 = Raise e →
  services.get_or_create_equipment_model db tid name = (Raise e, db)
  ∧ is_SQLAlchemyError e = true.
Proof.
  unfold services.get_or_create_equipment_model. cbv zeta.
  destruct (query_first _ _); [done|].
  repeat case_bool_decide; simpl; [by intros [= <-]..|done].
Qed.

Lemma resolve_equipment_and_issue_Raise db data e :
  (usecases._resolve_equipment_and_issue db data).1 = Raise e →
  usecases._resolve_equipment_and_issue db data = (Raise e, db)
  ∧ is_SQLAlchemyError e = true
  ∧ (services.get_or_create_equipment_model db
       (RequestInput.equipment_type_id data)
       (RequestInput.equipment_model_name data)).1 = Raise e.
Proof.
  unfold usecases._resolve_equipment_and_issue.
  pose proof (get_or_create_equipment_model_Raise db
                (RequestInput.equipment_type_id data)
                (RequestInput.equipment_model_name data)) as He.
  destruct (services.get_or_create_equipment_model _ _ _) as [[em|e'] db1].
  - simpl. by repeat case_match.
  - simpl. intros [= <-]. destruct (He e' eq_refl) as [[= ->] Hsql]. done.
Qed.

(** The equipment model is resolved first: when it is, so are both. *)
Lemma resolve_equipment_and_issue_Ok db data :
  is_Ok (usecases._resolve_equipment_and_issue db data).1
  = is_Ok (services.get_or_create_equipment_model db
             (RequestInput.equipment_type_id data)
             (RequestInput.equipment_model_name data)).1.
Proof.
  unfold usecases._resolve_equipment_and_issue.
  destruct (services.get_or_create_equipment_model _ _ _) as [[em|e'] db1];
    [|done].
  simpl. by repeat case_match.
Qed.


(** ** The status of a ticket a Client creates *)

(** What [services.get_new_request_status] returns: a status with the
    name for new tickets when the table has one, else the non-final
    status of least id, else a [RuntimeError]. *)
Lemma get_new_request_status_spec db :
  match services.get_new_request_status db with
  | Ok st =>
      ∃ k, db_get (Session.request_statuses db) k = Some st
        ∧ (named_new st
           ∨ ((∀ k' st', db_get (Session.request_statuses db) k' = Some st' →
                         ¬ named_new st')
              ∧ RequestStatus.is_final st = false
              ∧ ∀ k' st', db_get (Session.request_statuses db) k' = Some st' →
                          RequestStatus.is_final st' = false → k ≤ k'))
  | Raise e =>
      e = RuntimeError
      ∧ ∀ k st, db_get (Session.request_statuses db) k = Some st →
                ¬ named_new st ∧ RequestStatus.is_final st = true
  end.
Proof.
  unfold services.get_new_request_status.
  destruct (query_first _ _) as [st|] eqn:Hn.
  - apply query_first_Some in Hn as (k & Hk & HP & _).
    exists k. split; [done|]. left. by apply bool_decide_eq_true in HP.
  - rewrite query_first_None in Hn.
    assert (∀ k' st', db_get (Session.request_statuses db) k' = Some st' →
                      ¬ named_new st') as Hnone.
    { intros k' st' Hk'. specialize (Hn _ _ Hk').
      by apply bool_decide_eq_false in Hn. }
    destruct (query_first _ _) as [st|] eqn:Hf.
    + apply query_first_Some in Hf as (k & Hk & HP & Hmin).
      exists k. split; [done|]. right. split; [done|].
      apply negb_true_iff in HP. split; [done|].
      intros k' st' Hk' Hfin. apply (Hmin _ _ Hk'). by rewrite Hfin.
    + rewrite query_first_None in Hf. split; [done|].
      intros k st Hk. split; [by eapply Hnone|].
      specialize (Hf _ _ Hk). by apply negb_false_iff in Hf.
Qed.





(** ** The field gates of a save *)

Ltac unfold_gates :=
  unfold usecases._apply_client, usecases._apply_master,
    usecases._apply_repair_parts, usecases._apply_due_date,
    usecases._apply_completion_date in *;
  cbv zeta in *.

Ltac gate_cases :=
  unfold_gates; repeat case_match; simplify_eq/=; try done.

Lemma apply_completion_date_fields today req ns data :
  let req' := usecases._apply_completion_date today req ns data in
  RepairRequest.id req' = RepairRequest.id req
  ∧ RepairRequest.status_id req' = RepairRequest.status_id req
  ∧ RepairRequest.client_id req' = RepairRequest.client_id req
  ∧ RepairRequest.completion_date req'
    = if RequestStatus.is_final ns
      then Some (default today (RequestInput.completion_date data))
      else RequestInput.completion_date data.
Proof. by gate_cases. Qed.

Lemma apply_due_date_fields user req data :
  let req' := usecases._apply_due_date user req data in
  RepairRequest.id req' = RepairRequest.id req
  ∧ RepairRequest.status_id req' = RepairRequest.status_id req
  ∧ RepairRequest.client_id req' = RepairRequest.client_id req
  ∧ RepairRequest.completion_date req' = RepairRequest.completion_date req.
Proof. by gate_cases. Qed.

Lemma apply_repair_parts_fields user req data :
  let req' := usecases._apply_repair_parts user req data in
  RepairRequest.id req' = RepairRequest.id req
  ∧ RepairRequest.status_id req' = RepairRequest.status_id req
  ∧ RepairRequest.client_id req' = RepairRequest.client_id req
  ∧ RepairRequest.completion_date req' = RepairRequest.completion_date req.
Proof. by gate_cases. Qed.

Lemma apply_master_fields user req data :
  let req' := usecases._apply_master user req data in
  RepairRequest.id req' = RepairRequest.id req
  ∧ RepairRequest.status_id req' = RepairRequest.status_id req
  ∧ RepairRequest.client_id req' = RepairRequest.client_id req
  ∧ RepairRequest.completion_date req' = RepairRequest.completion_date req.
Proof. by gate_cases. Qed.

Lemma apply_client_fields user req data req' :
  usecases._apply_client user req data = Ok req' →
  RepairRequest.id req' = RepairRequest.id req
  ∧ RepairRequest.status_id req' = RepairRequest.status_id req
  ∧ RepairRequest.completion_date req' = RepairRequest.completion_date req
  ∧ RepairRequest.client_id req'
    = (if bool_decide (rbac.role_name (Some user) = ROLE_CLIENT)
       then Some (User.id user)
       else if in_ (rbac.role_name (Some user)) [ROLE_MANAGER; ROLE_OPERATOR]
            then truthy_int (RequestInput.client_id data)
            else RepairRequest.client_id req)
  ∧ (bool_decide (rbac.role_name (Some user) = ROLE_CLIENT) = false →
     in_ (rbac.role_name (Some user)) [ROLE_MANAGER; ROLE_OPERATOR] = false →
     is_Some (RepairRequest.id req)).
Proof. intros Hc. gate_cases; repeat split; try done; congruence. Qed.

Lemma save_request_outcome today db user data :
  save_outcome today db user data.
Proof.
  destruct (usecases._resolve_equipment_and_issue db data)
    as [[[em it]|e0] db1] eqn:Hres.
  2:{ destruct (resolve_equipment_and_issue_Raise db data e0)
        as (Hr & Hsql & _); [by rewrite Hres|].
      eapply (save_not_started _ _ _ _ e0); [done..|].
      unfold usecases.save_request. by rewrite Hr. }
  destruct (usecases.save_request_begin db1 user data)
    as [[req0 new_status]|e] eqn:Hbegin.
  2:{ eapply (save_stopped_early _ _ _ _ db1 e); [by rewrite Hres|done|].
      unfold usecases.save_request. by rewrite Hres, Hbegin. }
  destruct new_status as [ns|].
  2:{ eapply (save_stopped_midway _ _ _ _ db1 req0 None);
        [by rewrite Hres|done| | | |].
      4:{ unfold usecases.save_request. rewrite Hres, Hbegin. done. }
      - done.
      - by left.
      - done. }
  set (reqa :=
         RepairRequest.set_problem_description
           (Some (RequestInput.problem_description data))
           (RepairRequest.set_issue_type_id (Some (IssueType.id it))
              (RepairRequest.set_equipment_model_id
                 (Some (EquipmentModel.id em))
                 (RepairRequest.set_start_date
                    (Some (RequestInput.start_date data)) req0)))).
  set (reqb := RepairRequest.set_status_id (Some (RequestStatus.id ns)) reqa).
  set (reqc := usecases._apply_completion_date today reqb ns data).
  set (reqd := usecases._apply_due_date user reqc data).
  set (reqe := usecases._apply_repair_parts user reqd data).
  set (reqf := usecases._apply_master user reqe data).
  pose proof (apply_completion_date_fields today reqb ns data)
    as (Hc1 & Hc2 & Hc3 & Hc4).
  pose proof (apply_due_date_fields user reqc data) as (Hd1 & Hd2 & Hd3 & Hd4).
  pose proof (apply_repair_parts_fields user reqd data)
    as (He1 & He2 & He3 & He4).
  pose proof (apply_master_fields user reqe data) as (Hf1 & Hf2 & Hf3 & Hf4).
  fold reqc in Hc1, Hc2, Hc3, Hc4. fold reqd in Hd1, Hd2, Hd3, Hd4.
  fold reqe in He1, He2, He3, He4. fold reqf in Hf1, Hf2, Hf3, Hf4.
  assert (RepairRequest.id reqf = RepairRequest.id req0) as Hid
    by (rewrite Hf1, He1, Hd1, Hc1; done).
  assert (RepairRequest.status_id reqf = Some (RequestStatus.id ns)) as Hsid
    by (rewrite Hf2, He2, Hd2, Hc2; done).
  assert (RepairRequest.client_id reqf = RepairRequest.client_id req0) as Hcl
    by (rewrite Hf3, He3, Hd3, Hc3; done).
  assert (RepairRequest.completion_date reqf
          = if RequestStatus.is_final ns
            then Some (default today (RequestInput.completion_date data))
            else RequestInput.completion_date data) as Hcd
    by (rewrite Hf4, He4, Hd4, Hc4; done).
  destruct (usecases._apply_client user reqf data) as [reqg|e] eqn:Hclient.
  - apply apply_client_fields in Hclient as Hg.
    destruct Hg as (Hg1 & Hg2 & Hg3 & Hg4 & Hg5).
    eapply (save_done _ _ _ _ db1 req0 ns reqg); [by rewrite Hres|done|..].
    + congruence.
    + congruence.
    + congruence.
    + by rewrite Hg4, Hcl.
    + intros ? ?. rewrite <- Hid. by apply Hg5.
    + unfold usecases.save_request. rewrite Hres, Hbegin.
      fold reqa reqb reqc reqd reqe reqf. rewrite Hclient.
      by destruct (usecases.add_request reqg db1).
  - eapply (save_stopped_midway _ _ _ _ db1 req0 (Some ns) reqf e);
      [by rewrite Hres|done|done| | |].
    + right. by exists ns.
    + clear -Hclient. by gate_cases.
    + unfold usecases.save_request. rewrite Hres, Hbegin.
      fold reqa reqb reqc reqd reqe reqf. by rewrite Hclient.
Qed.

(** ** The ticket a save works on *)

Lemma db_get_request_Some db k req :
  db_get_request db k = Some req ↔
  ∃ r, Session.repair_requests db !! k = Some r
       ∧ req = RepairRequest.set_status
                 (RepairRequest.status_id r
                    ≫= db_get (Session.request_statuses db))
                 (RepairRequest.set_id (Some k) r).
Proof.
  unfold db_get_request, db_get.
  destruct (Session.repair_requests db !! k) as [r|]; simpl.
  - split; [intros [= <-]; by exists r | by intros (? & [= <-] & ->)].
  - split; [done | by intros (? & ? & _)].
Qed.

Lemma db_get_id_status (tbl : gmap Z RequestStatus.t) k st :
  db_get tbl k = Some st → RequestStatus.id st = k.
Proof. by intros (r & _ & ->)%db_get_Some. Qed.

Lemma db_get_id_user (tbl : gmap Z User.t) k u :
  db_get tbl k = Some u → User.id u = k.
Proof. by intros (r & _ & ->)%db_get_Some. Qed.

(** The status a save resolves is a row of the status table. *)
Lemma save_request_begin_status db user data req0 ns :
  usecases.save_request_begin db user data = Ok (req0, Some ns) →
  db_get (Session.request_statuses db) (RequestStatus.id ns) = Some ns.
Proof.
  unfold usecases.save_request_begin.
  assert (∀ k, db_get (Session.request_statuses db) k = Some ns →
               db_get (Session.request_statuses db) (RequestStatus.id ns)
               = Some ns) as Hget.
  { intros k Hk. by rewrite (db_get_id_status _ _ _ Hk). }
  destruct (RequestInput.id data) as [k|].
  - destruct (db_get_request db k) as [req|] eqn:Hreq; [|done].
    apply db_get_request_Some in Hreq as (r & Hr & ->).
    destruct (rbac.user_can_edit_request _ _) as [[]|]; simpl; try done.
    unfold usecases._resolve_new_status_for_update. cbv zeta. simpl.
    destruct (RepairRequest.status_id r) as [sid|] eqn:Hsid; simpl.
    + destruct (db_get (Session.request_statuses db) sid) as [old|] eqn:Hold.
      * repeat case_match; simpl; intros; simplify_eq; eauto.
      * repeat case_match; simpl; intros; simplify_eq; eauto.
    + repeat case_match; simpl; intros; simplify_eq; eauto.
  - destruct (rbac.user_can_create_request user); simpl; [|done].
    unfold usecases._resolve_new_status_for_create. cbv zeta.
    case_bool_decide.
    + pose proof (get_new_request_status_spec db) as Hg.
      destruct (services.get_new_request_status db) as [st|]; simpl; [|done].
      destruct Hg as (k & Hk & _). intros [= <- <-]. eauto.
    + repeat case_match; simpl; intros; simplify_eq; eauto.
Qed.

(** On the edit path a save works on the stored ticket, as loaded. *)
Lemma save_request_begin_edit db user data req0 ns k :
  RequestInput.id data = Some k →
  usecases.save_request_begin db user data = Ok (req0, ns) →
  db_get_request db k = Some req0
  ∧ rbac.user_can_edit_request user req0 = Ok true.
Proof.
  unfold usecases.save_request_begin. intros ->.
  destruct (db_get_request db k) as [req|]; [|done].
  destruct (rbac.user_can_edit_request user req) as [[]|] eqn:He;
    simpl; try done.
  destruct (usecases._resolve_new_status_for_update _ _ _ _); simpl;
    [|done].
  by intros [= <- <-].
Qed.

(** On the create path a save works on a new ticket. *)
Lemma save_request_begin_create db user data req0 ns :
  RequestInput.id data = None →
  usecases.save_request_begin db user data = Ok (req0, ns) →
  req0 = RepairRequest.new ∧ rbac.user_can_create_request user = true.
Proof.
  unfold usecases.save_request_begin. intros ->.
  destruct (rbac.user_can_create_request user); simpl; [|done].
  destruct (usecases._resolve_new_status_for_create _ _ _); simpl; [|done].
  by intros [= <- <-].
Qed.

(** ** Outcomes of the escalation use cases *)

Lemma close_help_request_master_spec db data new_master :
  usecases.close_help_request_master db data = Ok new_master →
  match HelpRequestCloseInput.assigned_master_id data with
  | None => new_master = None
  | Some m =>
      new_master = Some m
      ∧ ∃ u role, db_get (Session.users db) m = Some u
                  ∧ User.role u = Some role
                  ∧ is_master_role (UserRole.name role) = true
  end.
Proof.
  unfold usecases.close_help_request_master.
  destruct (HelpRequestCloseInput.assigned_master_id data) as [m|];
    [|by intros [= <-]].
  destruct (db_get (Session.users db) m) as [u|] eqn:Hu; [|done].
  destruct (User.role u) as [role|] eqn:Hrole; [|done].
  destruct (is_master_role (UserRole.name role)) eqn:Hm; simpl; [|done].
  intros [= <-]. rewrite (db_get_id_user _ _ _ Hu). eauto 6.
Qed.

(** A close either raises and leaves the session as it was, or passes
    every check and leaves the ticket and the help request as
    [ticket_after_close] and [help_request_after_close] describe. *)
Lemma close_help_request_outcome now db user data :
  (∃ e, usecases.close_help_request now db user data = (Raise e, db))
  ∨ (∃ help_req req new_master,
       rbac.user_can_handle_help_request user = true
       ∧ db_get (Session.help_requests db)
           (HelpRequestCloseInput.help_id data) = Some help_req
       ∧ HelpRequest.status help_req = lit "open"
       ∧ db_get_request db (HelpRequest.request_id help_req) = Some req
       ∧ (∀ d, HelpRequestCloseInput.new_due_date data = Some d →
               ∃ sd, RepairRequest.start_date req = Some sd ∧ sd ≤ d)
       ∧ usecases.close_help_request_master db data = Ok new_master
       ∧ usecases.close_help_request now db user data
         = (Ok (help_request_after_close now user new_master
                  (HelpRequestCloseInput.resolution_note data) help_req),
            put_help_request (HelpRequestCloseInput.help_id data)
              (help_request_after_close now user new_master
                 (HelpRequestCloseInput.resolution_note data) help_req)
              (put_request (HelpRequest.request_id help_req)
                 (ticket_after_close new_master
                    (HelpRequestCloseInput.new_due_date data) req)
                 db))).
Proof.
  unfold usecases.close_help_request.
  destruct (rbac.user_can_handle_help_request user) eqn:Hcan; simpl;
    [|by left; eexists].
  destruct (db_get (Session.help_requests db) _) as [help_req|] eqn:Hh;
    [|by left; eexists].
  case_bool_decide as Hopen; [by left; eexists|].
  try apply dec_stable in Hopen.
  destruct (db_get_request db _) as [req|] eqn:Hreq; [|by left; eexists].
  destruct (HelpRequestCloseInput.new_due_date data) as [d|] eqn:Hdue.
  - destruct (RepairRequest.start_date req) as [sd|] eqn:Hsd;
      [|by left; eexists].
    case_bool_decide as Hlt; [by left; eexists|].
    destruct (usecases.close_help_request_master db data)
      as [new_master|e] eqn:Hm; [|by left; eexists].
    right. exists help_req, req, new_master.
    repeat (split; [done|]). split.
    { intros d' [= <-]. exists sd. split; [done|lia]. }
    split; [done|].
    unfold help_request_after_close, ticket_after_close.
    by destruct new_master, help_req.
  - destruct (usecases.close_help_request_master db data)
      as [new_master|e] eqn:Hm; [|by left; eexists].
    right. exists help_req, req, new_master.
    repeat (split; [done|]).
    unfold help_request_after_close, ticket_after_close.
    by destruct new_master, help_req.
Qed.

(** An escalation either raises and leaves the session as it was, or
    adds one open help request under a new key. *)
Lemma create_help_request_outcome db user data :
  let rid := HelpRequestCreateInput.request_id data in
  let k := fresh (dom (Session.help_requests db)) in
  (∃ e, usecases.create_help_request db user data = (Raise e, db))
  ∨ (∃ req,
       rbac.user_can_create_help_request user = true
       ∧ db_get_request db rid = Some req
       ∧ RepairRequest.master_id req = Some (User.id user)
       ∧ query_first (open_for rid) (Session.help_requests db) = None
       ∧ strip (HelpRequestCreateInput.message data) ≠ []
       ∧ usecases.create_help_request db user data
         = (Ok (with_id k (opened_help_request user data)),
            put_help_request k (with_id k (opened_help_request user data))
              db)).
Proof.
  cbv zeta. unfold usecases.create_help_request.
  destruct (rbac.user_can_create_help_request user) eqn:Hcan; simpl;
    [|by left; eexists].
  destruct (db_get_request db _) as [req|] eqn:Hreq; [|by left; eexists].
  case_bool_decide as Hm; [by left; eexists|]. try apply dec_stable in Hm.
  fold (open_for (HelpRequestCreateInput.request_id data)).
  destruct (query_first _ _) eqn:Hq; [by left; eexists|].
  destruct (strip (HelpRequestCreateInput.message data)) eqn:Hmsg;
    [by left; eexists|].
  right. exists req. repeat (split; [done|]).
  unfold opened_help_request. rewrite Hmsg. done.
Qed.

Lemma delete_request_outcome db user request_id :
  (∃ e, usecases.delete_request db user request_id = (Raise e, db))
  ∨ usecases.delete_request db user request_id
    = (Ok (), usecases.db_delete_request request_id db).
Proof.
  unfold usecases.delete_request.
  destruct (db_get_request db request_id); [|by left; eexists].
  destruct (rbac.user_can_delete_request user); simpl;
    [by right | by left; eexists].
Qed.

Lemma add_comment_outcome db user request_id message :
  (∃ e, usecases.add_comment db user request_id message = (Raise e, db))
  ∨ (∃ c tbl,
       usecases.add_comment db user request_id message
       = (Ok c, Session.set_request_comments tbl db)).
Proof.
  unfold usecases.add_comment.
  destruct (db_get_request db request_id); [|by left; eexists].
  destruct (rbac.user_can_add_comment _ _); simpl; [|by left; eexists].
  destruct (strip message); [by left; eexists|].
  right. by eexists _, _.
Qed.

(** ** Completion date of a ticket in a final status *)

Lemma loaded_request_fields db k req :
  db_get_request db k = Some req →
  RepairRequest.id req = Some k
  ∧ ∃ r, Session.repair_requests db !! k = Some r
         ∧ RepairRequest.status_id req = RepairRequest.status_id r
         ∧ RepairRequest.completion_date req = RepairRequest.completion_date r
         ∧ RepairRequest.client_id req = RepairRequest.client_id r
         ∧ RepairRequest.master_id req = RepairRequest.master_id r
         ∧ RepairRequest.start_date req = RepairRequest.start_date r.
Proof.
  intros (r & Hr & ->)%db_get_request_Some. split; [done|].
  exists r. by destruct r.
Qed.

Lemma completion_ext db db' :
  Session.request_statuses db' = Session.request_statuses db →
  Session.repair_requests db' = Session.repair_requests db →
  completion_set_when_final db → completion_set_when_final db'.
Proof.
  intros Hs Hr Hinv k req st. rewrite Hs, Hr. apply Hinv.
Qed.

Lemma completion_put db k req :
  completion_set_when_final db →
  (∀ st,
     RepairRequest.status_id req ≫= db_get (Session.request_statuses db)
       = Some st →
     RequestStatus.is_final st = true →
     is_Some (RepairRequest.completion_date req)) →
  completion_set_when_final (put_request k req db).
Proof.
  intros Hinv Hreq k' req' st. unfold put_request. simpl.
  destruct (decide (k = k')) as [<-|Hne].
  - rewrite lookup_insert_eq. intros [= <-]. apply Hreq.
  - rewrite lookup_insert_ne by done. apply Hinv.
Qed.

Lemma completion_stored db k r req :
  completion_set_when_final db →
  Session.repair_requests db !! k = Some r →
  RepairRequest.status_id req = RepairRequest.status_id r →
  RepairRequest.completion_date req = RepairRequest.completion_date r →
  ∀ st,
    RepairRequest.status_id req ≫= db_get (Session.request_statuses db)
      = Some st →
    RequestStatus.is_final st = true →
    is_Some (RepairRequest.completion_date req).
Proof.
  intros Hinv Hr -> -> st. by apply (Hinv k r st).
Qed.

Lemma completion_rule today db ns data req :
  db_get (Session.request_statuses db) (RequestStatus.id ns) = Some ns →
  RepairRequest.status_id req = Some (RequestStatus.id ns) →
  RepairRequest.completion_date req
    = (if RequestStatus.is_final ns
       then Some (default today (RequestInput.completion_date data))
       else RequestInput.completion_date data) →
  ∀ st,
    RepairRequest.status_id req ≫= db_get (Session.request_statuses db)
      = Some st →
    RequestStatus.is_final st = true →
    is_Some (RepairRequest.completion_date req).
Proof.
  intros Hns -> -> st. simpl. rewrite Hns. intros [= <-] ->. done.
Qed.

Lemma save_request_preserves_completion today db user data :
  completion_set_when_final db →
  completion_set_when_final (usecases.save_request today db user data).2.
Proof.
  intros Hinv.
  pose proof (resolve_equipment_and_issue_frame db data) as Hfr.
  simpl in Hfr. destruct Hfr as (Hst & _ & Hrq & _).
  destruct (save_request_outcome today db user data)
    as [e0 _ _ ->
       |db1 e Hres Hbegin ->
       |db1 req0 new_status req1 e Hres Hbegin Hid Hkind He ->
       |db1 req0 ns req1 Hres Hbegin Hid Hsid Hcd _ _ ->];
    [done|..]; rewrite Hres in Hst, Hrq; simpl.
  - by apply (completion_ext db).
  - assert (completion_set_when_final db1) as Hinv1
      by (by apply (completion_ext db)).
    unfold usecases.leave_request.
    destruct (RepairRequest.id req1) as [k|] eqn:Hk; [|done].
    apply completion_put; [done|].
    destruct (RequestInput.id data) as [k'|] eqn:Hdid.
    + destruct (save_request_begin_edit _ _ _ _ _ _ Hdid Hbegin) as [Hl _].
      apply loaded_request_fields in Hl
        as (_ & r & Hr & Hrs & Hrc & _).
      destruct Hkind as [[Hs Hc]|(ns & -> & Hs & Hc)].
      * apply (completion_stored db1 k' r); [done|done|congruence..].
      * apply (completion_rule today db1 ns data); [|done..].
        by apply (save_request_begin_status _ _ _ _ _ Hbegin).
    + destruct (save_request_begin_create _ _ _ _ _ Hdid Hbegin) as [-> _].
      discriminate Hid.
  - assert (completion_set_when_final db1) as Hinv1
      by (by apply (completion_ext db)).
    pose proof (save_request_begin_status _ _ _ _ _ Hbegin) as Hns.
    unfold usecases.add_request.
    destruct (RepairRequest.id req1) as [k|] eqn:Hk; simpl.
    + apply completion_put; [done|].
      by apply (completion_rule today db1 ns data).
    + apply (completion_put db1 (fresh (dom (Session.repair_requests db1))));
        [done|].
      apply (completion_rule today db1 ns data); [done|..];
        by destruct req1.
Qed.

Lemma close_help_request_preserves_completion now db user data :
  completion_set_when_final db →
  completion_set_when_final (usecases.close_help_request now db user data).2.
Proof.
  intros Hinv.
  destruct (close_help_request_outcome now db user data)
    as [[e ->]|(h & req & nm & _ & _ & _ & Hreq & _ & _ & ->)];
    [done|]. simpl.
  apply (completion_ext
           (put_request (HelpRequest.request_id h)
              (ticket_after_close nm
                 (HelpRequestCloseInput.new_due_date data) req) db));
    [done..|].
  apply completion_put; [done|].
  apply loaded_request_fields in Hreq as (_ & r & Hr & Hrs & Hrc & _).
  apply (completion_stored db (HelpRequest.request_id h) r); [done..| |].
  - rewrite <- Hrs. unfold ticket_after_close. by repeat case_match.
  - rewrite <- Hrc. unfold ticket_after_close. by repeat case_match.
Qed.

Lemma run_preserves_completion op db :
  completion_set_when_final db → completion_set_when_final (run op db).
Proof.
  intros Hinv. destruct op as [today u d|u k|u k m|u d|now u d]; simpl.
  - by apply save_request_preserves_completion.
  - destruct (delete_request_outcome db u k) as [[e ->]| ->]; [done|].
    intros k' req st. simpl. intros Hk'.
    apply lookup_delete_Some in Hk' as [_ Hk']. by apply (Hinv k').
  - destruct (add_comment_outcome db u k m) as [[e ->]|(c & tbl & ->)];
      [done|]. by apply (completion_ext db).
  - destruct (create_help_request_outcome db u d) as [[e ->]|(r & H)];
      [done|]. destruct H as (_ & _ & _ & _ & _ & ->).
    by apply (completion_ext db).
  - by apply close_help_request_preserves_completion.
Qed.

Lemma transaction_preserves_completion op db :
  completion_set_when_final db →
  completion_set_when_final (transaction op db).
Proof.
  intros Hinv. unfold transaction.
  destruct (succeeds op db); [by apply run_preserves_completion | done].
Qed.

Lemma reachable_completion db :
  reachable db → completion_set_when_final db.
Proof.
  induction 1 as [db (Hr & _)|op db _ IH|op db _ IH].
  - intros k req st. rewrite Hr, lookup_empty. done.
  - by apply run_preserves_completion.
  - by apply transaction_preserves_completion.
Qed.

Lemma add_request_fields req db :
  let req' := (usecases.add_request req db).1 in
  RepairRequest.status_id req' = RepairRequest.status_id req
  ∧ RepairRequest.completion_date req' = RepairRequest.completion_date req
  ∧ RepairRequest.client_id req' = RepairRequest.client_id req
  ∧ (is_Some (RepairRequest.id req) → req' = req).
Proof.
  unfold usecases.add_request.
  destruct (RepairRequest.id req) as [k|] eqn:Hk; simpl.
  - done.
  - repeat split; first [by destruct req | by intros [? [=]]].
Qed.

(** The completion date a save that goes through leaves on the ticket. *)
Lemma save_request_Ok_completion today db user data req :
  (usecases.save_request today db user data).1 = Ok req →
  ∃ new_status,
    RepairRequest.status_id req = Some (RequestStatus.id new_status)
    ∧ db_get (Session.request_statuses db) (RequestStatus.id new_status)
      = Some new_status
    ∧ RepairRequest.completion_date req
      = if RequestStatus.is_final new_status
        then Some (default today (RequestInput.completion_date data))
        else RequestInput.completion_date data.
Proof.
  pose proof (resolve_equipment_and_issue_frame db data) as Hfr.
  simpl in Hfr. destruct Hfr as (Hst & _).
  destruct (save_request_outcome today db user data)
    as [e0 _ _ ->
       |db1 e Hres Hbegin ->
       |db1 req0 new_status req1 e Hres Hbegin Hid Hkind He ->
       |db1 req0 ns req1 Hres Hbegin Hid Hsid Hcd _ _ ->];
    simpl; [done..|].
  intros [= <-]. exists ns. rewrite Hres in Hst.
  pose proof (add_request_fields req1 db1) as (Ha1 & Ha2 & _).
  rewrite Ha1, Ha2, <- Hst. split; [done|]. split; [|done].
  by apply (save_request_begin_status _ _ _ _ _ Hbegin).
Qed.

(** C7. After every save that goes through, the ticket's completion
    date is the submitted one, or today's date when none was
    submitted, if the status the save resolved is final, and is the
    submitted value as it is (possibly none) if that status is not
    final.  The invariant that every ticket whose current status is
    final has a completion date is kept by every engine operation,
    whether it is committed, rolled back or left as the call left it,
    and holds in every store the engine reaches. *)
Theorem C7_completion_date_when_final :
  (∀ today db user data req,
     (usecases.save_request today db user data).1 = Ok req →
     ∃ new_status,
       RepairRequest.status_id req = Some (RequestStatus.id new_status)
       ∧ db_get (Session.request_statuses db) (RequestStatus.id new_status)
         = Some new_status
       ∧ (RequestStatus.is_final new_status = true →
          RepairRequest.completion_date req
          = Some (default today (RequestInput.completion_date data)))
       ∧ (RequestStatus.is_final new_status = false →
          RepairRequest.completion_date req
          = RequestInput.completion_date data))
  ∧ (∀ op db,
       completion_set_when_final db →
       completion_set_when_final (run op db)
       ∧ completion_set_when_final (transaction op db))
  ∧ (∀ db, reachable db → completion_set_when_final db).
Proof.
  split; [|split].
  - intros today db user data req Hok.
    destruct (save_request_Ok_completion _ _ _ _ _ Hok)
      as (ns & Hsid & Hns & Hcd).
    exists ns. repeat (split; [done|]).
    split; intros Hfin; by rewrite Hfin in Hcd.
  - intros op db Hinv. split.
    + by apply run_preserves_completion.
    + by apply transaction_preserves_completion.
  - apply reachable_completion.
Qed.

Lemma C7_completion_date_when_final_witness :
  let db := fixtures.db_statuses in
  let data := fixtures.new_ticket (Some 3) (Some 7) in
  let req := fixtures.returned (usecases.save_request 738600 db
                                  fixtures.manager data).1 in
  (∃ new_status,
     RepairRequest.status_id req = Some (RequestStatus.id new_status)
     ∧ db_get (Session.request_statuses db) (RequestStatus.id new_status)
       = Some new_status
     ∧ (RequestStatus.is_final new_status = true →
        RepairRequest.completion_date req = Some 738600)
     ∧ (RequestStatus.is_final new_status = false →
        RepairRequest.completion_date req = None))
  ∧ completion_set_when_final
      (run (SaveRequest 738600 fixtures.manager data) db).
Proof.
  cbv zeta. split.
  - apply (proj1 C7_completion_date_when_final 738600 fixtures.db_statuses
             fixtures.manager (fixtures.new_ticket (Some 3) (Some 7))).
    vm_compute. reflexivity.
  - apply (proj2 (proj2 C7_completion_date_when_final)).
    apply reachable_run, reachable_initial. repeat split.
Defined.

(** ** The client of a ticket *)

Lemma role_tests_qm :
  bool_decide (ROLE_QUALITY_MANAGER = ROLE_CLIENT) = false
  ∧ in_ ROLE_QUALITY_MANAGER [ROLE_MANAGER; ROLE_OPERATOR] = false
  ∧ in_ ROLE_QUALITY_MANAGER
      [ROLE_MANAGER; ROLE_OPERATOR; ROLE_QUALITY_MANAGER; ROLE_CLIENT] = true.
Proof. repeat split; by eval_roles. Qed.

Lemma role_tests_master r :
  is_master_role r = true →
  bool_decide (r = ROLE_CLIENT) = false
  ∧ in_ r [ROLE_MANAGER; ROLE_OPERATOR] = false
  ∧ in_ r [ROLE_MANAGER; ROLE_OPERATOR; ROLE_QUALITY_MANAGER; ROLE_CLIENT]
    = false.
Proof.
  intros [-> | ->]%is_master_role_spec; repeat split; by eval_roles.
Qed.

(** Whoever is neither Client nor Manager nor Operator leaves the
    client of the ticket they update as it is stored. *)
Lemma save_request_update_keeps_client today db user data k req :
  bool_decide (rbac.role_name (Some user) = ROLE_CLIENT) = false →
  in_ (rbac.role_name (Some user)) [ROLE_MANAGER; ROLE_OPERATOR] = false →
  RequestInput.id data = Some k →
  (usecases.save_request today db user data).1 = Ok req →
  ∃ old,
    Session.repair_requests db !! k = Some old
    ∧ RepairRequest.client_id req = RepairRequest.client_id old
    ∧ Session.repair_requests (usecases.save_request today db user data).2
        !! k = Some req.
Proof.
  intros Hnc Hnm Hid.
  pose proof (resolve_equipment_and_issue_frame db data) as Hfr.
  simpl in Hfr. destruct Hfr as (_ & _ & Hrq & _).
  destruct (save_request_outcome today db user data)
    as [e0 _ _ ->
       |db1 e Hres Hbegin ->
       |db1 req0 new_status req1 e Hres Hbegin Hid1 Hkind He ->
       |db1 req0 ns req1 Hres Hbegin Hid1 _ _ Hcl _ ->];
    simpl; [done..|].
  intros [= <-]. rewrite Hres in Hrq. rewrite Hnc, Hnm in Hcl.
  destruct (save_request_begin_edit _ _ _ _ _ _ Hid Hbegin) as [Hl _].
  apply loaded_request_fields in Hl as (Hk & old & Hold & _ & _ & Hc & _).
  exists old. rewrite <- Hrq. split; [done|].
  unfold usecases.add_request. rewrite Hid1, Hk. simpl.
  split; [congruence | apply lookup_insert_eq].
Qed.

(** A save that stops on the equipment model stops on an exception of
    the database, before any check of the actor, and leaves the session
    as it was. *)
Lemma save_request_not_started today db user data e :
  (usecases._resolve_equipment_and_issue db data).1 = Raise e →
  usecases.save_request today db user data = (Raise e, db)
  ∧ is_SQLAlchemyError e = true.
Proof.
  intros (Hr & Hsql & _)%resolve_equipment_and_issue_Raise.
  unfold usecases.save_request. by rewrite Hr.
Qed.

Lemma save_request_create_denied today db user data :
  rbac.user_can_create_request user = false →
  RequestInput.id data = None →
  is_Ok (usecases._resolve_equipment_and_issue db data).1 = true →
  (usecases.save_request today db user data).1 = Raise PermissionDeniedError.
Proof.
  intros Hcan Hid Hok.
  assert (∀ db1, usecases.save_request_begin db1 user data
                 = Raise PermissionDeniedError) as Hb.
  { intros db1. unfold usecases.save_request_begin. by rewrite Hid, Hcan. }
  destruct (save_request_outcome today db user data)
    as [e0 Hres0 _ _
       |db1 e Hres Hbegin ->
       |db1 req0 new_status req1 e Hres Hbegin Hid1 Hkind He ->
       |db1 req0 ns req1 Hres Hbegin Hid1 _ _ Hcl _ ->];
    [by rewrite Hres0 in Hok|..];
    rewrite Hb in Hbegin; by simplify_eq.
Qed.

Lemma save_request_create_quality_manager today db user data :
  rbac.role_name (Some user) = ROLE_QUALITY_MANAGER →
  RequestInput.id data = None →
  is_Ok (usecases._resolve_equipment_and_issue db data).1 = true →
  (usecases.save_request today db user data).1
  = Raise BusinessRuleViolationError.
Proof.
  intros Hrole Hid Hok. destruct role_tests_qm as (Hnc & Hnm & Hcan).
  destruct (save_request_outcome today db user data)
    as [e0 Hres0 _ _
       |db1 e Hres Hbegin ->
       |db1 req0 new_status req1 e Hres Hbegin Hid1 Hkind He ->
       |db1 req0 ns req1 Hres Hbegin Hid1 _ _ _ Hsome ->]; simpl.
  - by rewrite Hres0 in Hok.
  - revert Hbegin. unfold usecases.save_request_begin.
    unfold rbac.user_can_create_request,
      usecases._resolve_new_status_for_create.
    cbv zeta. rewrite Hid, Hrole, Hcan, Hnc. simpl.
    repeat case_match; simpl; congruence.
  - destruct new_status; [by subst|].
    revert Hbegin. unfold usecases.save_request_begin. rewrite Hid.
    destruct (rbac.user_can_create_request user); simpl; [|done].
    by destruct (usecases._resolve_new_status_for_create _ _ _).
  - destruct (save_request_begin_create _ _ _ _ _ Hid Hbegin) as [-> _].
    rewrite Hrole in Hsome. by destruct (Hsome Hnc Hnm).
Qed.

(** A save of a Manager or Operator goes through only with a client
    id submitted. *)
Lemma save_request_Ok_staff_client today db user data :
  rbac.role_name (Some user) = ROLE_MANAGER
  ∨ rbac.role_name (Some user) = ROLE_OPERATOR →
  ∀ req, (usecases.save_request today db user data).1 = Ok req →
         is_Some (truthy_int (RequestInput.client_id data)).
Proof.
  intros Hr req. unfold usecases.save_request.
  destruct (usecases._resolve_equipment_and_issue db data)
    as [[[em it]|e0] db1]; [|done].
  destruct (usecases.save_request_begin db1 user data) as [[req0 [ns|]]|];
    [|done..].
  unfold usecases._apply_client at 1. cbv zeta.
  assert (bool_decide (rbac.role_name (Some user) = ROLE_CLIENT) = false
          ∧ in_ (rbac.role_name (Some user)) [ROLE_MANAGER; ROLE_OPERATOR]
            = true) as [-> ->].
  { destruct Hr as [-> | ->]; split; by eval_roles. }
  by destruct (truthy_int (RequestInput.client_id data)).
Qed.

(** C9 (as amended).  On every update (save with an id) that goes
    through for a master-class or QualityManager actor the ticket keeps
    the client it had, whatever client id was submitted.  Without an id
    the save of such an actor never goes through: it stops on the
    exception of the database that refused the equipment model, the
    session left as it was, and once the equipment model and the issue
    type are resolved the save of a QualityManager stops on a
    business-rule error and the save of a master-class actor on a
    permission error.  On an update that goes through, a Client leaves
    themself as the client, a Manager or Operator leaves the submitted
    client id, and everyone else leaves the stored one. *)
Theorem C9_client_field_on_update
    (today : date) (db : Session.t) (user : User.t) (data : RequestInput.t) :
  let r := rbac.role_name (Some user) in
  let out := usecases.save_request today db user data in
  let resolved := (usecases._resolve_equipment_and_issue db data).1 in
  (r = ROLE_MASTER ∨ r = ROLE_SPECIALIST ∨ r = ROLE_QUALITY_MANAGER →
   ∀ k req,
     RequestInput.id data = Some k → out.1 = Ok req →
     ∃ old, Session.repair_requests db !! k = Some old
            ∧ RepairRequest.client_id req = RepairRequest.client_id old
            ∧ Session.repair_requests out.2 !! k = Some req)
  ∧ (r = ROLE_QUALITY_MANAGER → RequestInput.id data = None →
     is_Ok out.1 = false
     ∧ (is_Ok resolved = true → out.1 = Raise BusinessRuleViolationError)
     ∧ (∀ e, resolved = Raise e →
             out = (Raise e, db) ∧ is_SQLAlchemyError e = true))
  ∧ (r = ROLE_MASTER ∨ r = ROLE_SPECIALIST → RequestInput.id data = None →
     is_Ok out.1 = false
     ∧ (is_Ok resolved = true → out.1 = Raise PermissionDeniedError)
     ∧ (∀ e, resolved = Raise e →
             out = (Raise e, db) ∧ is_SQLAlchemyError e = true))
  ∧ (∀ k req,
       RequestInput.id data = Some k → out.1 = Ok req →
       (r = ROLE_CLIENT →
        RepairRequest.client_id req = Some (User.id user))
       ∧ (r = ROLE_MANAGER ∨ r = ROLE_OPERATOR →
          RepairRequest.client_id req = RequestInput.client_id data
          ∧ is_Some (RequestInput.client_id data))
       ∧ (r ≠ ROLE_CLIENT → r ≠ ROLE_MANAGER → r ≠ ROLE_OPERATOR →
          ∃ old, Session.repair_requests db !! k = Some old
                 ∧ RepairRequest.client_id req
                   = RepairRequest.client_id old)).
Proof.
  cbv zeta. split; [|split; [|split]].
  - intros Hr k req Hid Hok.
    apply (save_request_update_keeps_client today db user data k req);
      [| |done..].
    + destruct Hr as [Hr|[Hr|Hr]]; rewrite Hr; by eval_roles.
    + destruct Hr as [Hr|[Hr|Hr]]; rewrite Hr; by eval_roles.
  - intros Hr Hid.
    pose proof (save_request_create_quality_manager today db user data Hr Hid)
      as Hqm.
    pose proof (save_request_not_started today db user data) as Hns.
    split; [|split; [done|done]].
    destruct (usecases._resolve_equipment_and_issue db data).1 as [?|e0].
    + by rewrite Hqm.
    + by rewrite (proj1 (Hns e0 eq_refl)).
  - intros Hr Hid.
    assert (rbac.user_can_create_request user = false) as Hcan.
    { unfold rbac.user_can_create_request. cbv zeta.
      by apply role_tests_master, is_master_role_spec. }
    pose proof (save_request_create_denied today db user data Hcan Hid)
      as Hden.
    pose proof (save_request_not_started today db user data) as Hns.
    split; [|split; [done|done]].
    destruct (usecases._resolve_equipment_and_issue db data).1 as [?|e0].
    + by rewrite Hden.
    + by rewrite (proj1 (Hns e0 eq_refl)).
  - intros k req Hid Hok.
    destruct (save_request_outcome today db user data)
      as [e0 _ _ Heq
         |db1 e Hres Hbegin Heq
         |db1 req0 new_status req1 e Hres Hbegin Hid1 Hkind He Heq
         |db1 req0 ns req1 Hres Hbegin Hid1 _ _ Hcl _ Heq];
      rewrite Heq in Hok; simpl in Hok; [done..|].
    injection Hok as <-.
    pose proof (add_request_fields req1 db1) as (_ & _ & Hadd & _).
    rewrite Hadd, Hcl. split; [|split].
    + intros ->. by rewrite bool_decide_eq_true_2.
    + intros Hr.
      assert (bool_decide (rbac.role_name (Some user) = ROLE_CLIENT) = false
              ∧ in_ (rbac.role_name (Some user))
                  [ROLE_MANAGER; ROLE_OPERATOR] = true) as [-> ->].
      { destruct Hr as [-> | ->]; split; by eval_roles. }
      pose proof (save_request_Ok_staff_client today db user data) as Hsome.
      rewrite Heq in Hsome. simpl in Hsome.
      destruct (Hsome Hr _ eq_refl) as [c Hc].
      rewrite Hc. unfold truthy_int in Hc.
      destruct (RequestInput.client_id data) as [c'|]; [|done].
      case_bool_decide; by simplify_eq.
    + intros Hnc Hnm Hno.
      assert (bool_decide (rbac.role_name (Some user) = ROLE_CLIENT) = false
              ∧ in_ (rbac.role_name (Some user))
                  [ROLE_MANAGER; ROLE_OPERATOR] = false) as [Hc Hm].
      { split; by eval_roles. }
      destruct (save_request_update_keeps_client today db user data k
                  ((usecases.add_request req1 db1).1) Hc Hm Hid)
        as (old & Hold & Hclient & _).
      { by rewrite Heq. }
      exists old. split; [done|]. by rewrite <- Hclient, Hadd, Hcl.
Qed.

Lemma C9_client_field_on_update_witness :
  let data := fixtures.edit_ticket (Some 3) (Some 99) in
  let out :=
    usecases.save_request 738600 fixtures.db_ticket fixtures.master data in
  (∃ old,
     Session.repair_requests fixtures.db_ticket !! 10 = Some old
     ∧ RepairRequest.client_id (fixtures.returned out.1)
       = RepairRequest.client_id old
     ∧ Session.repair_requests out.2 !! 10 = Some (fixtures.returned out.1))
  ∧ (usecases.save_request 738600 fixtures.db_ticket fixtures.quality
       (fixtures.new_ticket (Some 1) (Some 7))).1
    = Raise BusinessRuleViolationError
  ∧ (usecases.save_request 738600 fixtures.db_ticket fixtures.specialist
       (fixtures.new_ticket (Some 1) (Some 7))).1
    = Raise PermissionDeniedError.
Proof.
  cbv zeta. split; [|split].
  - apply (proj1 (C9_client_field_on_update 738600 fixtures.db_ticket
                    fixtures.master
                    (fixtures.edit_ticket (Some 3) (Some 99)))
             (or_introl role_of_master) 10 _ eq_refl).
    vm_compute. reflexivity.
  - apply (proj1 (proj2 (proj1 (proj2 (C9_client_field_on_update 738600
                    fixtures.db_ticket fixtures.quality
                    (fixtures.new_ticket (Some 1) (Some 7))))
             role_of_quality eq_refl))).
    vm_compute. reflexivity.
  - apply (proj1 (proj2 (proj1 (proj2 (proj2 (C9_client_field_on_update
                    738600 fixtures.db_ticket fixtures.specialist
                    (fixtures.new_ticket (Some 1) (Some 7)))))
             (or_intror role_of_specialist) eq_refl))).
    vm_compute. reflexivity.
Defined.

(** C9 as stated fails for the master class: a Master saving without a
    ticket id is refused by the create-capability check, with a
    [PermissionDeniedError], before any business rule is looked at.
    It fails for a QualityManager too when the equipment type is not
    stored: the save stops on the [IntegrityError] of the flush, before
    any check of the actor. *)
Lemma C9_counterexample :
  rbac.role_name (Some fixtures.master) = ROLE_MASTER
  ∧ (usecases.save_request 738600 fixtures.db_ticket fixtures.master
       (fixtures.new_ticket (Some 1) (Some 7))).1
    = Raise PermissionDeniedError
  ∧ (usecases.save_request 738600 fixtures.db_ticket fixtures.master
       (fixtures.new_ticket (Some 1) (Some 7))).1
    ≠ Raise BusinessRuleViolationError
  ∧ rbac.role_name (Some fixtures.quality) = ROLE_QUALITY_MANAGER
  ∧ (usecases.save_request 738600 fixtures.db_ticket fixtures.quality
       fixtures.unknown_type_ticket).1
    = Raise IntegrityError.
Proof.
  split; [reflexivity|]. split; [|split; [|split]].
  - vm_compute. reflexivity.
  - vm_compute. discriminate.
  - reflexivity.
  - vm_compute. reflexivity.
Qed.

(** ** Closing a help request *)

(** A close that raises leaves the session as it found it. *)
Lemma close_help_request_Raise now db user data e :
  (usecases.close_help_request now db user data).1 = Raise e →
  (usecases.close_help_request now db user data).2 = db.
Proof.
  destruct (close_help_request_outcome now db user data)
    as [[e' ->]|(h & req & nm & _ & _ & _ & _ & _ & _ & ->)]; done.
Qed.

(** With the actor, the help request, the ticket and the due date in
    order, a requested master who is missing or not master-class makes
    the close stop on a business-rule error. *)
Lemma close_help_request_bad_master now db user data h req m :
  rbac.user_can_handle_help_request user = true →
  db_get (Session.help_requests db) (HelpRequestCloseInput.help_id data)
    = Some h →
  HelpRequest.status h = lit "open" →
  db_get_request db (HelpRequest.request_id h) = Some req →
  (∀ d, HelpRequestCloseInput.new_due_date data = Some d →
        ∃ sd, RepairRequest.start_date req = Some sd ∧ sd ≤ d) →
  HelpRequestCloseInput.assigned_master_id data = Some m →
  (db_get (Session.users db) m = None
   ∨ ∃ u role, db_get (Session.users db) m = Some u
               ∧ User.role u = Some role
               ∧ is_master_role (UserRole.name role) = false) →
  usecases.close_help_request now db user data
  = (Raise BusinessRuleViolationError, db).
Proof.
  intros Hcan Hh Hopen Hreq Hdue Hm Hbad.
  unfold usecases.close_help_request.
  rewrite Hcan, Hh. simpl.
  rewrite bool_decide_eq_false_2 by (by intros ?).
  rewrite Hreq.
  assert (usecases.close_help_request_master db data
          = Raise BusinessRuleViolationError) as Hmaster.
  { unfold usecases.close_help_request_master. rewrite Hm.
    destruct Hbad as [-> | (u & role & -> & -> & ->)]; done. }
  destruct (HelpRequestCloseInput.new_due_date data) as [d|].
  - destruct (Hdue d eq_refl) as (sd & -> & Hle).
    rewrite bool_decide_eq_false_2 by lia. by rewrite Hmaster.
  - by rewrite Hmaster.
Qed.

(** C5. Every close that goes through found the help request open and
    its ticket in the store, and leaves them as follows.  If a master
    id was given, a user with that id exists and is master-class, and
    both the ticket's master and the help request's assigned master are
    that id; if a due date was given, it is the ticket's due date; the
    resolution note is the trimmed text, or none when that is empty;
    the closing actor, the state closed and the time of the close are
    on the help request.  And with everything else in order, a master
    id that names no user, or a user who is not master-class, stops
    the close on a business-rule error. *)
Theorem C5_close_help_request_effects :
  (∀ now db user data closed,
     (usecases.close_help_request now db user data).1 = Ok closed →
     let db' := (usecases.close_help_request now db user data).2 in
     let hid := HelpRequestCloseInput.help_id data in
     ∃ h req req',
       db_get (Session.help_requests db) hid = Some h
       ∧ db_get_request db (HelpRequest.request_id h) = Some req
       ∧ Session.help_requests db' !! hid = Some closed
       ∧ Session.repair_requests db' !! HelpRequest.request_id h = Some req'
       ∧ (∀ m, HelpRequestCloseInput.assigned_master_id data = Some m →
               (∃ u role, db_get (Session.users db) m = Some u
                          ∧ User.role u = Some role
                          ∧ is_master_role (UserRole.name role) = true)
               ∧ RepairRequest.master_id req' = Some m
               ∧ HelpRequest.assigned_master_id closed = Some m)
       ∧ (HelpRequestCloseInput.assigned_master_id data = None →
          RepairRequest.master_id req' = RepairRequest.master_id req
          ∧ HelpRequest.assigned_master_id closed
            = HelpRequest.assigned_master_id h)
       ∧ (∀ d, HelpRequestCloseInput.new_due_date data = Some d →
               RepairRequest.due_date req' = Some d)
       ∧ (HelpRequestCloseInput.new_due_date data = None →
          RepairRequest.due_date req' = RepairRequest.due_date req)
       ∧ HelpRequest.resolution_note closed
         = or_None (strip (HelpRequestCloseInput.resolution_note data))
       ∧ HelpRequest.quality_manager_id closed = Some (User.id user)
       ∧ HelpRequest.status closed = lit "closed"
       ∧ HelpRequest.closed_at closed = Some now)
  ∧ (∀ now db user data h req m,
       rbac.user_can_handle_help_request user = true →
       db_get (Session.help_requests db) (HelpRequestCloseInput.help_id data)
         = Some h →
       HelpRequest.status h = lit "open" →
       db_get_request db (HelpRequest.request_id h) = Some req →
       (∀ d, HelpRequestCloseInput.new_due_date data = Some d →
             ∃ sd, RepairRequest.start_date req = Some sd ∧ sd ≤ d) →
       HelpRequestCloseInput.assigned_master_id data = Some m →
       (db_get (Session.users db) m = None
        ∨ ∃ u role, db_get (Session.users db) m = Some u
                    ∧ User.role u = Some role
                    ∧ is_master_role (UserRole.name role) = false) →
       usecases.close_help_request now db user data
       = (Raise BusinessRuleViolationError, db)).
Proof.
  split; [|apply close_help_request_bad_master].
  intros now db user data closed Hok. cbv zeta.
  destruct (close_help_request_outcome now db user data)
    as [[e Heq]|(h & req & nm & _ & Hh & _ & Hreq & _ & Hm & Heq)];
    rewrite Heq in Hok |- *; simpl in Hok |- *; [done|].
  injection Hok as <-.
  apply close_help_request_master_spec in Hm.
  exists h, req,
    (ticket_after_close nm (HelpRequestCloseInput.new_due_date data) req).
  split; [done|]. split; [done|].
  split; [apply lookup_insert_eq|]. split; [apply lookup_insert_eq|].
  unfold ticket_after_close, help_request_after_close. simpl.
  destruct (HelpRequestCloseInput.assigned_master_id data) as [m|];
    [destruct Hm as (-> & Hu)|subst nm];
    destruct (HelpRequestCloseInput.new_due_date data) as [d|];
    repeat split; intros; simplify_eq; done.
Qed.

Lemma can_handle_quality :
  rbac.user_can_handle_help_request fixtures.quality = true.
Proof. vm_compute. reflexivity. Qed.

Lemma C5_close_help_request_effects_witness :
  let db := fixtures.db_escalated in
  let data := fixtures.close_input (Some 3) (Some 738530) in
  let out := usecases.close_help_request 738601 db fixtures.quality data in
  let closed := fixtures.returned_help out.1 in
  (∃ h req req',
     db_get (Session.help_requests db) 1 = Some h
     ∧ db_get_request db (HelpRequest.request_id h) = Some req
     ∧ Session.help_requests out.2 !! 1 = Some closed
     ∧ Session.repair_requests out.2 !! HelpRequest.request_id h = Some req'
     ∧ (∀ m, Some 3 = Some m →
             (∃ u role, db_get (Session.users db) m = Some u
                        ∧ User.role u = Some role
                        ∧ is_master_role (UserRole.name role) = true)
             ∧ RepairRequest.master_id req' = Some m
             ∧ HelpRequest.assigned_master_id closed = Some m)
     ∧ (Some 3 = None →
        RepairRequest.master_id req' = RepairRequest.master_id req
        ∧ HelpRequest.assigned_master_id closed
          = HelpRequest.assigned_master_id h)
     ∧ (∀ d, Some 738530 = Some d → RepairRequest.due_date req' = Some d)
     ∧ (Some 738530 = None →
        RepairRequest.due_date req' = RepairRequest.due_date req)
     ∧ HelpRequest.resolution_note closed
       = or_None (strip (lit "  replaced the pump "))
     ∧ HelpRequest.quality_manager_id closed = Some 4
     ∧ HelpRequest.status closed = lit "closed"
     ∧ HelpRequest.closed_at closed = Some 738601)
  ∧ usecases.close_help_request 738601 db fixtures.quality
      (fixtures.close_input (Some 7) None)
    = (Raise BusinessRuleViolationError, db).
Proof.
  cbv zeta. split.
  - apply (proj1 C5_close_help_request_effects 738601 fixtures.db_escalated
             fixtures.quality (fixtures.close_input (Some 3) (Some 738530))).
    vm_compute. reflexivity.
  - apply (proj2 C5_close_help_request_effects 738601 fixtures.db_escalated
             fixtures.quality (fixtures.close_input (Some 7) None)
             (with_id 1 fixtures.help_open)
             (fixtures.make_request 10 7 2 fixtures.st_work) 7).
    + exact can_handle_quality.
    + vm_compute. reflexivity.
    + reflexivity.
    + vm_compute. reflexivity.
    + intros d Hd. discriminate Hd.
    + reflexivity.
    + right. exists fixtures.client, (UserRole.mk 1 ROLE_CLIENT).
      split; [vm_compute; reflexivity|]. split; [reflexivity|].
      vm_compute. reflexivity.
Defined.

(** ** Rejected closes *)

Lemma close_help_request_not_open now db user data h :
  rbac.user_can_handle_help_request user = true →
  db_get (Session.help_requests db) (HelpRequestCloseInput.help_id data)
    = Some h →
  HelpRequest.status h ≠ lit "open" →
  usecases.close_help_request now db user data
  = (Raise BusinessRuleViolationError, db).
Proof.
  intros Hcan Hh Hst. unfold usecases.close_help_request.
  rewrite Hcan, Hh. simpl. by rewrite bool_decide_eq_true_2.
Qed.

Lemma close_help_request_due_before_start now db user data h req d sd :
  rbac.user_can_handle_help_request user = true →
  db_get (Session.help_requests db) (HelpRequestCloseInput.help_id data)
    = Some h →
  HelpRequest.status h = lit "open" →
  db_get_request db (HelpRequest.request_id h) = Some req →
  HelpRequestCloseInput.new_due_date data = Some d →
  RepairRequest.start_date req = Some sd →
  d < sd →
  usecases.close_help_request now db user data
  = (Raise BusinessRuleViolationError, db).
Proof.
  intros Hcan Hh Hst Hreq Hd Hsd Hlt. unfold usecases.close_help_request.
  rewrite Hcan, Hh. simpl.
  rewrite bool_decide_eq_false_2 by (by intros ?).
  rewrite Hreq, Hd, Hsd. by rewrite bool_decide_eq_true_2.
Qed.

Lemma closed_is_not_open : lit "closed" ≠ lit "open".
Proof. role_neq. Qed.

(** After a close that went through, the help request is in the store
    with the state closed. *)
Lemma close_help_request_Ok_stored now db user data closed :
  (usecases.close_help_request now db user data).1 = Ok closed →
  ∃ h, db_get (Session.help_requests
                 (usecases.close_help_request now db user data).2)
         (HelpRequestCloseInput.help_id data) = Some h
       ∧ HelpRequest.status h = lit "closed".
Proof.
  intros Hok.
  destruct (close_help_request_outcome now db user data)
    as [[e Heq]|(h & req & nm & _ & Hh & _ & Hreq & _ & Hm & Heq)];
    rewrite Heq in Hok |- *; simpl in Hok |- *; [done|].
  eexists. split.
  - apply db_get_Some. eexists. split; [apply lookup_insert_eq|done].
  - done.
Qed.

(** C6. A close by an actor entitled to close, of a help request that
    is not open, stops on a business-rule error; so does a second close
    after one that went through; so does a close of an open help
    request with a new due date before the start date of its ticket.
    Each of these, and every close that raises, leaves the whole
    session, with the ticket and the help request, as it found it. *)
Theorem C6_close_help_request_rejections :
  (∀ now db user data h,
     rbac.user_can_handle_help_request user = true →
     db_get (Session.help_requests db) (HelpRequestCloseInput.help_id data)
       = Some h →
     HelpRequest.status h ≠ lit "open" →
     usecases.close_help_request now db user data
     = (Raise BusinessRuleViolationError, db))
  ∧ (∀ now db user data closed now' user' data',
       (usecases.close_help_request now db user data).1 = Ok closed →
       rbac.user_can_handle_help_request user' = true →
       HelpRequestCloseInput.help_id data'
         = HelpRequestCloseInput.help_id data →
       let db' := (usecases.close_help_request now db user data).2 in
       usecases.close_help_request now' db' user' data'
       = (Raise BusinessRuleViolationError, db'))
  ∧ (∀ now db user data h req d sd,
       rbac.user_can_handle_help_request user = true →
       db_get (Session.help_requests db) (HelpRequestCloseInput.help_id data)
         = Some h →
       HelpRequest.status h = lit "open" →
       db_get_request db (HelpRequest.request_id h) = Some req →
       HelpRequestCloseInput.new_due_date data = Some d →
       RepairRequest.start_date req = Some sd →
       d < sd →
       usecases.close_help_request now db user data
       = (Raise BusinessRuleViolationError, db))
  ∧ (∀ now db user data e,
       (usecases.close_help_request now db user data).1 = Raise e →
       (usecases.close_help_request now db user data).2 = db).
Proof.
  split; [|split; [|split]].
  - apply close_help_request_not_open.
  - intros now db user data closed now' user' data' Hok Hcan Hid. cbv zeta.
    destruct (close_help_request_Ok_stored _ _ _ _ _ Hok) as (h & Hh & Hst).
    apply (close_help_request_not_open _ _ _ _ h); [done|by rewrite Hid|].
    rewrite Hst. apply closed_is_not_open.
  - apply close_help_request_due_before_start.
  - apply close_help_request_Raise.
Qed.

Lemma C6_close_help_request_rejections_witness :
  let db := fixtures.db_escalated in
  let first :=
    usecases.close_help_request 738601 db fixtures.quality
      (fixtures.close_input None None) in
  usecases.close_help_request 738602 first.2 fixtures.manager
    (fixtures.close_input (Some 3) None)
  = (Raise BusinessRuleViolationError, first.2)
  ∧ usecases.close_help_request 738601 db fixtures.quality
      (fixtures.close_input (Some 3) (Some 738520))
    = (Raise BusinessRuleViolationError, db).
Proof.
  cbv zeta. split.
  - apply (proj1 (proj2 C6_close_help_request_rejections) 738601
             fixtures.db_escalated fixtures.quality
             (fixtures.close_input None None)
             (fixtures.returned_help
                (usecases.close_help_request 738601 fixtures.db_escalated
                   fixtures.quality (fixtures.close_input None None)).1)
             738602 fixtures.manager (fixtures.close_input (Some 3) None)).
    + vm_compute. reflexivity.
    + vm_compute. reflexivity.
    + reflexivity.
  - apply (proj1 (proj2 (proj2 C6_close_help_request_rejections)) 738601
             fixtures.db_escalated fixtures.quality
             (fixtures.close_input (Some 3) (Some 738520))
             (with_id 1 fixtures.help_open)
             (fixtures.make_request 10 7 2 fixtures.st_work) 738520 738521).
    + exact can_handle_quality.
    + vm_compute. reflexivity.
    + reflexivity.
    + vm_compute. reflexivity.
    + reflexivity.
    + reflexivity.
    + reflexivity.
Defined.

(** ** At most one open help request per ticket *)

Lemma open_for_spec rid h :
  open_for rid h = true ↔ HelpRequest.request_id h = rid ∧ is_open h.
Proof.
  unfold open_for, is_open.
  rewrite andb_true_iff, !bool_decide_eq_true. done.
Qed.

Lemma open_for_with_id rid k (h : HelpRequest.t) :
  open_for rid (with_id k h) = open_for rid h.
Proof. by destruct h. Qed.

(** The query of [create_help_request] finds nothing exactly when the
    ticket has no open help request in the store. *)
Lemma no_open_help_request db rid :
  query_first (open_for rid) (Session.help_requests db) = None ↔
  ∀ k h, Session.help_requests db !! k = Some h →
         HelpRequest.request_id h = rid → ¬ is_open h.
Proof.
  rewrite query_first_None. split.
  - intros Hq k h Hk Hrid Hopen.
    assert (open_for rid (with_id k h) = true) as Ht.
    { rewrite open_for_with_id. by apply open_for_spec. }
    rewrite (Hq k (with_id k h)) in Ht; [done|].
    apply db_get_Some. eauto.
  - intros Hno k x (h & Hk & ->)%db_get_Some.
    rewrite open_for_with_id.
    destruct (open_for rid h) eqn:Ho; [|done].
    apply open_for_spec in Ho as [Hrid Hopen]. by destruct (Hno k h).
Qed.

Lemma at_most_one_open_ext db db' :
  Session.help_requests db' = Session.help_requests db →
  at_most_one_open db → at_most_one_open db'.
Proof. intros Hh Hinv k1 k2 h1 h2. rewrite Hh. apply Hinv. Qed.

Lemma at_most_one_open_subseteq db db' :
  Session.help_requests db' ⊆ Session.help_requests db →
  at_most_one_open db → at_most_one_open db'.
Proof.
  intros Hsub Hinv k1 k2 h1 h2 H1 H2.
  apply (Hinv k1 k2 h1 h2); by eapply lookup_weaken.
Qed.

(** Storing a help request that is not open, or that is the only open
    one of its ticket, keeps the invariant. *)
Lemma at_most_one_open_put db k h :
  at_most_one_open db →
  (is_open h →
   ∀ k' h', k' ≠ k → Session.help_requests db !! k' = Some h' →
            HelpRequest.request_id h' = HelpRequest.request_id h →
            ¬ is_open h') →
  at_most_one_open (put_help_request k h db).
Proof.
  intros Hinv Hnew k1 k2 h1 h2. unfold put_help_request. simpl.
  destruct (decide (k1 = k2)) as [|Hne]; [done|].
  destruct (decide (k = k1)) as [<-|Hne1];
    destruct (decide (k = k2)) as [<-|Hne2]; try done.
  - rewrite lookup_insert_eq, lookup_insert_ne by done.
    intros [= <-] H2 Ho1 Ho2 Hrid.
    by destruct (Hnew Ho1 k2 h2).
  - rewrite lookup_insert_eq, lookup_insert_ne by done.
    intros H1 [= <-] Ho1 Ho2 Hrid.
    by destruct (Hnew Ho2 k1 h1).
  - rewrite !lookup_insert_ne by done. apply Hinv.
Qed.

Lemma save_request_help_requests today db user data :
  Session.help_requests (usecases.save_request today db user data).2
  = Session.help_requests db.
Proof.
  pose proof (resolve_equipment_and_issue_frame db data) as Hfr.
  simpl in Hfr. destruct Hfr as (_ & _ & _ & _ & Hh & _).
  destruct (save_request_outcome today db user data)
    as [e0 _ _ ->
       |db1 e Hres Hbegin ->
       |db1 req0 new_status req1 e Hres Hbegin Hid Hkind He ->
       |db1 req0 ns req1 Hres Hbegin Hid _ _ _ _ ->];
    [done|..]; rewrite Hres in Hh; simpl; [done|..].
  - unfold usecases.leave_request. by destruct (RepairRequest.id req1).
  - unfold usecases.add_request. by destruct (RepairRequest.id req1).
Qed.

Lemma create_help_request_preserves_exclusive db user data :
  at_most_one_open db →
  at_most_one_open (usecases.create_help_request db user data).2.
Proof.
  intros Hinv.
  destruct (create_help_request_outcome db user data)
    as [[e ->]|(req & _ & _ & _ & Hq & _ & ->)]; [done|]. simpl.
  apply at_most_one_open_put; [done|].
  intros _ k' h' _ Hk' Hrid.
  rewrite no_open_help_request in Hq. by apply (Hq k' h').
Qed.

Lemma close_help_request_preserves_exclusive now db user data :
  at_most_one_open db →
  at_most_one_open (usecases.close_help_request now db user data).2.
Proof.
  intros Hinv.
  destruct (close_help_request_outcome now db user data)
    as [[e ->]|(h & req & nm & _ & _ & _ & _ & _ & _ & ->)]; [done|].
  simpl. apply at_most_one_open_put.
  - by apply (at_most_one_open_ext db).
  - intros Ho. by destruct closed_is_not_open.
Qed.

Lemma run_preserves_exclusive op db :
  at_most_one_open db → at_most_one_open (run op db).
Proof.
  intros Hinv. destruct op as [today u d|u k|u k m|u d|now u d]; simpl.
  - apply (at_most_one_open_ext db); [|done].
    apply save_request_help_requests.
  - destruct (delete_request_outcome db u k) as [[e ->]| ->]; [done|].
    apply (at_most_one_open_subseteq db); [|done]. simpl.
    apply map_filter_subseteq.
  - destruct (add_comment_outcome db u k m) as [[e ->]|(c & tbl & ->)];
      [done|]. by apply (at_most_one_open_ext db).
  - by apply create_help_request_preserves_exclusive.
  - by apply close_help_request_preserves_exclusive.
Qed.

Lemma transaction_preserves_exclusive op db :
  at_most_one_open db → at_most_one_open (transaction op db).
Proof.
  intros Hinv. unfold transaction.
  destruct (succeeds op db); [by apply run_preserves_exclusive | done].
Qed.

Lemma reachable_exclusive db : reachable db → at_most_one_open db.
Proof.
  induction 1 as [db (_ & _ & Hh)|op db _ IH|op db _ IH].
  - intros k1 k2 h1 h2. rewrite Hh, lookup_empty. done.
  - by apply run_preserves_exclusive.
  - by apply transaction_preserves_exclusive.
Qed.

(** With an open help request on the ticket an escalation never goes
    through, and for the master assigned to the ticket it stops on
    [HelpRequestAlreadyOpenError]. *)
Lemma create_help_request_already_open db user data k h :
  Session.help_requests db !! k = Some h →
  HelpRequest.request_id h = HelpRequestCreateInput.request_id data →
  is_open h →
  is_Ok (usecases.create_help_request db user data).1 = false
  ∧ (usecases.create_help_request db user data).2 = db
  ∧ ∀ req,
      rbac.user_can_create_help_request user = true →
      db_get_request db (HelpRequestCreateInput.request_id data)
        = Some req →
      RepairRequest.master_id req = Some (User.id user) →
      usecases.create_help_request db user data
      = (Raise HelpRequestAlreadyOpenError, db).
Proof.
  intros Hk Hrid Hopen.
  assert (is_Some (query_first
                     (open_for (HelpRequestCreateInput.request_id data))
                     (Session.help_requests db))) as [x Hx].
  { apply (query_first_is_Some _ _ k (with_id k h)).
    - apply db_get_Some. eauto.
    - rewrite open_for_with_id. by apply open_for_spec. }
  split; [|split].
  - destruct (create_help_request_outcome db user data)
      as [[e ->]|(req & _ & _ & _ & Hq & _)]; [done|congruence].
  - destruct (create_help_request_outcome db user data)
      as [[e ->]|(req & _ & _ & _ & Hq & _)]; [done|congruence].
  - intros req Hcan Hreq Hm. unfold usecases.create_help_request.
    rewrite Hcan, Hreq. simpl.
    rewrite bool_decide_eq_false_2 by (by intros ?).
    fold (open_for (HelpRequestCreateInput.request_id data)).
    by rewrite Hx.
Qed.

(** With no open help request on the ticket, the master assigned to it
    opens one with any message that is not blank. *)
Lemma create_help_request_Ok db user data req :
  rbac.user_can_create_help_request user = true →
  db_get_request db (HelpRequestCreateInput.request_id data) = Some req →
  RepairRequest.master_id req = Some (User.id user) →
  (∀ k h, Session.help_requests db !! k = Some h →
          HelpRequest.request_id h = HelpRequestCreateInput.request_id data →
          ¬ is_open h) →
  strip (HelpRequestCreateInput.message data) ≠ [] →
  let k := fresh (dom (Session.help_requests db)) in
  let h := with_id k (opened_help_request user data) in
  usecases.create_help_request db user data = (Ok h, put_help_request k h db)
  ∧ Session.help_requests db !! k = None.
Proof.
  intros Hcan Hreq Hm Hno Hmsg. cbv zeta.
  split; [|by apply db_add_fresh].
  apply no_open_help_request in Hno.
  unfold usecases.create_help_request.
  rewrite Hcan, Hreq. simpl.
  rewrite bool_decide_eq_false_2 by (by intros ?).
  fold (open_for (HelpRequestCreateInput.request_id data)).
  rewrite Hno. unfold opened_help_request.
  by destruct (strip (HelpRequestCreateInput.message data)).
Qed.

(** After a close that went through, the ticket of the closed help
    request has no open help request left. *)
Lemma close_help_request_leaves_none_open now db user data closed :
  at_most_one_open db →
  (usecases.close_help_request now db user data).1 = Ok closed →
  ∀ k h,
    Session.help_requests (usecases.close_help_request now db user data).2
      !! k = Some h →
    HelpRequest.request_id h = HelpRequest.request_id closed →
    ¬ is_open h.
Proof.
  intros Hinv Hok k h.
  destruct (close_help_request_outcome now db user data)
    as [[e Heq]|(h0 & req & nm & _ & Hh & Hopen & _ & _ & _ & Heq)];
    rewrite Heq in Hok |- *; simpl in Hok |- *; [done|].
  injection Hok as <-.
  apply db_get_Some in Hh as (r0 & Hr0 & ->).
  destruct (decide (HelpRequestCloseInput.help_id data = k)) as [<-|Hne].
  - rewrite lookup_insert_eq. intros [= <-] _ Ho.
    by destruct closed_is_not_open.
  - rewrite lookup_insert_ne by done. intros Hk Hrid Ho.
    apply Hne.
    apply (Hinv _ _ r0 h Hr0 Hk); [by destruct r0|done|by destruct r0].
Qed.

(** C1. At most one help request per ticket is open.  Every engine
    operation keeps this, committed, rolled back or as the call left
    it, and it holds in every store the engine reaches.  While a ticket
    has an open help request no escalation of it goes through, and the
    escalation by the master assigned to the ticket stops on
    [HelpRequestAlreadyOpenError]; once that help request has been
    closed, the master then assigned to the ticket opens a new one,
    with a message that is not blank. *)
Theorem C1_escalation_exclusivity :
  (∀ op db,
     at_most_one_open db →
     at_most_one_open (run op db) ∧ at_most_one_open (transaction op db))
  ∧ (∀ db, reachable db → at_most_one_open db)
  ∧ (∀ db user data k h,
       Session.help_requests db !! k = Some h →
       HelpRequest.request_id h = HelpRequestCreateInput.request_id data →
       is_open h →
       is_Ok (usecases.create_help_request db user data).1 = false
       ∧ ∀ req,
           rbac.user_can_create_help_request user = true →
           db_get_request db (HelpRequestCreateInput.request_id data)
             = Some req →
           RepairRequest.master_id req = Some (User.id user) →
           usecases.create_help_request db user data
           = (Raise HelpRequestAlreadyOpenError, db))
  ∧ (∀ now db closer cdata closed user data req,
       at_most_one_open db →
       (usecases.close_help_request now db closer cdata).1 = Ok closed →
       let db' := (usecases.close_help_request now db closer cdata).2 in
       HelpRequestCreateInput.request_id data
         = HelpRequest.request_id closed →
       rbac.user_can_create_help_request user = true →
       db_get_request db' (HelpRequestCreateInput.request_id data)
         = Some req →
       RepairRequest.master_id req = Some (User.id user) →
       strip (HelpRequestCreateInput.message data) ≠ [] →
       ∃ h,
         (usecases.create_help_request db' user data).1 = Ok h
         ∧ is_open h
         ∧ HelpRequest.request_id h = HelpRequest.request_id closed
         ∧ at_most_one_open (usecases.create_help_request db' user data).2).
Proof.
  split; [|split; [|split]].
  - intros op db Hinv. split.
    + by apply run_preserves_exclusive.
    + by apply transaction_preserves_exclusive.
  - apply reachable_exclusive.
  - intros db user data k h Hk Hrid Hopen.
    destruct (create_help_request_already_open db user data k h Hk Hrid
                Hopen) as (Hfail & _ & Herr).
    done.
  - intros now db closer cdata closed user data req Hinv Hok. cbv zeta.
    intros Hrid Hcan Hreq Hm Hmsg.
    destruct (create_help_request_Ok _ user data req Hcan Hreq Hm)
      as [Heq _]; [|done|].
    + intros k h Hk Hr.
      apply (close_help_request_leaves_none_open _ _ _ _ _ Hinv Hok k h Hk).
      congruence.
    + eexists. rewrite Heq. simpl. split; [done|]. split; [done|].
      split; [done|].
      pose proof (create_help_request_preserves_exclusive
                    (usecases.close_help_request now db closer cdata).2
                    user data) as Hp.
      rewrite Heq in Hp. apply Hp.
      by apply close_help_request_preserves_exclusive.
Qed.

Lemma can_create_help_master :
  rbac.user_can_create_help_request fixtures.master = true.
Proof. vm_compute. reflexivity. Qed.

Lemma can_create_help_specialist :
  rbac.user_can_create_help_request fixtures.specialist = true.
Proof. vm_compute. reflexivity. Qed.

Lemma C1_escalation_exclusivity_witness :
  let db := fixtures.db_escalated in
  let data := fixtures.help_input (lit "need parts again") in
  at_most_one_open db
  ∧ at_most_one_open (transaction (CreateHelpRequest fixtures.master data) db)
  ∧ usecases.create_help_request db fixtures.master data
    = (Raise HelpRequestAlreadyOpenError, db)
  ∧ let db' :=
      (usecases.close_help_request 738601 db fixtures.quality
         (fixtures.close_input (Some 3) None)).2 in
    ∃ h,
      (usecases.create_help_request db' fixtures.specialist data).1 = Ok h
      ∧ is_open h
      ∧ HelpRequest.request_id h = 10
      ∧ at_most_one_open
          (usecases.create_help_request db' fixtures.specialist data).2.
Proof.
  cbv zeta.
  assert (at_most_one_open fixtures.db_escalated) as Hinv.
  { intros k1 k2 h1 h2 H1 H2 _ _ _.
    unfold fixtures.db_escalated in H1, H2. simpl in H1, H2.
    apply lookup_singleton_Some in H1 as [<- _].
    by apply lookup_singleton_Some in H2 as [<- _]. }
  split; [exact Hinv|]. split; [|split].
  - apply (proj1 C1_escalation_exclusivity). exact Hinv.
  - apply (proj2 (proj1 (proj2 (proj2 C1_escalation_exclusivity))
             fixtures.db_escalated fixtures.master
             (fixtures.help_input (lit "need parts again"))
             1 fixtures.help_open eq_refl eq_refl eq_refl)
             (fixtures.make_request 10 7 2 fixtures.st_work)).
    + exact can_create_help_master.
    + vm_compute. reflexivity.
    + reflexivity.
  - apply (proj2 (proj2 (proj2 C1_escalation_exclusivity)) 738601
             fixtures.db_escalated fixtures.quality
             (fixtures.close_input (Some 3) None)
             (fixtures.returned_help
                (usecases.close_help_request 738601 fixtures.db_escalated
                   fixtures.quality (fixtures.close_input (Some 3) None)).1)
             fixtures.specialist
             (fixtures.help_input (lit "need parts again"))
             (fixtures.make_request 10 7 3 fixtures.st_work)).
    + exact Hinv.
    + vm_compute. reflexivity.
    + reflexivity.
    + exact can_create_help_specialist.
    + vm_compute. reflexivity.
    + reflexivity.
    + vm_compute. discriminate.
Defined.

(** ** Escalation and the status of the ticket *)

(** The outcome of an escalation is decided by the actor, the input,
    the help requests in the store and the master of the ticket; the
    status of the ticket has no part in it. *)
Lemma create_help_request_status_blind db1 db2 user data :
  Session.help_requests db1 = Session.help_requests db2 →
  RepairRequest.master_id
    <$> db_get_request db1 (HelpRequestCreateInput.request_id data)
  = RepairRequest.master_id
      <$> db_get_request db2 (HelpRequestCreateInput.request_id data) →
  (usecases.create_help_request db1 user data).1
  = (usecases.create_help_request db2 user data).1.
Proof.
  intros Hh Hm. unfold usecases.create_help_request.
  destruct (rbac.user_can_create_help_request user); simpl; [|done].
  destruct (db_get_request db1 _) as [r1|],
           (db_get_request db2 _) as [r2|]; simpl in Hm; try done.
  injection Hm as ->. rewrite Hh.
  case_bool_decide; [done|].
  destruct (query_first _ _); [done|].
  by destruct (strip (HelpRequestCreateInput.message data)).
Qed.

(** C10 (as amended).  An escalation never looks at the status of the
    ticket.  A master-class actor assigned to a ticket that exists and
    has no open help request opens one, whatever the status of the
    ticket, final included, with any message that is not blank, that is
    not empty once trimmed; and in any other store with the same help
    requests and the same master on the ticket the outcome is the
    same. *)
Theorem C10_escalation_ignores_status
    (db : Session.t) (user : User.t) (data : HelpRequestCreateInput.t)
    (req : RepairRequest.t) :
  let rid := HelpRequestCreateInput.request_id data in
  is_master_role (rbac.role_name (Some user)) = true →
  db_get_request db rid = Some req →
  RepairRequest.master_id req = Some (User.id user) →
  (∀ k h, Session.help_requests db !! k = Some h →
          HelpRequest.request_id h = rid → ¬ is_open h) →
  strip (HelpRequestCreateInput.message data) ≠ [] →
  (∃ h,
     (usecases.create_help_request db user data).1 = Ok h
     ∧ is_open h
     ∧ HelpRequest.request_id h = rid
     ∧ HelpRequest.created_by_master_id h = User.id user
     ∧ ∃ k, Session.help_requests
              (usecases.create_help_request db user data).2 !! k = Some h)
  ∧ ∀ db2 req2,
      Session.help_requests db2 = Session.help_requests db →
      db_get_request db2 rid = Some req2 →
      RepairRequest.master_id req2 = RepairRequest.master_id req →
      (usecases.create_help_request db2 user data).1
      = (usecases.create_help_request db user data).1.
Proof.
  cbv zeta. intros Hrole Hreq Hm Hno Hmsg. split.
  - destruct (create_help_request_Ok db user data req Hrole Hreq Hm Hno Hmsg)
      as [Heq _].
    rewrite Heq. simpl. eexists. split; [done|]. repeat split.
    eexists. apply lookup_insert_eq.
  - intros db2 req2 Hh Hreq2 Hm2.
    apply create_help_request_status_blind; [done|].
    rewrite Hreq, Hreq2. simpl. by rewrite Hm2.
Qed.

Lemma C10_escalation_ignores_status_witness :
  let db := fixtures.db_done in
  let data := fixtures.help_input (lit "need parts") in
  (∀ st, RepairRequest.status (fixtures.make_request 10 7 2 fixtures.st_done)
         = Some st → RequestStatus.is_final st = true)
  ∧ ∃ h,
      (usecases.create_help_request db fixtures.master data).1 = Ok h
      ∧ is_open h
      ∧ HelpRequest.request_id h = 10
      ∧ HelpRequest.created_by_master_id h = 2
      ∧ ∃ k, Session.help_requests
               (usecases.create_help_request db fixtures.master data).2 !! k
             = Some h.
Proof.
  cbv zeta. split; [by intros st [= <-]|].
  apply (C10_escalation_ignores_status fixtures.db_done fixtures.master
           (fixtures.help_input (lit "need parts"))
           (fixtures.make_request 10 7 2 fixtures.st_done)).
  - exact can_create_help_master.
  - vm_compute. reflexivity.
  - reflexivity.
  - intros k h Hk. unfold fixtures.db_done in Hk. simpl in Hk.
    rewrite lookup_empty in Hk. discriminate Hk.
  - vm_compute. discriminate.
Defined.

(** C10 as stated fails on a message of blanks: the master assigned to
    an existing ticket without an open help request sends the message
    of one space, which is not empty, and the escalation stops on a
    business-rule error. *)
Lemma C10_counterexample :
  let db := fixtures.db_done in
  let data := fixtures.help_input (lit " ") in
  is_master_role (rbac.role_name (Some fixtures.master)) = true
  ∧ (∃ req, db_get_request db 10 = Some req
            ∧ RepairRequest.master_id req = Some (User.id fixtures.master))
  ∧ Session.help_requests db = ∅
  ∧ HelpRequestCreateInput.message data ≠ []
  ∧ usecases.create_help_request db fixtures.master data
    = (Raise BusinessRuleViolationError, db).
Proof.
  cbv zeta. split; [exact can_create_help_master|]. split; [|split; [|split]].
  - eexists. split; [vm_compute; reflexivity | reflexivity].
  - reflexivity.
  - vm_compute. discriminate.
  - vm_compute. reflexivity.
Qed.

(** ** Master and Specialist are interchangeable *)

Lemma swap_role_name_tests (r : str) :
  is_master_role (swap_role_name r) = is_master_role r
  ∧ bool_decide (swap_role_name r = ROLE_CLIENT)
    = bool_decide (r = ROLE_CLIENT)
  ∧ bool_decide (swap_role_name r = ROLE_MANAGER)
    = bool_decide (r = ROLE_MANAGER)
  ∧ in_ (swap_role_name r) [ROLE_MANAGER; ROLE_OPERATOR; ROLE_QUALITY_MANAGER]
    = in_ r [ROLE_MANAGER; ROLE_OPERATOR; ROLE_QUALITY_MANAGER]
  ∧ in_ (swap_role_name r)
      [ROLE_MANAGER; ROLE_OPERATOR; ROLE_QUALITY_MANAGER; ROLE_CLIENT]
    = in_ r [ROLE_MANAGER; ROLE_OPERATOR; ROLE_QUALITY_MANAGER; ROLE_CLIENT]
  ∧ in_ (swap_role_name r) [ROLE_MANAGER; ROLE_OPERATOR]
    = in_ r [ROLE_MANAGER; ROLE_OPERATOR]
  ∧ in_ (swap_role_name r) [ROLE_QUALITY_MANAGER; ROLE_MANAGER]
    = in_ r [ROLE_QUALITY_MANAGER; ROLE_MANAGER]
  ∧ in_ (swap_role_name r)
      [ROLE_MANAGER; ROLE_OPERATOR; ROLE_MASTER; ROLE_SPECIALIST]
    = in_ r [ROLE_MANAGER; ROLE_OPERATOR; ROLE_MASTER; ROLE_SPECIALIST].
Proof.
  unfold swap_role_name.
  role_cases r; eval_roles; repeat split; by eval_roles.
Qed.

Lemma role_name_swap_role (u : User.t) :
  rbac.role_name (Some (swap_role u))
  = swap_role_name (rbac.role_name (Some u)).
Proof.
  unfold rbac.role_name, swap_role. simpl.
  destruct (User.role u); simpl; [done|].
  unfold swap_role_name. by eval_roles.
Qed.

Lemma id_swap_role (u : User.t) : User.id (swap_role u) = User.id u.
Proof. done. Qed.

(** Rewrites every role test on a swapped actor into the test on the
    actor. *)
Ltac unswap :=
  rewrite ?role_name_swap_role, ?id_swap_role;
  repeat match goal with
    | |- context [swap_role_name ?r] =>
        let H1 := fresh in let H2 := fresh in let H3 := fresh in
        let H4 := fresh in let H5 := fresh in let H6 := fresh in
        let H7 := fresh in let H8 := fresh in
        pose proof (swap_role_name_tests r)
          as (H1 & H2 & H3 & H4 & H5 & H6 & H7 & H8);
        progress rewrite ?H1, ?H2, ?H3, ?H4, ?H5, ?H6, ?H7, ?H8;
        clear H1 H2 H3 H4 H5 H6 H7 H8
    end.

Lemma rbac_swap_role (u : User.t) :
  rbac.user_can_create_request (swap_role u) = rbac.user_can_create_request u
  ∧ (∀ req, rbac.user_can_view_request (swap_role u) req
            = rbac.user_can_view_request u req)
  ∧ (∀ req, rbac.user_can_edit_request (swap_role u) req
            = rbac.user_can_edit_request u req)
  ∧ rbac.user_can_delete_request (swap_role u)
    = rbac.user_can_delete_request u
  ∧ (∀ req, rbac.user_can_add_comment (swap_role u) req
            = rbac.user_can_add_comment u req)
  ∧ rbac.user_can_assign_master (swap_role u) = rbac.user_can_assign_master u
  ∧ (∀ old new, rbac.user_can_change_status (swap_role u) old new
                = rbac.user_can_change_status u old new)
  ∧ rbac.user_can_manage_users (swap_role u) = rbac.user_can_manage_users u
  ∧ rbac.user_can_view_statistics (swap_role u)
    = rbac.user_can_view_statistics u
  ∧ rbac.user_can_view_quality_desk (swap_role u)
    = rbac.user_can_view_quality_desk u
  ∧ rbac.user_can_create_help_request (swap_role u)
    = rbac.user_can_create_help_request u
  ∧ rbac.user_can_handle_help_request (swap_role u)
    = rbac.user_can_handle_help_request u.
Proof.
  unfold rbac.user_can_create_request, rbac.user_can_view_request,
    rbac.user_can_edit_request, rbac.user_can_delete_request,
    rbac.user_can_add_comment, rbac.user_can_assign_master,
    rbac.user_can_change_status, rbac.user_can_manage_users,
    rbac.user_can_view_statistics, rbac.user_can_view_quality_desk,
    rbac.user_can_create_help_request, rbac.user_can_handle_help_request.
  cbv zeta. repeat split; intros; by unswap.
Qed.

Lemma gates_swap_role (u : User.t) :
  (∀ req data, usecases._apply_due_date (swap_role u) req data
               = usecases._apply_due_date u req data)
  ∧ (∀ req data, usecases._apply_repair_parts (swap_role u) req data
                 = usecases._apply_repair_parts u req data)
  ∧ (∀ req data, usecases._apply_master (swap_role u) req data
                 = usecases._apply_master u req data)
  ∧ (∀ req data, usecases._apply_client (swap_role u) req data
                 = usecases._apply_client u req data)
  ∧ (∀ db data, usecases._resolve_new_status_for_create db (swap_role u) data
                = usecases._resolve_new_status_for_create db u data)
  ∧ (∀ db req data,
       usecases._resolve_new_status_for_update db (swap_role u) req data
       = usecases._resolve_new_status_for_update db u req data).
Proof.
  destruct (rbac_swap_role u)
    as (Hcreate & Hview & Hedit & Hdel & Hcomment & Hassign & Hchange & _).
  unfold usecases._apply_due_date, usecases._apply_repair_parts,
    usecases._apply_master, usecases._apply_client,
    usecases._resolve_new_status_for_create,
    usecases._resolve_new_status_for_update.
  cbv zeta. repeat split; intros; rewrite ?Hassign; unswap; try done.
  destruct (bool_decide _); [done|].
  destruct (RequestInput.status_id data); [|done].
  destruct (RepairRequest.status req); [|done].
  destruct (bool_decide _); [done|].
  destruct (db_get _ _); [|done]. by rewrite Hchange.
Qed.

(** Every use case gives the same outcome, result and session, for an
    actor and for the same actor with Master and Specialist
    exchanged. *)
Lemma usecases_swap_actor (u : User.t) :
  (∀ today db data,
     usecases.save_request today db (swap_role u) data
     = usecases.save_request today db u data)
  ∧ (∀ db k, usecases.delete_request db (swap_role u) k
             = usecases.delete_request db u k)
  ∧ (∀ db k m, usecases.add_comment db (swap_role u) k m
               = usecases.add_comment db u k m)
  ∧ (∀ db data, usecases.create_help_request db (swap_role u) data
                = usecases.create_help_request db u data)
  ∧ (∀ now db data, usecases.close_help_request now db (swap_role u) data
                    = usecases.close_help_request now db u data).
Proof.
  destruct (rbac_swap_role u)
    as (Hcreate & Hview & Hedit & Hdel & Hcomment & Hassign & Hchange
        & _ & _ & _ & Hhelp & Hhandle).
  destruct (gates_swap_role u) as (Hdue & Hparts & Hmaster & Hclient
                                   & Hnewc & Hnewu).
  split; [|split; [|split; [|split]]].
  - intros today db data. unfold usecases.save_request.
    destruct (usecases._resolve_equipment_and_issue db data)
      as [[[em it]|e0] db1]; [|done].
    assert (usecases.save_request_begin db1 (swap_role u) data
            = usecases.save_request_begin db1 u data) as ->.
    { unfold usecases.save_request_begin.
      destruct (RequestInput.id data); [destruct (db_get_request _ _)|];
        by rewrite ?Hedit, ?Hnewu, ?Hcreate, ?Hnewc. }
    destruct (usecases.save_request_begin db1 u data) as [[req [ns|]]|];
      [|done..].
    by rewrite ?Hdue, ?Hparts, ?Hmaster, ?Hclient.
  - intros db k. unfold usecases.delete_request. by rewrite Hdel.
  - intros db k m. unfold usecases.add_comment.
    destruct (db_get_request db k); [|done]. by rewrite Hcomment.
  - intros db data. unfold usecases.create_help_request, opened_help_request.
    by rewrite Hhelp.
  - intros now db data. unfold usecases.close_help_request.
    by rewrite Hhandle.
Qed.

Lemma db_get_users_swap who db m :
  db_get (Session.users (swap_roles_in who db)) m
  = (λ u, if who m then swap_role u else u) <$> db_get (Session.users db) m.
Proof.
  unfold db_get, swap_roles_in. simpl. rewrite map_lookup_imap.
  destruct (Session.users db !! m) as [u|]; simpl; [|done].
  by destruct (who m).
Qed.

Lemma close_help_request_master_swap who db data :
  usecases.close_help_request_master (swap_roles_in who db) data
  = usecases.close_help_request_master db data.
Proof.
  unfold usecases.close_help_request_master.
  destruct (HelpRequestCloseInput.assigned_master_id data) as [m|]; [|done].
  rewrite db_get_users_swap.
  destruct (db_get (Session.users db) m) as [u|]; simpl; [|done].
  destruct (who m); [|done].
  unfold swap_role. simpl. destruct (User.role u) as [r|]; simpl; [|done].
  by unswap.
Qed.

Lemma resolve_equipment_and_issue_swap who db data :
  usecases._resolve_equipment_and_issue (swap_roles_in who db) data
  = ((usecases._resolve_equipment_and_issue db data).1,
     swap_roles_in who (usecases._resolve_equipment_and_issue db data).2).
Proof.
  unfold usecases._resolve_equipment_and_issue,
    services.get_or_create_equipment_model, services.get_or_create_issue_type.
  simpl.
  repeat (case_match; simplify_eq/=; try done).
Qed.

(** Every use case gives the same result in a session and in the same
    session with Master and Specialist exchanged on any of its users,
    and leaves sessions that differ by that exchange only. *)
Lemma usecases_swap_users who db :
  (∀ today u data,
     usecases.save_request today (swap_roles_in who db) u data
     = ((usecases.save_request today db u data).1,
        swap_roles_in who (usecases.save_request today db u data).2))
  ∧ (∀ u k,
       usecases.delete_request (swap_roles_in who db) u k
       = ((usecases.delete_request db u k).1,
          swap_roles_in who (usecases.delete_request db u k).2))
  ∧ (∀ u k m,
       usecases.add_comment (swap_roles_in who db) u k m
       = ((usecases.add_comment db u k m).1,
          swap_roles_in who (usecases.add_comment db u k m).2))
  ∧ (∀ u data,
       usecases.create_help_request (swap_roles_in who db) u data
       = ((usecases.create_help_request db u data).1,
          swap_roles_in who (usecases.create_help_request db u data).2))
  ∧ (∀ now u data,
       usecases.close_help_request now (swap_roles_in who db) u data
       = ((usecases.close_help_request now db u data).1,
          swap_roles_in who (usecases.close_help_request now db u data).2)).
Proof.
  split; [|split; [|split; [|split]]].
  - intros today u data. unfold usecases.save_request.
    rewrite resolve_equipment_and_issue_swap.
    destruct (usecases._resolve_equipment_and_issue db data)
      as [[[em it]|e0] db1]; [|done].
    simpl.
    change (usecases.save_request_begin (swap_roles_in who db1) u data)
      with (usecases.save_request_begin db1 u data).
    destruct (usecases.save_request_begin db1 u data) as [[req [ns|]]|];
      [| |done].
    + destruct (usecases._apply_client _ _ _) as [req'|]; simpl.
      * unfold usecases.add_request.
        by destruct (RepairRequest.id req').
      * unfold usecases.leave_request.
        by destruct (RepairRequest.id _).
    + unfold usecases.leave_request. by destruct (RepairRequest.id _).
  - intros u k. unfold usecases.delete_request.
    change (db_get_request (swap_roles_in who db) k)
      with (db_get_request db k).
    destruct (db_get_request db k); [|done].
    by destruct (rbac.user_can_delete_request u).
  - intros u k m. unfold usecases.add_comment.
    change (db_get_request (swap_roles_in who db) k)
      with (db_get_request db k).
    destruct (db_get_request db k); [|done].
    destruct (rbac.user_can_add_comment _ _); [|done]. simpl.
    by destruct (strip m).
  - intros u data. unfold usecases.create_help_request.
    destruct (rbac.user_can_create_help_request u); [|done]. simpl.
    change (db_get_request (swap_roles_in who db)
              (HelpRequestCreateInput.request_id data))
      with (db_get_request db (HelpRequestCreateInput.request_id data)).
    destruct (db_get_request db _); [|done].
    case_bool_decide; [done|]. destruct (query_first _ _); [done|].
    by destruct (strip _).
  - intros now u data. unfold usecases.close_help_request.
    destruct (rbac.user_can_handle_help_request u); [|done]. simpl.
    destruct (db_get (Session.help_requests db) _) as [h|]; [|done].
    case_bool_decide; [done|].
    change (db_get_request (swap_roles_in who db) (HelpRequest.request_id h))
      with (db_get_request db (HelpRequest.request_id h)).
    destruct (db_get_request db _) as [req|]; [|done].
    rewrite close_help_request_master_swap.
    destruct (HelpRequestCloseInput.new_due_date data) as [d|].
    + destruct (RepairRequest.start_date req); [|done].
      case_bool_decide; [done|].
      by destruct (usecases.close_help_request_master db data) as [[]|].
    + by destruct (usecases.close_help_request_master db data) as [[]|].
Qed.

(** C8. Master and Specialist are interchangeable throughout the
    engine.  Exchanging the two roles on the actor ([swap_role]) and on
    any users of the session ([swap_roles_in], which reaches the user a
    close names as the new master) changes no authorization predicate,
    no status-transition decision, no field gate and no use case: each
    use case returns the same result or raises the same exception, and
    leaves the same session up to that exchange. *)
Theorem C8_master_specialist_interchangeable
    (u : User.t) (who : Z → bool) (db : Session.t) :
  (swap_role_name ROLE_MASTER = ROLE_SPECIALIST
   ∧ swap_role_name ROLE_SPECIALIST = ROLE_MASTER
   ∧ rbac.role_name (Some (swap_role u))
     = swap_role_name (rbac.role_name (Some u))
   ∧ User.id (swap_role u) = User.id u)
  ∧ (rbac.user_can_create_request (swap_role u)
     = rbac.user_can_create_request u
     ∧ (∀ req, rbac.user_can_view_request (swap_role u) req
               = rbac.user_can_view_request u req)
     ∧ (∀ req, rbac.user_can_edit_request (swap_role u) req
               = rbac.user_can_edit_request u req)
     ∧ rbac.user_can_delete_request (swap_role u)
       = rbac.user_can_delete_request u
     ∧ (∀ req, rbac.user_can_add_comment (swap_role u) req
               = rbac.user_can_add_comment u req)
     ∧ rbac.user_can_assign_master (swap_role u)
       = rbac.user_can_assign_master u
     ∧ (∀ old new, rbac.user_can_change_status (swap_role u) old new
                   = rbac.user_can_change_status u old new)
     ∧ rbac.user_can_manage_users (swap_role u)
       = rbac.user_can_manage_users u
     ∧ rbac.user_can_view_statistics (swap_role u)
       = rbac.user_can_view_statistics u
     ∧ rbac.user_can_view_quality_desk (swap_role u)
       = rbac.user_can_view_quality_desk u
     ∧ rbac.user_can_create_help_request (swap_role u)
       = rbac.user_can_create_help_request u
     ∧ rbac.user_can_handle_help_request (swap_role u)
       = rbac.user_can_handle_help_request u)
  ∧ ((∀ req data, usecases._apply_due_date (swap_role u) req data
                  = usecases._apply_due_date u req data)
     ∧ (∀ req data, usecases._apply_repair_parts (swap_role u) req data
                    = usecases._apply_repair_parts u req data)
     ∧ (∀ req data, usecases._apply_master (swap_role u) req data
                    = usecases._apply_master u req data)
     ∧ (∀ req data, usecases._apply_client (swap_role u) req data
                    = usecases._apply_client u req data)
     ∧ (∀ data,
          usecases._resolve_new_status_for_create (swap_roles_in who db)
            (swap_role u) data
          = usecases._resolve_new_status_for_create db u data)
     ∧ (∀ req data,
          usecases._resolve_new_status_for_update (swap_roles_in who db)
            (swap_role u) req data
          = usecases._resolve_new_status_for_update db u req data))
  ∧ ((∀ today data,
        usecases.save_request today (swap_roles_in who db) (swap_role u) data
        = ((usecases.save_request today db u data).1,
           swap_roles_in who (usecases.save_request today db u data).2))
     ∧ (∀ k,
          usecases.delete_request (swap_roles_in who db) (swap_role u) k
          = ((usecases.delete_request db u k).1,
             swap_roles_in who (usecases.delete_request db u k).2))
     ∧ (∀ k m,
          usecases.add_comment (swap_roles_in who db) (swap_role u) k m
          = ((usecases.add_comment db u k m).1,
             swap_roles_in who (usecases.add_comment db u k m).2))
     ∧ (∀ data,
          usecases.create_help_request (swap_roles_in who db) (swap_role u)
            data
          = ((usecases.create_help_request db u data).1,
             swap_roles_in who (usecases.create_help_request db u data).2))
     ∧ (∀ now data,
          usecases.close_help_request now (swap_roles_in who db)
            (swap_role u) data
          = ((usecases.close_help_request now db u data).1,
             swap_roles_in who
               (usecases.close_help_request now db u data).2))).
Proof.
  destruct (gates_swap_role u)
    as (Hdue & Hparts & Hmaster & Hclient & Hnewc & Hnewu).
  destruct (usecases_swap_actor u)
    as (Hsave & Hdelete & Hcomment & Hcreate & Hclose).
  destruct (usecases_swap_users who db)
    as (Hsave' & Hdelete' & Hcomment' & Hcreate' & Hclose').
  split; [|split; [|split]].
  - split; [by vm_compute|]. split; [by vm_compute|].
    split; [apply role_name_swap_role | done].
  - apply rbac_swap_role.
  - repeat split; try done.
    + intros data. rewrite Hnewc. done.
    + intros req data. rewrite Hnewu. done.
  - split; [|split; [|split; [|split]]].
    + intros today data. by rewrite Hsave' , Hsave.
    + intros k. by rewrite Hdelete', Hdelete.
    + intros k m. by rewrite Hcomment', Hcomment.
    + intros data. by rewrite Hcreate', Hcreate.
    + intros now data. by rewrite Hclose', Hclose.
Qed.

(** * Further properties of the engine *)

(** ** Capabilities (app/rbac.py) *)

(** X1. Whoever may edit a ticket may view it. *)
Theorem X1_edit_implies_view (user : User.t) (req : RepairRequest.t) :
  rbac.user_can_edit_request user req = Ok true →
  rbac.user_can_view_request user req = true.
Proof.
  unfold rbac.user_can_edit_request, rbac.user_can_view_request. cbv zeta.
  destruct (in_ _ _); [done|].
  destruct (is_master_role _); [by intros [= ->]|].
  destruct (bool_decide (_ = ROLE_CLIENT)); [|done].
  case_bool_decide; [done|]. by intros [= ?].
Qed.

Lemma X1_edit_implies_view_witness :
  rbac.user_can_view_request fixtures.client
    (fixtures.make_request 10 7 2 fixtures.st_work) = true.
Proof.
  apply (X1_edit_implies_view fixtures.client
           (fixtures.make_request 10 7 2 fixtures.st_work)).
  reflexivity.
Defined.

(** X2. A user without a role, or with a role name that is none of
    the six, has no capability at all. *)
Theorem X2_unknown_role_has_no_capability (user : User.t) :
  User.role user = None
  ∨ rbac.role_name (Some user) ∉
      [ROLE_MANAGER; ROLE_OPERATOR; ROLE_QUALITY_MANAGER;
       ROLE_MASTER; ROLE_SPECIALIST; ROLE_CLIENT] →
  rbac.user_can_create_request user = false
  ∧ (∀ req, rbac.user_can_view_request user req = false)
  ∧ (∀ req, rbac.user_can_edit_request user req = Ok false)
  ∧ rbac.user_can_delete_request user = false
  ∧ (∀ req, rbac.user_can_add_comment user req = false)
  ∧ rbac.user_can_assign_master user = false
  ∧ (∀ old new, rbac.user_can_change_status user old new = false)
  ∧ rbac.user_can_manage_users user = false
  ∧ rbac.user_can_view_statistics user = false
  ∧ rbac.user_can_view_quality_desk user = false
  ∧ rbac.user_can_create_help_request user = false
  ∧ rbac.user_can_handle_help_request user = false.
Proof.
  intros Hrole.
  assert (rbac.role_name (Some user) ∉
            [ROLE_MANAGER; ROLE_OPERATOR; ROLE_QUALITY_MANAGER;
             ROLE_MASTER; ROLE_SPECIALIST; ROLE_CLIENT]) as Hn.
  { destruct Hrole as [Hnone|Hn]; [|done].
    rewrite (role_name_None _ Hnone). apply empty_role_name_unknown. }
  clear Hrole. rewrite !not_elem_of_cons in Hn. destruct_and!.
  unfold rbac.user_can_create_request, rbac.user_can_view_request,
    rbac.user_can_edit_request, rbac.user_can_delete_request,
    rbac.user_can_add_comment, rbac.user_can_assign_master,
    rbac.user_can_change_status, rbac.user_can_manage_users,
    rbac.user_can_view_statistics, rbac.user_can_view_quality_desk,
    rbac.user_can_create_help_request, rbac.user_can_handle_help_request.
  cbv zeta. repeat split; intros; by eval_roles.
Qed.

Lemma X2_unknown_role_has_no_capability_witness :
  let nobody := fixtures.make_user 9 (lit "Гость") in
  rbac.user_can_create_request nobody = false
  ∧ rbac.user_can_handle_help_request nobody = false.
Proof.
  cbv zeta.
  pose proof (X2_unknown_role_has_no_capability
                (fixtures.make_user 9 (lit "Гость"))) as H.
  destruct H as (Hc & _ & _ & _ & _ & _ & _ & _ & _ & _ & _ & Hh).
  - right. apply (bool_decide_unpack _). vm_compute. exact I.
  - split; [exact Hc | exact Hh].
Defined.

(** X3. The capabilities of the master class and those of the other
    roles do not meet: a user who may comment on some ticket, or who may
    open a help request, may not create or delete tickets, assign a
    master, handle help requests, manage users, or see the statistics
    or the quality desk. *)
Theorem X3_master_class_separation (user : User.t) :
  (∃ req, rbac.user_can_add_comment user req = true)
  ∨ rbac.user_can_create_help_request user = true →
  rbac.user_can_create_request user = false
  ∧ rbac.user_can_delete_request user = false
  ∧ rbac.user_can_assign_master user = false
  ∧ rbac.user_can_handle_help_request user = false
  ∧ rbac.user_can_manage_users user = false
  ∧ rbac.user_can_view_statistics user = false
  ∧ rbac.user_can_view_quality_desk user = false.
Proof.
  intros H.
  assert (is_master_role (rbac.role_name (Some user)) = true) as Hm.
  { destruct H as [[req H]|H]; [|done].
    unfold rbac.user_can_add_comment in H. cbv zeta in H.
    by apply andb_true_iff in H as [H _]. }
  clear H. apply is_master_role_spec in Hm.
  unfold rbac.user_can_create_request, rbac.user_can_delete_request,
    rbac.user_can_assign_master, rbac.user_can_handle_help_request,
    rbac.user_can_manage_users, rbac.user_can_view_statistics,
    rbac.user_can_view_quality_desk.
  cbv zeta. destruct Hm as [-> | ->]; repeat split; by eval_roles.
Qed.

Lemma X3_master_class_separation_witness :
  rbac.user_can_create_request fixtures.specialist = false
  ∧ rbac.user_can_delete_request fixtures.specialist = false
  ∧ rbac.user_can_assign_master fixtures.specialist = false
  ∧ rbac.user_can_handle_help_request fixtures.specialist = false
  ∧ rbac.user_can_manage_users fixtures.specialist = false
  ∧ rbac.user_can_view_statistics fixtures.specialist = false
  ∧ rbac.user_can_view_quality_desk fixtures.specialist = false.
Proof.
  apply (X3_master_class_separation fixtures.specialist).
  right. exact can_create_help_specialist.
Defined.

(** X4. Whoever may delete tickets, or handle help requests, or manage
    users, is staff: they may create tickets, assign masters, and view
    and edit every ticket; and whoever may manage users may also
    delete tickets, handle help requests and see the statistics and the
    quality desk. *)
Theorem X4_staff_capabilities (user : User.t) :
  (rbac.user_can_delete_request user = true
   ∨ rbac.user_can_handle_help_request user = true
   ∨ rbac.user_can_manage_users user = true →
   rbac.user_can_create_request user = true
   ∧ rbac.user_can_assign_master user = true
   ∧ (∀ req, rbac.user_can_view_request user req = true)
   ∧ (∀ req, rbac.user_can_edit_request user req = Ok true)
   ∧ (∀ old new, rbac.user_can_change_status user old new = true))
  ∧ (rbac.user_can_manage_users user = true →
     rbac.user_can_delete_request user = true
     ∧ rbac.user_can_handle_help_request user = true
     ∧ rbac.user_can_view_statistics user = true
     ∧ rbac.user_can_view_quality_desk user = true).
Proof.
  unfold rbac.user_can_create_request, rbac.user_can_delete_request,
    rbac.user_can_assign_master, rbac.user_can_handle_help_request,
    rbac.user_can_manage_users, rbac.user_can_view_statistics,
    rbac.user_can_view_quality_desk, rbac.user_can_view_request,
    rbac.user_can_edit_request, rbac.user_can_change_status.
  cbv zeta. split.
  - intros H.
    assert (rbac.role_name (Some user) = ROLE_MANAGER
            ∨ rbac.role_name (Some user) = ROLE_OPERATOR
            ∨ rbac.role_name (Some user) = ROLE_QUALITY_MANAGER) as Hr.
    { rewrite !in_true, !elem_of_cons, !elem_of_nil, bool_decide_eq_true in H.
      tauto. }
    destruct Hr as [-> | [-> | ->]]; repeat split; intros; by eval_roles.
  - intros ->%bool_decide_eq_true. repeat split; by eval_roles.
Qed.

Lemma X4_staff_capabilities_witness :
  rbac.user_can_assign_master fixtures.quality = true
  ∧ rbac.user_can_view_statistics fixtures.manager = true.
Proof.
  split.
  - apply (proj1 (X4_staff_capabilities fixtures.quality)).
    right. left. exact can_handle_quality.
  - apply (proj2 (X4_staff_capabilities fixtures.manager)).
    vm_compute. reflexivity.
Defined.

(** ** Trimming *)

Lemma lstrip_no_lead (s : str) :
  match lstrip s with [] => True | c :: _ => isspace c = false end.
Proof.
  induction s as [|c s IH]; simpl; [done|].
  destruct (isspace c) eqn:Hc; [done|]. by rewrite Hc.
Qed.

Lemma lstrip_fixed (s : str) :
  match s with [] => True | c :: _ => isspace c = false end → lstrip s = s.
Proof. destruct s as [|c s]; simpl; [done|]. by intros ->. Qed.

Lemma lstrip_length (s : str) : (List.length (lstrip s) ≤ List.length s)%nat.
Proof.
  induction s as [|c s IH]; simpl; [done|].
  destruct (isspace c); simpl; lia.
Qed.

Lemma lstrip_lstrip (s : str) : lstrip (lstrip s) = lstrip s.
Proof. apply lstrip_fixed, lstrip_no_lead. Qed.

Lemma rstrip_snoc (s : str) (c : N) :
  rstrip (s ++ [c]) = if isspace c then rstrip s else s ++ [c].
Proof.
  unfold rstrip. rewrite rev_app_distr. simpl.
  destruct (isspace c); [done|]. simpl. by rewrite rev_involutive.
Qed.

Lemma rstrip_length (s : str) : (List.length (rstrip s) ≤ List.length s)%nat.
Proof.
  unfold rstrip. rewrite length_rev.
  etrans; [apply lstrip_length|]. by rewrite length_rev.
Qed.

Lemma rstrip_rstrip (s : str) : rstrip (rstrip s) = rstrip s.
Proof. unfold rstrip. by rewrite rev_involutive, lstrip_lstrip. Qed.

Lemma rstrip_no_lead (s : str) :
  match s with [] => True | c :: _ => isspace c = false end →
  match rstrip s with [] => True | c :: _ => isspace c = false end.
Proof.
  induction s as [|c s IH] using rev_ind; [done|].
  rewrite rstrip_snoc. destruct (isspace c) eqn:Hc; [|done].
  intros Hlead. apply IH. destruct s as [|c' s]; [done|]. done.
Qed.

(** A string ending in a character that is not a blank is its own
    [rstrip]. *)
Lemma rstrip_fixed (s : str) (c : N) :
  isspace c = false → rstrip (s ++ [c]) = s ++ [c].
Proof. intros Hc. by rewrite rstrip_snoc, Hc. Qed.

Lemma strip_no_lead (s : str) :
  match strip s with [] => True | c :: _ => isspace c = false end.
Proof. apply rstrip_no_lead, lstrip_no_lead. Qed.

Lemma strip_length (s : str) : (List.length (strip s) ≤ List.length s)%nat.
Proof.
  unfold strip. etrans; [apply rstrip_length | apply lstrip_length].
Qed.

Lemma strip_strip (s : str) : strip (strip s) = strip s.
Proof.
  unfold strip at 1.
  rewrite (lstrip_fixed (strip s)) by apply strip_no_lead.
  unfold strip. apply rstrip_rstrip.
Qed.

(** ** Issue types and equipment models (app/services.py) *)

Lemma normalize_long_trimmed (text : str) :
  match text with [] => True | c :: _ => isspace c = false end →
  let r := rstrip (take 252 text) ++ lit "..." in
  strip r = r ∧ r ≠ [] ∧ (List.length r ≤ 255)%nat.
Proof.
  intros Hlead. cbv zeta. split; [|split].
  - unfold strip. rewrite lstrip_fixed.
    + change (lit "...") with ([46; 46]%N ++ [46%N]).
      rewrite app_assoc. by apply rstrip_fixed.
    + pose proof (rstrip_no_lead (take 252 text)) as Hr.
      destruct (rstrip (take 252 text)) as [|c r]; [done|].
      apply Hr. by destruct text.
  - by destruct (rstrip (take 252 text)).
  - rewrite length_app.
    pose proof (rstrip_length (take 252 text)) as Hr.
    rewrite length_take in Hr.
    change (List.length (lit "...")) with 3%nat. lia.
Qed.

(** X5. The name [normalize_issue_type_name] gives an issue type is
    never empty, has at most 255 characters (the width of the column),
    carries no blank at either end, and is a fixed point of the
    normalization; a description whose trimmed text is not empty and
    fits is kept as that trimmed text. *)
Theorem X5_normalize_issue_type_name (problem_description : str) :
  let name := services.normalize_issue_type_name problem_description in
  name ≠ []
  ∧ (List.length name ≤ 255)%nat
  ∧ strip name = name
  ∧ services.normalize_issue_type_name name = name
  ∧ (strip problem_description ≠ [] →
     (List.length (strip problem_description) ≤ 255)%nat →
     name = strip problem_description).
Proof.
  cbv zeta.
  assert (∀ n : str,
            n ≠ [] → (List.length n ≤ 255)%nat → strip n = n →
            services.normalize_issue_type_name n = n) as Hfix.
  { intros n Hne Hlen Hs. unfold services.normalize_issue_type_name.
    cbv zeta. rewrite Hs. destruct n; [done|].
    by rewrite bool_decide_eq_true_2. }
  assert (services.normalize_issue_type_name problem_description ≠ []
          ∧ (List.length
               (services.normalize_issue_type_name problem_description)
             ≤ 255)%nat
          ∧ strip (services.normalize_issue_type_name problem_description)
            = services.normalize_issue_type_name problem_description
          ∧ (strip problem_description ≠ [] →
             (List.length (strip problem_description) ≤ 255)%nat →
             services.normalize_issue_type_name problem_description
             = strip problem_description)) as (Hne & Hlen & Hs & Hkeep).
  { unfold services.normalize_issue_type_name. cbv zeta.
    pose proof (strip_no_lead problem_description) as Hlead.
    pose proof (strip_strip problem_description) as Hidem.
    destruct (strip problem_description) as [|c text] eqn:Htext.
    - split; [done|]. split; [vm_compute; lia|].
      split; [by vm_compute|done].
    - case_bool_decide as Hl.
      + done.
      + destruct (normalize_long_trimmed (c :: text) Hlead)
          as (Hs & Hne & Hlen).
        split; [done|]. split; [done|]. split; [done|].
        by intros _ ?. }
  split; [done|]. split; [done|]. split; [done|]. split; [|done].
  by apply Hfix.
Qed.

Lemma X5_normalize_issue_type_name_witness :
  services.normalize_issue_type_name (lit "  Не греет ") = lit "Не греет".
Proof.
  apply (X5_normalize_issue_type_name (lit "  Не греет ")).
  - vm_compute. discriminate.
  - vm_compute. lia.
Defined.

Section get_or_create.
Context {T : Type} `{Model T}.
Variable P : T → bool.
Hypothesis P_with_id : ∀ k x, P (with_id k x) = P x.
Hypothesis with_id_twice : ∀ k (x : T), with_id k (with_id k x) = with_id k x.

(** An object added because the query found none is what the query
    finds afterwards. *)
Lemma query_first_db_add (tbl : gmap Z T) (obj : T) :
  query_first P tbl = None →
  P obj = true →
  query_first P (db_add obj tbl).2 = Some (db_add obj tbl).1.
Proof.
  intros Hnone Hobj. unfold db_add. simpl.
  set (k := fresh (dom tbl)).
  assert (db_get (<[k := with_id k obj]> tbl) k = Some (with_id k obj))
    as Hk.
  { unfold db_get. by rewrite lookup_insert_eq; simpl; rewrite with_id_twice. }
  destruct (query_first_is_Some P _ k _ Hk) as [y Hy];
    [by rewrite P_with_id|].
  rewrite Hy. f_equal.
  apply query_first_Some in Hy as (k' & Hk' & HP & _).
  destruct (decide (k' = k)) as [->|Hne]; [congruence|].
  rewrite query_first_None in Hnone.
  unfold db_get in Hk'. rewrite lookup_insert_ne in Hk' by done.
  rewrite (Hnone k' y Hk') in HP. done.
Qed.

End get_or_create.

Lemma get_or_create_issue_type_keeps db problem_description :
  ∀ k x, Session.issue_types db !! k = Some x →
         Session.issue_types
           (services.get_or_create_issue_type db problem_description).2 !! k
         = Some x.
Proof.
  unfold services.get_or_create_issue_type. cbv zeta.
  destruct (query_first _ _); [done|]. simpl. intros k x Hk.
  rewrite lookup_insert_ne; [done|]. intros <-.
  by rewrite db_add_fresh in Hk.
Qed.

Lemma get_or_create_equipment_model_keeps db equipment_type_id model_name :
  ∀ k x, Session.equipment_models db !! k = Some x →
         Session.equipment_models
           (services.get_or_create_equipment_model db equipment_type_id
              model_name).2 !! k
         = Some x.
Proof.
  unfold services.get_or_create_equipment_model. cbv zeta.
  destruct (query_first _ _); [done|].
  repeat case_bool_decide; [done..|]. simpl. intros k x Hk.
  rewrite lookup_insert_ne; [done|]. intros <-.
  by rewrite db_add_fresh in Hk.
Qed.

(** What the query of [get_or_create_equipment_model] looks for. *)
Lemma equipment_model_query db equipment_type_id name :
  is_Some
    (query_first
       (λ m, bool_decide (EquipmentModel.equipment_type_id m
                          = equipment_type_id)
             && bool_decide (EquipmentModel.name m = name))
       (Session.equipment_models db))
  ↔ ∃ k m, Session.equipment_models db !! k = Some m
           ∧ EquipmentModel.equipment_type_id m = equipment_type_id
           ∧ EquipmentModel.name m = name.
Proof.
  split.
  - intros [x Hx]. apply query_first_Some in Hx as (k & Hk & HP & _).
    apply andb_true_iff in HP as [Ht Hn].
    apply bool_decide_eq_true in Ht, Hn.
    apply db_get_Some in Hk as (r & Hr & ->). by exists k, r.
  - intros (k & m & Hk & Ht & Hn).
    apply (query_first_is_Some _ _ k (with_id k m)).
    + apply db_get_Some. eauto.
    + simpl. by rewrite !bool_decide_eq_true_2.
Qed.

(** When [get_or_create_equipment_model] returns: a model of that type
    and trimmed name is stored already, or the database accepts a new
    one, the trimmed name being of 200 code points at most and the
    equipment type being stored. *)
Lemma get_or_create_equipment_model_is_Ok db equipment_type_id model_name :
  is_Ok (services.get_or_create_equipment_model db equipment_type_id
           model_name).1 = true
  ↔ (∃ k m, Session.equipment_models db !! k = Some m
            ∧ EquipmentModel.equipment_type_id m = equipment_type_id
            ∧ EquipmentModel.name m = strip model_name)
    ∨ ((List.length (strip model_name) ≤ 200)%nat
       ∧ is_Some (Session.equipment_types db !! equipment_type_id)).
Proof.
  rewrite <- equipment_model_query.
  unfold services.get_or_create_equipment_model. cbv zeta.
  destruct (query_first _ _) as [x|]; simpl.
  - split; [by left; eexists|done].
  - case_bool_decide as Hlen; simpl.
    + split; [done|]. intros [[? [=]]|[? _]]. lia.
    + case_bool_decide as Hty; simpl.
      * split; [done|]. intros [[? [=]]|[_ [? Hs]]]. congruence.
      * split; [|done]. intros _. right. split; [lia|].
        by apply not_eq_None_Some.
Qed.

(** X6. [get_or_create_issue_type] returns an issue type that the
    session holds under its id and whose name is the normalized
    description.  It keeps every issue type the session had, creates
    nothing when called again with the same description (it returns the
    same object and leaves the session as it is), and keeps the
    names of the issue types unique when they were. *)
Theorem X6_get_or_create_issue_type
    (db : Session.t) (problem_description : str) :
  let out := services.get_or_create_issue_type db problem_description in
  db_get (Session.issue_types out.2) (IssueType.id out.1) = Some out.1
  ∧ IssueType.name out.1
    = services.normalize_issue_type_name problem_description
  ∧ (∀ k x, Session.issue_types db !! k = Some x →
            Session.issue_types out.2 !! k = Some x)
  ∧ services.get_or_create_issue_type out.2 problem_description = out
  ∧ (issue_type_names_unique db → issue_type_names_unique out.2).
Proof.
  cbv zeta. unfold services.get_or_create_issue_type. cbv zeta.
  set (name := services.normalize_issue_type_name problem_description).
  set (P := λ i, bool_decide (IssueType.name i = name)).
  destruct (query_first P (Session.issue_types db)) as [e|] eqn:Hq.
  - simpl. rewrite Hq.
    apply query_first_Some in Hq as (k & Hk & HP & _).
    apply bool_decide_eq_true in HP.
    split; [|done].
    apply db_get_Some in Hk as Hk'. destruct Hk' as (r & _ & ->). done.
  - pose proof (@query_first_db_add _ IssueType_Model P
                  (λ _ _, eq_refl) (λ _ _, eq_refl)
                  (Session.issue_types db) (IssueType.mk 0 name) Hq) as Hadd.
    unfold db_add in *. simpl in *.
    set (k := fresh (dom (Session.issue_types db))) in *.
    assert (Session.issue_types db !! k = None) as Hfresh
      by apply db_add_fresh.
    split; [|split; [|split; [|split]]].
    + unfold db_get. by rewrite lookup_insert_eq.
    + done.
    + intros k' x Hk'. rewrite lookup_insert_ne; [done|congruence].
    + rewrite Hadd; [done|]. by apply bool_decide_eq_true_2.
    + intros Huniq k1 k2 x1 x2. simpl.
      rewrite query_first_None in Hq.
      assert (∀ k' x, Session.issue_types db !! k' = Some x →
                      IssueType.name x ≠ name) as Hno.
      { intros k' x Hk' Hn.
        assert (P (with_id k' x) = true) as HP
          by (by apply bool_decide_eq_true_2).
        rewrite (Hq k' (with_id k' x)) in HP; [done|].
        apply db_get_Some. eauto. }
      destruct (decide (k1 = k2)) as [|Hne]; [done|].
      destruct (decide (k = k1)) as [<-|Hne1];
        destruct (decide (k = k2)) as [<-|Hne2]; try done.
      * rewrite lookup_insert_eq, lookup_insert_ne by done.
        intros [= <-] H2 Hn. by destruct (Hno k2 x2).
      * rewrite lookup_insert_eq, lookup_insert_ne by done.
        intros H1 [= <-] Hn. by destruct (Hno k1 x1).
      * rewrite !lookup_insert_ne by done. apply Huniq.
Qed.

Lemma X6_get_or_create_issue_type_witness :
  issue_type_names_unique
    (services.get_or_create_issue_type fixtures.db_ticket (lit "Течёт")).2.
Proof.
  apply (X6_get_or_create_issue_type fixtures.db_ticket (lit "Течёт")).
  intros k1 k2 x1 x2 H1. unfold fixtures.db_ticket in H1. simpl in H1.
  rewrite lookup_empty in H1. discriminate H1.
Defined.

(** X7. [get_or_create_equipment_model] returns when a model of the
    given equipment type and trimmed name is stored already, or when
    the trimmed name has 200 code points at most and the equipment type
    is stored; it returns a model that the session holds under its id,
    of the given type and with the trimmed name, creates nothing when
    called again with the same type and name, and keeps the pairs of
    type and name unique when they were.  Otherwise the flush raises:
    [DataError] for a name too long, else [IntegrityError] for an
    equipment type that is not stored; the session is then as it was.
    In every case the models the session had are kept. *)
Theorem X7_get_or_create_equipment_model
    (db : Session.t) (equipment_type_id : Z) (model_name : str) :
  let out :=
    services.get_or_create_equipment_model db equipment_type_id model_name in
  let name := strip model_name in
  let stored :=
    ∃ k m, Session.equipment_models db !! k = Some m
           ∧ EquipmentModel.equipment_type_id m = equipment_type_id
           ∧ EquipmentModel.name m = name in
  (is_Ok out.1 = true
   ↔ stored
     ∨ ((List.length name ≤ 200)%nat
        ∧ is_Some (Session.equipment_types db !! equipment_type_id)))
  ∧ (∀ model, out.1 = Ok model →
       db_get (Session.equipment_models out.2) (EquipmentModel.id model)
         = Some model
       ∧ EquipmentModel.equipment_type_id model = equipment_type_id
       ∧ EquipmentModel.name model = name
       ∧ services.get_or_create_equipment_model out.2 equipment_type_id
           model_name = out
       ∧ (equipment_models_unique db → equipment_models_unique out.2))
  ∧ (∀ e, out.1 = Raise e →
       out.2 = db
       ∧ ¬ stored
       ∧ (e = DataError ∧ (200 < List.length name)%nat
          ∨ e = IntegrityError
            ∧ (List.length name ≤ 200)%nat
            ∧ Session.equipment_types db !! equipment_type_id = None))
  ∧ (∀ k x, Session.equipment_models db !! k = Some x →
            Session.equipment_models out.2 !! k = Some x).
Proof.
  cbv zeta. split; [apply get_or_create_equipment_model_is_Ok|].
  split; [|split; [|apply get_or_create_equipment_model_keeps]].
  - unfold services.get_or_create_equipment_model. cbv zeta.
    set (name := strip model_name).
    set (P := λ m, bool_decide (EquipmentModel.equipment_type_id m
                                = equipment_type_id)
                   && bool_decide (EquipmentModel.name m = name)).
    assert (∀ x, P x = true ↔
                 EquipmentModel.equipment_type_id x = equipment_type_id
                 ∧ EquipmentModel.name x = name) as HPspec.
    { intros x. unfold P. by rewrite andb_true_iff, !bool_decide_eq_true. }
    destruct (query_first P (Session.equipment_models db)) as [e|] eqn:Hq.
    + simpl. intros model [= <-]. rewrite Hq.
      apply query_first_Some in Hq as (k & Hk & HP & _).
      apply HPspec in HP as [Ht Hn].
      split; [|done].
      apply db_get_Some in Hk as Hk'. destruct Hk' as (r & _ & ->). done.
    + case_bool_decide as Hlen; [done|].
      case_bool_decide as Hty; [done|].
      pose proof (@query_first_db_add _ EquipmentModel_Model P
                    (λ _ _, eq_refl) (λ _ _, eq_refl)
                    (Session.equipment_models db)
                    (EquipmentModel.mk 0 equipment_type_id name) Hq) as Hadd.
      unfold db_add in *. simpl in *.
      set (k := fresh (dom (Session.equipment_models db))) in *.
      assert (Session.equipment_models db !! k = None) as Hfresh
        by apply db_add_fresh.
      intros model [= <-].
      split; [|split; [|split; [|split]]].
      * unfold db_get. by rewrite lookup_insert_eq.
      * done.
      * done.
      * rewrite Hadd; [done|]. by apply HPspec.
      * intros Huniq k1 k2 x1 x2. simpl.
        rewrite query_first_None in Hq.
        assert (∀ k' x, Session.equipment_models db !! k' = Some x →
                        EquipmentModel.equipment_type_id x
                        = equipment_type_id →
                        EquipmentModel.name x ≠ name) as Hno.
        { intros k' x Hk' Ht Hn.
          specialize (Hq k' (with_id k' x)).
          assert (P (with_id k' x) = true) as HP by (by apply HPspec).
          rewrite Hq in HP; [done|]. apply db_get_Some. eauto. }
        destruct (decide (k1 = k2)) as [|Hne]; [done|].
        destruct (decide (k = k1)) as [<-|Hne1];
          destruct (decide (k = k2)) as [<-|Hne2]; try done.
        -- rewrite lookup_insert_eq, lookup_insert_ne by done.
           intros [= <-] H2 Ht Hn. simpl in *. by destruct (Hno k2 x2).
        -- rewrite lookup_insert_eq, lookup_insert_ne by done.
           intros H1 [= <-] Ht Hn. simpl in *. by destruct (Hno k1 x1).
        -- rewrite !lookup_insert_ne by done. apply Huniq.
  - intros e. rewrite <- equipment_model_query.
    unfold services.get_or_create_equipment_model. cbv zeta.
    destruct (query_first _ _) as [x|]; [done|].
    case_bool_decide as Hlen; simpl.
    { intros [= <-]. split; [done|]. split; [by intros [? [=]]|]. by left. }
    case_bool_decide as Hty; simpl; [|done].
    intros [= <-]. split; [done|]. split; [by intros [? [=]]|].
    right. split; [done|]. split; [lia|done].
Qed.

Lemma X7_get_or_create_equipment_model_witness :
  equipment_models_unique
    (services.get_or_create_equipment_model fixtures.db_ticket 1
       (lit " LG ")).2.
Proof.
  apply (proj1 (proj2 (X7_get_or_create_equipment_model fixtures.db_ticket 1
                         (lit " LG ")))
           (EquipmentModel.mk 0 1 (lit "LG"))).
  - vm_compute. reflexivity.
  - intros k1 k2 x1 x2 H1. unfold fixtures.db_ticket in H1. simpl in H1.
    rewrite lookup_empty in H1. discriminate H1.
Defined.

(** ** Deleting a ticket (app/usecases.py) *)

Lemma db_get_request_None db k :
  db_get_request db k = None ↔ Session.repair_requests db !! k = None.
Proof.
  unfold db_get_request, db_get.
  by destruct (Session.repair_requests db !! k).
Qed.

(** X8. [delete_request] looks for the ticket before it looks at the
    actor: a missing ticket gives [RequestNotFoundError] whoever asks,
    an existing one [PermissionDeniedError] to whoever may not delete,
    and in both cases the session is left as it was.  Otherwise the
    ticket is removed together with exactly the comments and the help
    requests that belong to it; every other ticket, comment and help
    request and every other table is left as it was. *)
Theorem X8_delete_request_cascade
    (db : Session.t) (user : User.t) (request_id : Z) :
  let out := usecases.delete_request db user request_id in
  (Session.repair_requests db !! request_id = None →
   out = (Raise RequestNotFoundError, db))
  ∧ (is_Some (Session.repair_requests db !! request_id) →
     rbac.user_can_delete_request user = false →
     out = (Raise PermissionDeniedError, db))
  ∧ (is_Some (Session.repair_requests db !! request_id) →
     rbac.user_can_delete_request user = true →
     out.1 = Ok ()
     ∧ Session.repair_requests out.2 !! request_id = None
     ∧ (∀ k, k ≠ request_id →
             Session.repair_requests out.2 !! k
             = Session.repair_requests db !! k)
     ∧ (∀ k c, Session.request_comments out.2 !! k = Some c ↔
               Session.request_comments db !! k = Some c
               ∧ RequestComment.request_id c ≠ request_id)
     ∧ (∀ k h, Session.help_requests out.2 !! k = Some h ↔
               Session.help_requests db !! k = Some h
               ∧ HelpRequest.request_id h ≠ request_id)
     ∧ Session.request_statuses out.2 = Session.request_statuses db
     ∧ Session.users out.2 = Session.users db
     ∧ Session.equipment_models out.2 = Session.equipment_models db
     ∧ Session.issue_types out.2 = Session.issue_types db).
Proof.
  cbv zeta. unfold usecases.delete_request. split; [|split].
  - intros Hnone. apply db_get_request_None in Hnone. by rewrite Hnone.
  - intros [r Hr] Hcan.
    destruct (db_get_request db request_id) eqn:Hget.
    + by rewrite Hcan.
    + apply db_get_request_None in Hget. congruence.
  - intros [r Hr] Hcan.
    destruct (db_get_request db request_id) eqn:Hget.
    2:{ apply db_get_request_None in Hget. congruence. }
    rewrite Hcan. simpl. split; [done|].
    split; [apply lookup_delete_eq|].
    split; [intros k Hk; by apply lookup_delete_ne|].
    split; [intros k c; by rewrite map_lookup_filter_Some|].
    split; [intros k h; by rewrite map_lookup_filter_Some|].
    done.
Qed.

Lemma can_delete_manager :
  rbac.user_can_delete_request fixtures.manager = true.
Proof. vm_compute. reflexivity. Qed.

Lemma X8_delete_request_cascade_witness :
  let out := usecases.delete_request fixtures.db_escalated fixtures.manager 10
  in
  out.1 = Ok ()
  ∧ Session.repair_requests out.2 !! 10 = None
  ∧ Session.help_requests out.2 !! 1 = None
  ∧ usecases.delete_request fixtures.db_escalated fixtures.master 11
    = (Raise RequestNotFoundError, fixtures.db_escalated).
Proof.
  cbv zeta.
  destruct (proj2 (proj2 (X8_delete_request_cascade fixtures.db_escalated
                            fixtures.manager 10)))
    as (Hok & Hgone & _ & _ & Hhelp & _).
  - eexists. reflexivity.
  - exact can_delete_manager.
  - split; [exact Hok|]. split; [exact Hgone|]. split.
    + destruct (Session.help_requests
                  (usecases.delete_request fixtures.db_escalated
                     fixtures.manager 10).2 !! 1) as [h|] eqn:Hh; [|done].
      apply Hhelp in Hh as [Hh Hne].
      unfold fixtures.db_escalated in Hh. simpl in Hh.
      apply lookup_singleton_Some in Hh as [_ <-]. by destruct Hne.
    + apply (proj1 (X8_delete_request_cascade fixtures.db_escalated
                      fixtures.master 11)).
      reflexivity.
Defined.

(** ** Comments (app/usecases.py) *)

(** X9. [add_comment] goes through exactly when the ticket exists, the
    actor is the master-class user assigned to it and the message is
    not blank.  It then adds one comment under a new key, carrying the
    ticket, the actor and the trimmed message, and leaves every other
    comment and every other table as it was; a call that raises
    ([RequestNotFoundError] for a missing ticket, then
    [PermissionDeniedError], then [BusinessRuleViolationError] for a
    blank message) leaves the whole session as it was. *)
Theorem X9_add_comment
    (db : Session.t) (user : User.t) (request_id : Z) (message : str) :
  let out := usecases.add_comment db user request_id message in
  (is_Ok out.1 = true ↔
     ∃ req, db_get_request db request_id = Some req
            ∧ is_master_role (rbac.role_name (Some user)) = true
            ∧ RepairRequest.master_id req = Some (User.id user)
            ∧ strip message ≠ [])
  ∧ (∀ c, out.1 = Ok c →
       ∃ k, Session.request_comments db !! k = None
            ∧ c = RequestComment.mk (Some k) request_id (User.id user)
                    (strip message)
            ∧ out.2 = Session.set_request_comments
                        (<[k := c]> (Session.request_comments db)) db)
  ∧ (∀ e, out.1 = Raise e →
       out.2 = db
       ∧ e = match db_get_request db request_id with
             | None => RequestNotFoundError
             | Some req =>
                 if rbac.user_can_add_comment user req
                 then BusinessRuleViolationError
                 else PermissionDeniedError
             end).
Proof.
  cbv zeta. unfold usecases.add_comment.
  destruct (db_get_request db request_id) as [req|] eqn:Hreq.
  2:{ split; [|split]; [|done|by intros e [= <-]].
      split; [done|]. by intros (req & [=] & _). }
  unfold rbac.user_can_add_comment. cbv zeta.
  destruct (is_master_role _) eqn:Hm; simpl.
  2:{ split; [|split]; [|done|by intros e [= <-]].
      split; [done|]. by intros (req' & _ & [=] & _). }
  case_bool_decide as Hassigned; simpl.
  2:{ split; [|split]; [|done|by intros e [= <-]].
      split; [done|]. intros (req' & [= <-] & _ & ? & _). done. }
  destruct (strip message) as [|c0 msg] eqn:Hmsg.
  { split; [|split]; [|done|by intros e [= <-]].
    split; [done|]. by intros (req' & _ & _ & _ & ?). }
  split; [|split]; [|intros c [= <-]|done].
  - split; [|done]. intros _. by exists req.
  - exists (fresh (dom (Session.request_comments db))).
    split; [apply db_add_fresh|]. done.
Qed.

Lemma X9_add_comment_witness :
  ∃ k,
    Session.request_comments fixtures.db_ticket !! k = None
    ∧ (usecases.add_comment fixtures.db_ticket fixtures.master 10
         (lit " заменил насос ")).2
      = Session.set_request_comments
          (<[k := RequestComment.mk (Some k) 10 2 (lit "заменил насос")]>
             (Session.request_comments fixtures.db_ticket))
          fixtures.db_ticket.
Proof.
  destruct (proj1 (proj2 (X9_add_comment fixtures.db_ticket fixtures.master 10
                            (lit " заменил насос ")))
              (RequestComment.mk (Some 0) 10 2 (lit "заменил насос")))
    as (k & Hfresh & Hc & Hdb).
  - vm_compute. reflexivity.
  - exists k. split; [exact Hfresh|]. rewrite Hdb. do 2 f_equal. exact Hc.
Defined.

(** ** What each use case does to the tables *)

Lemma leave_request_tables req db :
  let db' := usecases.leave_request req db in
  Session.request_statuses db' = Session.request_statuses db
  ∧ Session.users db' = Session.users db
  ∧ Session.equipment_models db' = Session.equipment_models db
  ∧ Session.issue_types db' = Session.issue_types db
  ∧ Session.request_comments db' = Session.request_comments db
  ∧ Session.help_requests db' = Session.help_requests db
  ∧ (∀ k, RepairRequest.id req ≠ Some k →
          Session.repair_requests db' !! k = Session.repair_requests db !! k)
  ∧ (∀ k, is_Some (Session.repair_requests db !! k) →
          is_Some (Session.repair_requests db' !! k)).
Proof.
  unfold usecases.leave_request.
  destruct (RepairRequest.id req) as [k0|]; simpl; [|done].
  repeat split; try done.
  - intros k Hk. apply lookup_insert_ne. congruence.
  - intros k Hk. destruct (decide (k0 = k)) as [<-|Hne].
    + by rewrite lookup_insert_eq.
    + by rewrite lookup_insert_ne.
Qed.

Lemma add_request_tables req db :
  let out := usecases.add_request req db in
  Session.request_statuses out.2 = Session.request_statuses db
  ∧ Session.users out.2 = Session.users db
  ∧ Session.equipment_models out.2 = Session.equipment_models db
  ∧ Session.issue_types out.2 = Session.issue_types db
  ∧ Session.request_comments out.2 = Session.request_comments db
  ∧ Session.help_requests out.2 = Session.help_requests db
  ∧ ∃ k, RepairRequest.id out.1 = Some k
         ∧ (RepairRequest.id req = None →
            Session.repair_requests db !! k = None)
         ∧ (∀ k0, RepairRequest.id req = Some k0 → k = k0 ∧ out.1 = req)
         ∧ Session.repair_requests out.2
           = <[k := out.1]> (Session.repair_requests db).
Proof.
  unfold usecases.add_request.
  destruct (RepairRequest.id req) as [k0|] eqn:Hid; simpl.
  - do 6 (split; [done|]). exists k0.
    split; [done|]. split; [done|]. split; [by intros ? [= <-]|done].
  - do 6 (split; [done|]).
    exists (fresh (dom (Session.repair_requests db))).
    split; [done|]. split; [intros _; apply db_add_fresh|]. done.
Qed.

Lemma resolve_equipment_and_issue_keeps db data :
  let db' := (usecases._resolve_equipment_and_issue db data).2 in
  (∀ k x, Session.equipment_models db !! k = Some x →
          Session.equipment_models db' !! k = Some x)
  ∧ (∀ k x, Session.issue_types db !! k = Some x →
            Session.issue_types db' !! k = Some x).
Proof.
  cbv zeta. unfold usecases._resolve_equipment_and_issue.
  pose proof (get_or_create_equipment_model_keeps db
                (RequestInput.equipment_type_id data)
                (RequestInput.equipment_model_name data)) as He.
  pose proof (get_or_create_equipment_model_frame db
                (RequestInput.equipment_type_id data)
                (RequestInput.equipment_model_name data)) as Hf.
  destruct (services.get_or_create_equipment_model _ _ _) as [[em|e] db1].
  2:{ simpl in *. destruct Hf as (_ & _ & -> & _). done. }
  pose proof (get_or_create_issue_type_keeps db1
                (RequestInput.problem_description data)) as Hk.
  pose proof (get_or_create_issue_type_frame db1
                (RequestInput.problem_description data)) as Hg.
  destruct (services.get_or_create_issue_type _ _) as [it db2].
  simpl in He, Hf, Hk, Hg.
  destruct Hf as (_ & _ & Hf & _). destruct Hg as (_ & _ & Hg & _).
  rewrite Hf in Hk.
  destruct (truthy_int _) as [iid|];
    [destruct (db_get (Session.issue_types db1) iid)|]; simpl.
  - split; [done|]. intros k x Hx. by rewrite Hf.
  - split; [|done]. intros k x Hx. rewrite Hg. by apply He.
  - split; [|done]. intros k x Hx. rewrite Hg. by apply He.
Qed.

(** A save changes no table but the tickets, the equipment models and
    the issue types; it removes no row, and of the tickets it had it
    changes at most the one the input names. *)
Lemma save_request_tables today db user data :
  let db' := (usecases.save_request today db user data).2 in
  Session.request_statuses db' = Session.request_statuses db
  ∧ Session.users db' = Session.users db
  ∧ Session.request_comments db' = Session.request_comments db
  ∧ Session.help_requests db' = Session.help_requests db
  ∧ (∀ k x, Session.equipment_models db !! k = Some x →
            Session.equipment_models db' !! k = Some x)
  ∧ (∀ k x, Session.issue_types db !! k = Some x →
            Session.issue_types db' !! k = Some x)
  ∧ (∀ k, is_Some (Session.repair_requests db !! k) →
          is_Some (Session.repair_requests db' !! k))
  ∧ (∀ k r, RequestInput.id data ≠ Some k →
            Session.repair_requests db !! k = Some r →
            Session.repair_requests db' !! k = Some r).
Proof.
  cbv zeta.
  pose proof (resolve_equipment_and_issue_frame db data) as Hfr.
  simpl in Hfr. destruct Hfr as (Hst & Hus & Hrq & Hco & Hhe & _).
  pose proof (resolve_equipment_and_issue_keeps db data) as [Hem Hit].
  simpl in Hem, Hit.
  assert (∀ req0 ns,
            usecases.save_request_begin
              (usecases._resolve_equipment_and_issue db data).2 user data
            = Ok (req0, ns) →
            ∀ k, RepairRequest.id req0 = Some k → RequestInput.id data = Some k)
    as Hkey.
  { intros req0 ns Hbegin k Hk.
    destruct (RequestInput.id data) as [k'|] eqn:Hdid.
    - destruct (save_request_begin_edit _ _ _ _ _ _ Hdid Hbegin) as [Hl _].
      apply loaded_request_fields in Hl as [Hl _]. congruence.
    - destruct (save_request_begin_create _ _ _ _ _ Hdid Hbegin) as [-> _].
      done. }
  destruct (save_request_outcome today db user data)
    as [e0 _ _ ->
       |db1 e Hres Hbegin ->
       |db1 req0 new_status req1 e Hres Hbegin Hid Hkind He ->
       |db1 req0 ns req1 Hres Hbegin Hid _ _ _ _ ->];
    [by repeat split|..]; subst db1; simpl.
  - rewrite Hrq. by repeat split.
  - pose proof (leave_request_tables req1
                  (usecases._resolve_equipment_and_issue db data).2)
      as (L1 & L2 & L3 & L4 & L5 & L6 & L7 & L8).
    simpl in *. rewrite L1, L2, L3, L4, L5, L6.
    repeat split; try done.
    + intros k Hk. apply L8. by rewrite Hrq.
    + intros k r Hk Hr. rewrite L7, Hrq; [done|].
      rewrite Hid. intros Hk'. by apply Hk, (Hkey _ _ Hbegin).
  - pose proof (add_request_tables req1
                  (usecases._resolve_equipment_and_issue db data).2)
      as (A1 & A2 & A3 & A4 & A5 & A6 & k0 & Ak & Afresh & Aold & Arr).
    simpl in *. rewrite A1, A2, A3, A4, A5, A6, Arr, Hrq.
    repeat split; try done.
    + intros k Hk. destruct (decide (k0 = k)) as [<-|Hne].
      * by rewrite lookup_insert_eq.
      * by rewrite lookup_insert_ne.
    + intros k r Hk Hr. rewrite lookup_insert_ne; [done|].
      intros <-. destruct (RepairRequest.id req1) as [k1|] eqn:Hid1.
      * destruct (Aold k1 eq_refl) as [-> _].
        apply Hk, (Hkey _ _ Hbegin). congruence.
      * rewrite Hrq in Afresh. rewrite Afresh in Hr; done.
Qed.

Lemma add_comment_effect db user request_id message :
  (∃ e, usecases.add_comment db user request_id message = (Raise e, db))
  ∨ (∃ k c,
       Session.request_comments db !! k = None
       ∧ c = RequestComment.mk (Some k) request_id (User.id user)
               (strip message)
       ∧ strip message ≠ []
       ∧ is_Some (Session.repair_requests db !! request_id)
       ∧ usecases.add_comment db user request_id message
         = (Ok c,
            Session.set_request_comments
              (<[k := c]> (Session.request_comments db)) db)).
Proof.
  unfold usecases.add_comment.
  destruct (db_get_request db request_id) as [req|] eqn:Hreq;
    [|by left; eexists].
  destruct (rbac.user_can_add_comment _ _); simpl; [|by left; eexists].
  destruct (strip message) as [|c0 m] eqn:Hm; [by left; eexists|].
  right. eexists _, _. split; [apply db_add_fresh|]. split; [done|].
  split; [done|]. split; [|done].
  apply db_get_request_Some in Hreq as (r & -> & _). done.
Qed.

Lemma delete_request_tables db k :
  let db' := usecases.db_delete_request k db in
  (∀ k', k' ≠ k →
         Session.repair_requests db' !! k' = Session.repair_requests db !! k')
  ∧ Session.repair_requests db' !! k = None
  ∧ (∀ k' c, Session.request_comments db' !! k' = Some c ↔
             Session.request_comments db !! k' = Some c
             ∧ RequestComment.request_id c ≠ k)
  ∧ (∀ k' h, Session.help_requests db' !! k' = Some h ↔
             Session.help_requests db !! k' = Some h
             ∧ HelpRequest.request_id h ≠ k).
Proof.
  cbv zeta. simpl. split; [|split; [|split]].
  - intros k' Hk'. by apply lookup_delete_ne.
  - apply lookup_delete_eq.
  - intros k' c. by rewrite map_lookup_filter_Some.
  - intros k' h. by rewrite map_lookup_filter_Some.
Qed.

(** ** Comments and help requests belong to tickets *)

Lemma run_preserves_references op db :
  references_intact db → references_intact (run op db).
Proof.
  intros [Hc Hh]. destruct op as [today u d|u k|u k m|u d|now u d]; simpl.
  - pose proof (save_request_tables today db u d)
      as (_ & _ & Hco & Hhe & _ & _ & Hkeys & _).
    simpl in *. split.
    + intros k c. rewrite Hco. intros Hk.
      destruct (Hc k c Hk) as (Ht & Hm). split; [by apply Hkeys|done].
    + intros k h. rewrite Hhe. intros Hk. by apply Hkeys, (Hh k h).
  - destruct (delete_request_outcome db u k) as [[e ->]| ->]; [done|].
    pose proof (delete_request_tables db k) as (Hrr & _ & Hco & Hhe).
    simpl in *. split.
    + intros k' c [Hk' Hne]%Hco. destruct (Hc k' c Hk') as (Ht & Hm).
      split; [|done]. by rewrite Hrr.
    + intros k' h [Hk' Hne]%Hhe. rewrite Hrr by done. by apply (Hh k' h).
  - destruct (add_comment_effect db u k m)
      as [[e ->]|(k' & c & Hfresh & -> & Hmsg & Ht & ->)]; [done|].
    unfold references_intact, Session.set_request_comments. simpl.
    split; [|done].
    intros k0 c0. destruct (decide (k' = k0)) as [<-|Hne].
    + rewrite lookup_insert_eq. intros [= <-]. simpl.
      split; [done|]. split; [done|apply strip_strip].
    + rewrite lookup_insert_ne by done. apply Hc.
  - destruct (create_help_request_outcome db u d)
      as [[e ->]|(req & _ & Hreq & _ & _ & _ & ->)]; [done|].
    unfold references_intact, put_help_request, Session.set_help_requests.
    simpl. split; [done|].
    intros k0 h0.
    destruct (decide (fresh (dom (Session.help_requests db)) = k0))
      as [<-|Hne].
    + rewrite lookup_insert_eq. intros [= <-]. simpl.
      apply db_get_request_Some in Hreq as (r & -> & _). done.
    + rewrite lookup_insert_ne by done. apply Hh.
  - destruct (close_help_request_outcome now db u d)
      as [[e ->]|(h & req & nm & _ & Hget & _ & Hreq & _ & _ & ->)];
      [done|].
    unfold references_intact, put_help_request, put_request,
      Session.set_help_requests, Session.set_repair_requests.
    simpl.
    assert (∀ k, is_Some (Session.repair_requests db !! k) →
                 is_Some (<[HelpRequest.request_id h :=
                              ticket_after_close nm
                                (HelpRequestCloseInput.new_due_date d) req]>
                            (Session.repair_requests db) !! k)) as Hkeys.
    { intros k Hk.
      destruct (decide (HelpRequest.request_id h = k)) as [<-|Hne].
      - by rewrite lookup_insert_eq.
      - by rewrite lookup_insert_ne. }
    split.
    + intros k c Hk. destruct (Hc k c Hk) as (Ht & Hm).
      split; [by apply Hkeys|done].
    + intros k h0.
      destruct (decide (HelpRequestCloseInput.help_id d = k)) as [<-|Hne].
      * rewrite lookup_insert_eq. intros [= <-]. simpl.
        by rewrite lookup_insert_eq.
      * rewrite lookup_insert_ne by done. intros Hk.
        by apply Hkeys, (Hh k h0).
Qed.

(** X10. Every comment and every help request of the store belongs to
    a ticket of the store, and every comment carries a trimmed message
    that is not empty: each engine operation keeps this, as the call
    leaves the session and as the caller commits it or rolls it back,
    and it holds in every store the engine reaches. *)
Theorem X10_references_intact :
  (∀ op db,
     references_intact db →
     references_intact (run op db) ∧ references_intact (transaction op db))
  ∧ (∀ db, reachable db → references_intact db).
Proof.
  assert (∀ op db, references_intact db →
                   references_intact (transaction op db)) as Htr.
  { intros op db Hinv. unfold transaction.
    destruct (succeeds op db); [by apply run_preserves_references|done]. }
  split.
  - intros op db Hinv. split; [by apply run_preserves_references|].
    by apply Htr.
  - induction 1 as [db (_ & Hc & Hh)|op db _ IH|op db _ IH].
    + split; intros k x; rewrite ?Hc, ?Hh, lookup_empty; done.
    + by apply run_preserves_references.
    + by apply Htr.
Qed.

Lemma X10_references_intact_witness :
  references_intact
    (run (DeleteRequest fixtures.manager 10) fixtures.db_escalated).
Proof.
  apply (proj1 X10_references_intact).
  split.
  - intros k c Hk. unfold fixtures.db_escalated in Hk. simpl in Hk.
    rewrite lookup_empty in Hk. discriminate Hk.
  - intros k h Hk. unfold fixtures.db_escalated in Hk. simpl in Hk.
    apply lookup_singleton_Some in Hk as [_ <-]. eexists. reflexivity.
Defined.

(** ** The states of a help request *)

Lemma run_preserves_help_well_formed op db :
  help_requests_well_formed db → help_requests_well_formed (run op db).
Proof.
  intros Hwf. destruct op as [today u d|u k|u k m|u d|now u d]; simpl.
  - intros k h. rewrite save_request_help_requests. apply Hwf.
  - destruct (delete_request_outcome db u k) as [[e ->]| ->]; [done|].
    intros k' h [Hk' _]%delete_request_tables. by apply (Hwf k').
  - destruct (add_comment_outcome db u k m) as [[e ->]|(c & tbl & ->)];
      [done|]. exact Hwf.
  - destruct (create_help_request_outcome db u d)
      as [[e ->]|(req & _ & _ & _ & _ & Hmsg & ->)]; [done|].
    unfold help_requests_well_formed, put_help_request,
      Session.set_help_requests. simpl.
    intros k0 h0.
    destruct (decide (fresh (dom (Session.help_requests db)) = k0))
      as [<-|Hne].
    + rewrite lookup_insert_eq. intros [= <-].
      split; [by left|]. simpl. split; [done|apply strip_strip].
    + rewrite lookup_insert_ne by done. apply Hwf.
  - destruct (close_help_request_outcome now db u d)
      as [[e ->]|(h & req & nm & _ & Hget & _ & _ & _ & _ & ->)]; [done|].
    unfold help_requests_well_formed, put_help_request, put_request,
      Session.set_help_requests, Session.set_repair_requests. simpl.
    intros k0 h0.
    destruct (decide (HelpRequestCloseInput.help_id d = k0)) as [<-|Hne].
    + rewrite lookup_insert_eq. intros [= <-].
      apply db_get_Some in Hget as (r & Hr & ->).
      destruct (Hwf _ _ Hr) as (_ & Hm1 & Hm2).
      split; [right; simpl; by eauto|]. by destruct r.
    + rewrite lookup_insert_ne by done. apply Hwf.
Qed.

(** X11. A help request of the store is in one of two states: open,
    with no closing actor, no reassigned master, no resolution note and
    no closing time, or closed, with the closing actor and the closing
    time; and its message is trimmed and not empty.  Each engine
    operation keeps this, and it holds in every store the engine
    reaches. *)
Theorem X11_help_request_states :
  (∀ op db,
     help_requests_well_formed db →
     help_requests_well_formed (run op db)
     ∧ help_requests_well_formed (transaction op db))
  ∧ (∀ db, reachable db → help_requests_well_formed db).
Proof.
  assert (∀ op db, help_requests_well_formed db →
                   help_requests_well_formed (transaction op db)) as Htr.
  { intros op db Hinv. unfold transaction.
    destruct (succeeds op db); [by apply run_preserves_help_well_formed|].
    done. }
  split.
  - intros op db Hinv. split; [by apply run_preserves_help_well_formed|].
    by apply Htr.
  - induction 1 as [db (_ & _ & Hh)|op db _ IH|op db _ IH].
    + intros k x. rewrite Hh, lookup_empty. done.
    + by apply run_preserves_help_well_formed.
    + by apply Htr.
Qed.

Lemma X11_help_request_states_witness :
  help_requests_well_formed
    (run (CloseHelpRequest 738601 fixtures.quality
            (fixtures.close_input (Some 3) None))
       fixtures.db_escalated).
Proof.
  apply (proj1 X11_help_request_states).
  intros k h Hk. unfold fixtures.db_escalated in Hk. simpl in Hk.
  apply lookup_singleton_Some in Hk as [_ <-].
  split; [left; repeat split|]. split; [vm_compute; discriminate|].
  vm_compute. reflexivity.
Defined.

(** X12. Closing is final: a help request that is not open is changed
    by no engine operation.  After any operation it is in the store as
    it was, or it is gone together with its ticket. *)
Theorem X12_closed_help_request_is_final
    (op : operation) (db : Session.t) (k : Z) (h : HelpRequest.t) :
  Session.help_requests db !! k = Some h →
  HelpRequest.status h ≠ lit "open" →
  Session.help_requests (run op db) !! k = Some h
  ∨ Session.help_requests (run op db) !! k = None
    ∧ Session.repair_requests (run op db) !! HelpRequest.request_id h = None.
Proof.
  intros Hk Hclosed. destruct op as [today u d|u k0|u k0 m|u d|now u d]; simpl.
  - left. by rewrite save_request_help_requests.
  - destruct (delete_request_outcome db u k0) as [[e ->]| ->]; [by left|].
    pose proof (delete_request_tables db k0) as (_ & Hgone & _ & Hhe).
    simpl in *.
    destruct (decide (HelpRequest.request_id h = k0)) as [Heq|Hne].
    + right. rewrite Heq. split; [|done].
      destruct (filter _ _ !! k) as [h'|] eqn:Hf; [|done].
      apply Hhe in Hf as [Hf Hne]. congruence.
    + left. by apply Hhe.
  - destruct (add_comment_outcome db u k0 m) as [[e ->]|(c & tbl & ->)];
      by left.
  - destruct (create_help_request_outcome db u d)
      as [[e ->]|(req & _ & _ & _ & _ & _ & ->)]; [by left|].
    left. unfold put_help_request, Session.set_help_requests. simpl.
    rewrite lookup_insert_ne; [done|]. intros <-.
    by rewrite db_add_fresh in Hk.
  - destruct (close_help_request_outcome now db u d)
      as [[e ->]|(h0 & req & nm & _ & Hget & Hopen & _ & _ & _ & ->)];
      [by left|].
    left. unfold put_help_request, Session.set_help_requests. simpl.
    rewrite lookup_insert_ne; [done|]. intros Heq.
    apply db_get_Some in Hget as (r & Hr & ->). rewrite Heq, Hk in Hr.
    injection Hr as <-. apply Hclosed. by destruct h.
Qed.

Lemma X12_closed_help_request_is_final_witness :
  let closed :=
    usecases.close_help_request 738601 fixtures.db_escalated fixtures.quality
      (fixtures.close_input (Some 3) None) in
  let again :=
    run (CloseHelpRequest 738700 fixtures.manager
           (fixtures.close_input (Some 2) (Some 738800))) closed.2 in
  Session.help_requests again !! 1
  = Some (fixtures.returned_help closed.1)
  ∨ Session.help_requests again !! 1 = None
    ∧ Session.repair_requests again
        !! HelpRequest.request_id (fixtures.returned_help closed.1) = None.
Proof.
  cbv zeta.
  apply (X12_closed_help_request_is_final
           (CloseHelpRequest 738700 fixtures.manager
              (fixtures.close_input (Some 2) (Some 738800)))).
  - vm_compute. reflexivity.
  - vm_compute. discriminate.
Defined.

(** X13. Comments are immutable: no engine operation changes a comment
    of the store.  After any operation it is in the store as it was,
    or it is gone together with its ticket. *)
Theorem X13_comments_are_immutable
    (op : operation) (db : Session.t) (k : Z) (c : RequestComment.t) :
  Session.request_comments db !! k = Some c →
  Session.request_comments (run op db) !! k = Some c
  ∨ Session.request_comments (run op db) !! k = None
    ∧ Session.repair_requests (run op db) !! RequestComment.request_id c
      = None.
Proof.
  intros Hk. destruct op as [today u d|u k0|u k0 m|u d|now u d]; simpl.
  - left. pose proof (save_request_tables today db u d) as (_ & _ & Hco & _).
    simpl in Hco. by rewrite Hco.
  - destruct (delete_request_outcome db u k0) as [[e ->]| ->]; [by left|].
    pose proof (delete_request_tables db k0) as (_ & Hgone & Hco & _).
    simpl in *.
    destruct (decide (RequestComment.request_id c = k0)) as [Heq|Hne].
    + right. rewrite Heq. split; [|done].
      destruct (filter _ _ !! k) as [c'|] eqn:Hf; [|done].
      apply Hco in Hf as [Hf Hne]. congruence.
    + left. by apply Hco.
  - destruct (add_comment_effect db u k0 m)
      as [[e ->]|(k' & c' & Hfresh & _ & _ & _ & ->)]; [by left|].
    left. unfold Session.set_request_comments. simpl.
    rewrite lookup_insert_ne; [done|]. congruence.
  - destruct (create_help_request_outcome db u d)
      as [[e ->]|(req & _ & _ & _ & _ & _ & ->)]; by left.
  - destruct (close_help_request_outcome now db u d)
      as [[e ->]|(h0 & req & nm & _ & _ & _ & _ & _ & _ & ->)]; by left.
Qed.

Lemma X13_comments_are_immutable_witness :
  let db :=
    (usecases.add_comment fixtures.db_ticket fixtures.master 10
       (lit "ok")).2 in
  let c := RequestComment.mk (Some 0) 10 2 (lit "ok") in
  let db' := run (DeleteRequest fixtures.manager 10) db in
  Session.request_comments db' !! 0 = Some c
  ∨ Session.request_comments db' !! 0 = None
    ∧ Session.repair_requests db' !! 10 = None.
Proof.
  cbv zeta.
  apply (X13_comments_are_immutable (DeleteRequest fixtures.manager 10)
           (usecases.add_comment fixtures.db_ticket fixtures.master 10
              (lit "ok")).2
           0 (RequestComment.mk (Some 0) 10 2 (lit "ok"))).
  vm_compute. reflexivity.
Defined.

(** ** Saving a ticket (app/usecases.py) *)

(** The body of [save_request], step by step. *)
Lemma save_request_unfold today db user data em it db1 :
  usecases._resolve_equipment_and_issue db data = (Ok (em, it), db1) →
  usecases.save_request today db user data
  = match usecases.save_request_begin db1 user data with
    | Raise e => (Raise e, db1)
    | Ok (req0, None) =>
        (Raise AttributeError,
         usecases.leave_request (save_request_base data em it req0) db1)
    | Ok (req0, Some ns) =>
        let reqf := save_request_gated today user data em it ns req0 in
        match usecases._apply_client user reqf data with
        | Raise e => (Raise e, usecases.leave_request reqf db1)
        | Ok reqc =>
            (Ok (usecases.add_request reqc db1).1,
             (usecases.add_request reqc db1).2)
        end
    end.
Proof.
  intros Hres. cbv zeta. unfold usecases.save_request. rewrite Hres.
  destruct (usecases.save_request_begin db1 user data) as [[req0 [ns|]]|];
    [|done..].
  unfold save_request_gated, save_request_base.
  destruct (usecases._apply_client _ _ _); [|done].
  by destruct (usecases.add_request _ _).
Qed.

(** The columns of the ticket after the assignments and the gates. *)
Lemma save_request_gated_columns today user data em it ns req :
  let req' := save_request_gated today user data em it ns req in
  let role := rbac.role_name (Some user) in
  let kept {A} (column : RepairRequest.t → option A) :=
    match RepairRequest.id req with Some _ => column req | None => None end
  in
  RepairRequest.id req' = RepairRequest.id req
  ∧ RepairRequest.start_date req' = Some (RequestInput.start_date data)
  ∧ RepairRequest.equipment_model_id req' = Some (EquipmentModel.id em)
  ∧ RepairRequest.issue_type_id req' = Some (IssueType.id it)
  ∧ RepairRequest.problem_description req'
    = Some (RequestInput.problem_description data)
  ∧ RepairRequest.status_id req' = Some (RequestStatus.id ns)
  ∧ RepairRequest.client_id req' = RepairRequest.client_id req
  ∧ RepairRequest.due_date req'
    = (if in_ role [ROLE_MANAGER; ROLE_OPERATOR; ROLE_QUALITY_MANAGER]
       then RequestInput.due_date data
       else kept RepairRequest.due_date)
  ∧ RepairRequest.repair_parts req'
    = (if in_ role [ROLE_MANAGER; ROLE_OPERATOR; ROLE_MASTER; ROLE_SPECIALIST]
       then or_None (strip (or_empty (RequestInput.repair_parts data)))
       else kept RepairRequest.repair_parts)
  ∧ RepairRequest.master_id req'
    = (if rbac.user_can_assign_master user
       then truthy_int (RequestInput.master_id data)
       else kept RepairRequest.master_id).
Proof.
  cbv zeta. unfold save_request_gated, save_request_base.
  unfold usecases._apply_master, usecases._apply_repair_parts,
    usecases._apply_due_date, usecases._apply_completion_date.
  cbv zeta.
  destruct (rbac.user_can_assign_master user),
    (in_ _ [ROLE_MANAGER; ROLE_OPERATOR; ROLE_MASTER; ROLE_SPECIALIST]),
    (in_ _ [ROLE_MANAGER; ROLE_OPERATOR; ROLE_QUALITY_MANAGER]),
    (RequestStatus.is_final ns), req as [[?|] ? ? ? ? ? ? ? ? ? ? ?];
    simpl; done.
Qed.

Lemma apply_client_columns user req data req' :
  usecases._apply_client user req data = Ok req' →
  RepairRequest.id req' = RepairRequest.id req
  ∧ RepairRequest.start_date req' = RepairRequest.start_date req
  ∧ RepairRequest.equipment_model_id req' = RepairRequest.equipment_model_id req
  ∧ RepairRequest.issue_type_id req' = RepairRequest.issue_type_id req
  ∧ RepairRequest.problem_description req'
    = RepairRequest.problem_description req
  ∧ RepairRequest.status_id req' = RepairRequest.status_id req
  ∧ RepairRequest.due_date req' = RepairRequest.due_date req
  ∧ RepairRequest.repair_parts req' = RepairRequest.repair_parts req
  ∧ RepairRequest.master_id req' = RepairRequest.master_id req
  ∧ (is_Some (RepairRequest.client_id req')
     ∨ RepairRequest.client_id req' = RepairRequest.client_id req).
Proof.
  unfold usecases._apply_client. cbv zeta.
  repeat case_match; intros; simplify_eq; simpl;
    do 9 (split; [done|]); eauto.
Qed.

Lemma save_request_Ok_inv today db user data req :
  (usecases.save_request today db user data).1 = Ok req →
  ∃ em it db1 req0 ns reqc,
    usecases._resolve_equipment_and_issue db data = (Ok (em, it), db1)
    ∧ usecases.save_request_begin db1 user data = Ok (req0, Some ns)
    ∧ usecases._apply_client user
        (save_request_gated today user data em it ns req0) data
      = Ok reqc
    ∧ req = (usecases.add_request reqc db1).1
    ∧ (usecases.save_request today db user data).2
      = (usecases.add_request reqc db1).2.
Proof.
  destruct (usecases._resolve_equipment_and_issue db data)
    as [[[em it]|e0] db1] eqn:Hres.
  2:{ unfold usecases.save_request. by rewrite Hres. }
  rewrite (save_request_unfold _ _ _ _ _ _ _ Hres). cbv zeta.
  destruct (usecases.save_request_begin _ _ _) as [[req0 [ns|]]|] eqn:Hb;
    [|done..].
  destruct (usecases._apply_client _ _ _) as [reqc|] eqn:Hc; [|done].
  simpl. intros [= <-]. by exists em, it, db1, req0, ns, reqc.
Qed.

Lemma add_request_columns req db :
  let req' := (usecases.add_request req db).1 in
  RepairRequest.start_date req' = RepairRequest.start_date req
  ∧ RepairRequest.equipment_model_id req' = RepairRequest.equipment_model_id req
  ∧ RepairRequest.issue_type_id req' = RepairRequest.issue_type_id req
  ∧ RepairRequest.problem_description req'
    = RepairRequest.problem_description req
  ∧ RepairRequest.status_id req' = RepairRequest.status_id req
  ∧ RepairRequest.due_date req' = RepairRequest.due_date req
  ∧ RepairRequest.repair_parts req' = RepairRequest.repair_parts req
  ∧ RepairRequest.master_id req' = RepairRequest.master_id req
  ∧ RepairRequest.client_id req' = RepairRequest.client_id req.
Proof.
  unfold usecases.add_request.
  destruct (RepairRequest.id req) eqn:Hid; simpl; [done|by destruct req].
Qed.

(** The ticket a save starts from carries, in the columns a gate may
    leave alone, what the stored ticket the input names carries. *)
Lemma save_request_begin_kept {A} db user data req0 ns
    (column : RepairRequest.t → option A) :
  (∀ v r, column (RepairRequest.set_status v r) = column r) →
  (∀ v r, column (RepairRequest.set_id v r) = column r) →
  usecases.save_request_begin db user data = Ok (req0, ns) →
  match RepairRequest.id req0 with Some _ => column req0 | None => None end
  = prior db data column.
Proof.
  intros Hst Hid Hbegin. unfold prior.
  destruct (RequestInput.id data) as [k|] eqn:Hk.
  - destruct (save_request_begin_edit _ _ _ _ _ _ Hk Hbegin) as [Hl _].
    apply db_get_request_Some in Hl as (r & -> & ->). simpl.
    by rewrite Hst, Hid.
  - by destruct (save_request_begin_create _ _ _ _ _ Hk Hbegin) as [-> _].
Qed.

(** X14. The field gates of a save that goes through.  The due date is
    the submitted one for Manager, Operator and QualityManager; the
    parts list is the submitted text, trimmed, or none when that is
    empty, for Manager, Operator, Master and Specialist; the master is
    the submitted id (none for a missing id or 0) for whoever may
    assign a master.  For everyone else the column keeps the value the
    stored ticket had, and is empty on a new ticket.  Start date and
    problem description are always the submitted ones. *)
Theorem X14_save_request_field_gates
    (today : date) (db : Session.t) (user : User.t) (data : RequestInput.t)
    (req : RepairRequest.t) :
  (usecases.save_request today db user data).1 = Ok req →
  let role := rbac.role_name (Some user) in
  RepairRequest.due_date req
  = (if in_ role [ROLE_MANAGER; ROLE_OPERATOR; ROLE_QUALITY_MANAGER]
     then RequestInput.due_date data
     else prior db data RepairRequest.due_date)
  ∧ RepairRequest.repair_parts req
    = (if in_ role [ROLE_MANAGER; ROLE_OPERATOR; ROLE_MASTER; ROLE_SPECIALIST]
       then or_None (strip (or_empty (RequestInput.repair_parts data)))
       else prior db data RepairRequest.repair_parts)
  ∧ RepairRequest.master_id req
    = (if rbac.user_can_assign_master user
       then truthy_int (RequestInput.master_id data)
       else prior db data RepairRequest.master_id)
  ∧ RepairRequest.start_date req = Some (RequestInput.start_date data)
  ∧ RepairRequest.problem_description req
    = Some (RequestInput.problem_description data).
Proof.
  intros Hok. cbv zeta.
  apply save_request_Ok_inv in Hok
    as (em & it & db1 & req0 & ns & reqc & Hres & Hbegin & Hc & -> & _).
  pose proof (resolve_equipment_and_issue_frame db data) as Hfr.
  rewrite Hres in Hfr. simpl in Hfr. destruct Hfr as (Hst & _ & Hrq & _).
  pose proof (add_request_columns reqc db1)
    as (A1 & A2 & A3 & A4 & A5 & A6 & A7 & A8 & A9).
  apply apply_client_columns in Hc
    as (C0 & C1 & C2 & C3 & C4 & C5 & C6 & C7 & C8 & _).
  pose proof (save_request_gated_columns today user data em it ns req0)
    as (G0 & G1 & G2 & G3 & G4 & G5 & G6 & G7 & G8 & G9).
  simpl in *.
  assert (∀ {A} (column : RepairRequest.t → option A),
            (∀ v r, column (RepairRequest.set_status v r) = column r) →
            (∀ v r, column (RepairRequest.set_id v r) = column r) →
            match RepairRequest.id req0 with
            | Some _ => column req0
            | None => None
            end = prior db data column) as Hkept.
  { intros A column H1 H2.
    rewrite (save_request_begin_kept db1 user data req0 (Some ns) column
               H1 H2 Hbegin).
    unfold prior. by rewrite Hrq. }
  rewrite A6, C6, G7, A7, C7, G8, A8, C8, G9, A1, C1, G1, A4, C4, G4.
  rewrite !Hkept by done. done.
Qed.

Lemma master_edit_saved :
  ∃ req,
    (usecases.save_request 738525 fixtures.db_ticket fixtures.master
       (RequestInput.mk (Some 10) 738521 1 (lit "LG") None (lit "broken")
          None None (Some 738530) (Some (lit " pump ")) (Some 3) None)).1
    = Ok req.
Proof. eexists. vm_compute. reflexivity. Qed.

Lemma X14_save_request_field_gates_witness :
  ∃ req,
    (usecases.save_request 738525 fixtures.db_ticket fixtures.master
       (RequestInput.mk (Some 10) 738521 1 (lit "LG") None (lit "broken")
          None None (Some 738530) (Some (lit " pump ")) (Some 3) None)).1
    = Ok req
    ∧ RepairRequest.due_date req = None
    ∧ RepairRequest.repair_parts req = Some (lit "pump")
    ∧ RepairRequest.master_id req = Some 2.
Proof.
  destruct master_edit_saved as [req Hreq]. exists req.
  split; [exact Hreq|].
  destruct (X14_save_request_field_gates _ _ _ _ _ Hreq)
    as (Hdue & Hparts & Hmaster & _).
  split; [exact Hdue|]. split; [exact Hparts|exact Hmaster].
Defined.

Lemma save_request_begin_edit_status db user data req0 ns k :
  RequestInput.id data = Some k →
  usecases.save_request_begin db user data = Ok (req0, ns) →
  usecases._resolve_new_status_for_update db user req0 data = Ok ns.
Proof.
  unfold usecases.save_request_begin. intros ->.
  destruct (db_get_request db k) as [req|]; [|done].
  destruct (rbac.user_can_edit_request user req) as [[]|] eqn:He;
    simpl; try done.
  destruct (usecases._resolve_new_status_for_update _ _ _ _) eqn:Hs; simpl;
    [|done].
  intros [= <- <-]. done.
Qed.

Lemma resolve_new_status_for_update_Ok db user req data ns :
  usecases._resolve_new_status_for_update db user req data = Ok (Some ns) →
  ∃ old,
    RepairRequest.status req = Some old
    ∧ (ns = old
       ∨ (RequestInput.status_id data = Some (RequestStatus.id ns)
          ∧ RequestStatus.id ns ≠ RequestStatus.id old
          ∧ db_get (Session.request_statuses db) (RequestStatus.id ns)
            = Some ns
          ∧ rbac.role_name (Some user) ≠ ROLE_CLIENT
          ∧ rbac.user_can_change_status user old ns = true)).
Proof.
  unfold usecases._resolve_new_status_for_update. cbv zeta.
  case_bool_decide as Hrole.
  { intros [= Hs]. exists ns. by split; [|left]. }
  destruct (RequestInput.status_id data) as [sid|].
  2:{ intros [= Hs]. exists ns. by split; [|left]. }
  destruct (RepairRequest.status req) as [old|]; [|done].
  case_bool_decide as Hsame.
  { intros [= ->]. exists ns. by split; [|left]. }
  destruct (db_get (Session.request_statuses db) sid) as [new|] eqn:Hnew;
    [|done].
  destruct (rbac.user_can_change_status user old new) eqn:Hcan; [|done].
  simpl. intros [= ->]. exists old. split; [done|]. right.
  pose proof (db_get_id_status _ _ _ Hnew) as Hid.
  rewrite Hid. by repeat split.
Qed.

(** X15. The status of an updated ticket.  An update that goes through
    leaves the ticket in a status of the status table.  That status is
    the one the stored ticket had, unless the input names another one
    and [user_can_change_status] admits the move from the old to the
    new one.  So the Client's update never changes the status, an
    update that submits no status keeps it, and a Master or Specialist
    cannot take a ticket out of a final status into a non-final one. *)
Theorem X15_update_status
    (today : date) (db : Session.t) (user : User.t) (data : RequestInput.t)
    (k : Z) (r req : RepairRequest.t) :
  RequestInput.id data = Some k →
  Session.repair_requests db !! k = Some r →
  (usecases.save_request today db user data).1 = Ok req →
  let role := rbac.role_name (Some user) in
  ∃ old new,
    RepairRequest.status_id r ≫= db_get (Session.request_statuses db)
    = Some old
    ∧ RepairRequest.status_id req = Some (RequestStatus.id new)
    ∧ db_get (Session.request_statuses db) (RequestStatus.id new) = Some new
    ∧ (new = old
       ∨ (RequestInput.status_id data = Some (RequestStatus.id new)
          ∧ RequestStatus.id new ≠ RequestStatus.id old
          ∧ role ≠ ROLE_CLIENT
          ∧ rbac.user_can_change_status user old new = true))
    ∧ (role = ROLE_CLIENT →
       RepairRequest.status_id req = RepairRequest.status_id r)
    ∧ (RequestInput.status_id data = None →
       RepairRequest.status_id req = RepairRequest.status_id r)
    ∧ (is_master_role role = true → RequestStatus.is_final old = true →
       RequestStatus.is_final new = true).
Proof.
  intros Hk Hr Hok. cbv zeta.
  apply save_request_Ok_inv in Hok
    as (em & it & db1 & req0 & ns & reqc & Hresolve & Hbegin & Hc & -> & _).
  pose proof (resolve_equipment_and_issue_frame db data) as Hfr.
  rewrite Hresolve in Hfr. simpl in Hfr. destruct Hfr as (Hst & _ & Hrq & _).
  pose proof (add_request_columns reqc db1) as (_ & _ & _ & _ & A5 & _).
  apply apply_client_columns in Hc as (_ & _ & _ & _ & _ & C5 & _).
  pose proof (save_request_gated_columns today user data em it ns req0)
    as (_ & _ & _ & _ & _ & G5 & _).
  simpl in A5, C5, G5.
  pose proof (save_request_begin_status _ _ _ _ _ Hbegin) as Hns.
  pose proof (save_request_begin_edit_status _ _ _ _ _ _ Hk Hbegin) as Hres.
  destruct (save_request_begin_edit _ _ _ _ _ _ Hk Hbegin) as [Hload _].
  apply db_get_request_Some in Hload as (r' & Hr' & ->).
  rewrite Hrq, Hr in Hr'. injection Hr' as <-.
  apply resolve_new_status_for_update_Ok in Hres as (old & Hold & Hcase).
  simpl in Hold. rewrite Hst in Hold, Hns, Hcase.
  assert (RepairRequest.status_id r = Some (RequestStatus.id old)) as Hsid.
  { destruct (RepairRequest.status_id r) as [s|]; [|done]. simpl in Hold.
    by rewrite (db_get_id_status _ _ _ Hold). }
  assert (RepairRequest.status_id (usecases.add_request reqc db1).1
          = Some (RequestStatus.id ns)) as Hnew
    by (by rewrite A5, C5, G5).
  exists old, ns. split; [done|]. split; [done|]. split; [done|].
  split; [|split; [|split]].
  - destruct Hcase as [->|(H1 & H2 & _ & H4 & H5)]; [by left|by right].
  - intros Hrole. destruct Hcase as [->|(_ & _ & _ & H4 & _)];
      [by rewrite Hnew, Hsid|done].
  - intros Hnone. destruct Hcase as [->|(H1 & _)];
      [by rewrite Hnew, Hsid|congruence].
  - intros Hm Hfin. destruct Hcase as [->|(_ & H2 & _ & _ & H5)]; [done|].
    rewrite (change_status_master _ _ _ Hm) in H5.
    rewrite bool_decide_eq_false_2 in H5 by congruence.
    rewrite Hfin in H5. simpl in H5. by destruct (RequestStatus.is_final ns).
Qed.

Lemma client_edit_saved :
  ∃ req,
    (usecases.save_request 738525 fixtures.db_ticket fixtures.client
       (fixtures.edit_ticket (Some 3) None)).1
    = Ok req.
Proof. eexists. vm_compute. reflexivity. Qed.

Lemma db_ticket_10 :
  Session.repair_requests fixtures.db_ticket !! 10
  = Some (fixtures.make_request 10 7 2 fixtures.st_work).
Proof. apply lookup_singleton_eq. Qed.

Lemma X15_update_status_witness :
  ∃ req,
    (usecases.save_request 738525 fixtures.db_ticket fixtures.client
       (fixtures.edit_ticket (Some 3) None)).1
    = Ok req
    ∧ RepairRequest.status_id req = Some 2.
Proof.
  destruct client_edit_saved as [req Hreq]. exists req.
  split; [exact Hreq|].
  destruct (X15_update_status 738525 fixtures.db_ticket fixtures.client
              (fixtures.edit_ticket (Some 3) None) 10
              (fixtures.make_request 10 7 2 fixtures.st_work) req
              eq_refl db_ticket_10 Hreq)
    as (old & new & _ & _ & _ & _ & Hclient & _).
  exact (Hclient role_of_client).
Defined.

Lemma get_or_create_equipment_model_stored db equipment_type_id model_name
    em db1 :
  services.get_or_create_equipment_model db equipment_type_id model_name
  = (Ok em, db1) →
  db_get (Session.equipment_models db1) (EquipmentModel.id em) = Some em
  ∧ EquipmentModel.equipment_type_id em = equipment_type_id
  ∧ EquipmentModel.name em = strip model_name.
Proof.
  unfold services.get_or_create_equipment_model. cbv zeta.
  destruct (query_first _ (Session.equipment_models db)) as [e|] eqn:Hq.
  - intros [= <- <-]. apply query_first_Some in Hq as (k & Hk & HP & _).
    apply andb_true_iff in HP as [Ht Hn].
    apply bool_decide_eq_true in Ht, Hn.
    split; [|done].
    apply db_get_Some in Hk as Hk'. destruct Hk' as (r & _ & ->). done.
  - repeat case_bool_decide; [done..|].
    unfold db_add. simpl. intros [= <- <-]. split; [|done].
    unfold db_get. simpl. by rewrite lookup_insert_eq.
Qed.

Lemma get_or_create_issue_type_stored db problem_description :
  let out := services.get_or_create_issue_type db problem_description in
  db_get (Session.issue_types out.2) (IssueType.id out.1) = Some out.1
  ∧ IssueType.name out.1
    = services.normalize_issue_type_name problem_description.
Proof.
  cbv zeta. unfold services.get_or_create_issue_type. cbv zeta.
  destruct (query_first _ (Session.issue_types db)) as [e|] eqn:Hq.
  - simpl. apply query_first_Some in Hq as (k & Hk & HP & _).
    apply bool_decide_eq_true in HP. split; [|done].
    apply db_get_Some in Hk as Hk'. destruct Hk' as (r & _ & ->). done.
  - unfold db_add. simpl. split; [|done].
    unfold db_get. by rewrite lookup_insert_eq.
Qed.

(** The equipment model and the issue type a save resolves are rows of
    the session it leaves them in. *)
Lemma resolve_equipment_and_issue_stored db data em it db2 :
  usecases._resolve_equipment_and_issue db data = (Ok (em, it), db2) →
  db_get (Session.equipment_models db2) (EquipmentModel.id em) = Some em
  ∧ EquipmentModel.equipment_type_id em = RequestInput.equipment_type_id data
  ∧ EquipmentModel.name em = strip (RequestInput.equipment_model_name data)
  ∧ db_get (Session.issue_types db2) (IssueType.id it) = Some it
  ∧ (IssueType.name it
     = services.normalize_issue_type_name
         (RequestInput.problem_description data)
     ∨ truthy_int (RequestInput.issue_type_id data) = Some (IssueType.id it)).
Proof.
  unfold usecases._resolve_equipment_and_issue.
  pose proof (get_or_create_equipment_model_stored db
                (RequestInput.equipment_type_id data)
                (RequestInput.equipment_model_name data)) as He.
  destruct (services.get_or_create_equipment_model _ _ _) as [[em0|e] db1];
    [|done].
  destruct (He em0 db1 eq_refl) as (He1 & He2 & He3). clear He.
  pose proof (get_or_create_issue_type_stored db1
                (RequestInput.problem_description data)) as Hi.
  pose proof (get_or_create_issue_type_frame db1
                (RequestInput.problem_description data)) as Hf.
  destruct (services.get_or_create_issue_type _ _) as [it0 db3].
  simpl in Hi, Hf. destruct Hi as (Hi1 & Hi2).
  destruct Hf as (_ & _ & Hf3 & _).
  destruct (truthy_int (RequestInput.issue_type_id data)) as [iid|];
    [destruct (db_get (Session.issue_types db1) iid) as [obj|] eqn:Hobj|];
    intros [= <- <- <-].
  - split; [done|]. split; [done|]. split; [done|].
    pose proof Hobj as Hobj'.
    apply db_get_Some in Hobj' as (r & _ & ->). simpl.
    split; [done|]. by right.
  - rewrite Hf3. split; [done|]. split; [done|]. split; [done|].
    split; [done|]. by left.
  - rewrite Hf3. split; [done|]. split; [done|]. split; [done|].
    split; [done|]. by left.
Qed.

(** X16. What a save that goes through leaves in the session.  The
    ticket it returns is stored under its id, which is the id the input
    names on an update and an unused one on a creation, and no other
    ticket changes.  The ticket's equipment model is a stored model of
    the submitted equipment type with the trimmed name, and its issue
    type is a stored one, found by the submitted id or carrying the
    normalized description.  Users, statuses, comments and help
    requests are as before, and no equipment model or issue type is
    removed or changed. *)
Theorem X16_save_request_stores_ticket
    (today : date) (db : Session.t) (user : User.t) (data : RequestInput.t)
    (req : RepairRequest.t) :
  (usecases.save_request today db user data).1 = Ok req →
  let db' := (usecases.save_request today db user data).2 in
  (∃ k,
     RepairRequest.id req = Some k
     ∧ Session.repair_requests db'
       = <[k := req]> (Session.repair_requests db)
     ∧ (∀ k0, RequestInput.id data = Some k0 → k = k0)
     ∧ (RequestInput.id data = None →
        Session.repair_requests db !! k = None))
  ∧ (∃ em,
       RepairRequest.equipment_model_id req = Some (EquipmentModel.id em)
       ∧ db_get (Session.equipment_models db') (EquipmentModel.id em)
         = Some em
       ∧ EquipmentModel.equipment_type_id em
         = RequestInput.equipment_type_id data
       ∧ EquipmentModel.name em
         = strip (RequestInput.equipment_model_name data))
  ∧ (∃ it,
       RepairRequest.issue_type_id req = Some (IssueType.id it)
       ∧ db_get (Session.issue_types db') (IssueType.id it) = Some it
       ∧ (IssueType.name it
          = services.normalize_issue_type_name
              (RequestInput.problem_description data)
          ∨ truthy_int (RequestInput.issue_type_id data)
            = Some (IssueType.id it)))
  ∧ Session.users db' = Session.users db
  ∧ Session.request_statuses db' = Session.request_statuses db
  ∧ Session.request_comments db' = Session.request_comments db
  ∧ Session.help_requests db' = Session.help_requests db
  ∧ (∀ k x, Session.equipment_models db !! k = Some x →
            Session.equipment_models db' !! k = Some x)
  ∧ (∀ k x, Session.issue_types db !! k = Some x →
            Session.issue_types db' !! k = Some x).
Proof.
  intros Hok. cbv zeta.
  pose proof (save_request_tables today db user data)
    as (T1 & T2 & T3 & T4 & T5 & T6 & _).
  simpl in T1, T2, T3, T4, T5, T6.
  apply save_request_Ok_inv in Hok
    as (em & it & db1 & req0 & ns & reqc & Hres & Hbegin & Hc & -> & Hdb).
  rewrite Hdb in *. clear Hdb.
  pose proof (resolve_equipment_and_issue_frame db data) as Hfr.
  rewrite Hres in Hfr. simpl in Hfr. destruct Hfr as (_ & _ & Hrq & _).
  pose proof (resolve_equipment_and_issue_stored db data em it db1 Hres)
    as (E1 & E2 & E3 & I1 & I2).
  pose proof (add_request_columns reqc db1)
    as (_ & A2 & A3 & _).
  pose proof (add_request_tables reqc db1)
    as (_ & _ & B3 & B4 & _ & _ & k & Bk & Bfresh & Bsame & Btbl).
  simpl in A2, A3, B3, B4, Bk, Bfresh, Bsame, Btbl.
  apply apply_client_columns in Hc
    as (C0 & _ & C2 & C3 & _).
  pose proof (save_request_gated_columns today user data em it ns req0)
    as (G0 & _ & G2 & G3 & _).
  simpl in G0, G2, G3.
  split; [|split; [|split]].
  - exists k. split; [done|]. split; [by rewrite Btbl, Hrq|]. split.
    + intros k0 Hk0.
      destruct (save_request_begin_edit _ _ _ _ _ _ Hk0 Hbegin) as [Hl _].
      apply loaded_request_fields in Hl as [Hid _].
      apply Bsame. by rewrite C0, G0.
    + intros Hnone.
      destruct (save_request_begin_create _ _ _ _ _ Hnone Hbegin) as [-> _].
      rewrite <- Hrq. apply Bfresh. by rewrite C0, G0.
  - exists em. rewrite A2, C2, G2, B3. done.
  - exists it. rewrite A3, C3, G3, B4. done.
  - done.
Qed.

Lemma manager_create_saved :
  ∃ req,
    (usecases.save_request 738525 fixtures.db_ticket fixtures.manager
       (fixtures.new_ticket (Some 1) (Some 7))).1
    = Ok req.
Proof. eexists. vm_compute. reflexivity. Qed.

Lemma X16_save_request_stores_ticket_witness :
  ∃ req k,
    (usecases.save_request 738525 fixtures.db_ticket fixtures.manager
       (fixtures.new_ticket (Some 1) (Some 7))).1
    = Ok req
    ∧ Session.repair_requests fixtures.db_ticket !! k = None
    ∧ Session.repair_requests
        (usecases.save_request 738525 fixtures.db_ticket fixtures.manager
           (fixtures.new_ticket (Some 1) (Some 7))).2
      = <[k := req]> (Session.repair_requests fixtures.db_ticket).
Proof.
  destruct manager_create_saved as [req Hreq].
  destruct (X16_save_request_stores_ticket _ _ _ _ _ Hreq)
    as ((k & _ & Htbl & _ & Hfresh) & _).
  exists req, k. split; [exact Hreq|]. split; [|exact Htbl].
  apply Hfresh. reflexivity.
Defined.

(** ** Tickets satisfy the constraints of the schema (app/models.py) *)

Lemma ticket_well_formed_mono db db' r :
  Session.request_statuses db' = Session.request_statuses db →
  (∀ k x, Session.equipment_models db !! k = Some x →
          Session.equipment_models db' !! k = Some x) →
  (∀ k x, Session.issue_types db !! k = Some x →
          Session.issue_types db' !! k = Some x) →
  ticket_well_formed db r → ticket_well_formed db' r.
Proof.
  intros Hst Hem Hit (H1 & H2 & H3 & H4 & H5 & H6).
  split; [done|]. split; [done|]. split; [done|].
  split; [|split].
  - destruct (RepairRequest.equipment_model_id r) as [k|]; simpl in *;
      [|done].
    destruct H4 as [x Hx]. rewrite (Hem _ _ Hx). eauto.
  - destruct (RepairRequest.issue_type_id r) as [k|]; simpl in *; [|done].
    destruct H5 as [x Hx]. rewrite (Hit _ _ Hx). eauto.
  - by rewrite Hst.
Qed.

Lemma db_get_is_Some `{Model T} (tbl : gmap Z T) k x :
  db_get tbl k = Some x → is_Some (tbl !! k).
Proof. intros (r & Hr & _)%db_get_Some. eauto. Qed.

Lemma apply_client_client user req data req' :
  usecases._apply_client user req data = Ok req' →
  is_Some (RepairRequest.client_id req')
  ∨ (RepairRequest.client_id req' = RepairRequest.client_id req
     ∧ is_Some (RepairRequest.id req)).
Proof.
  unfold usecases._apply_client. cbv zeta.
  case_bool_decide; [intros [= <-]; left; by destruct req|].
  destruct (in_ _ _).
  - destruct (truthy_int _); [|done]. intros [= <-]. left. by destruct req.
  - destruct (RepairRequest.id req) eqn:Hid; [|done].
    intros [= <-]. right. eauto.
Qed.

Lemma save_request_base_columns data em it req :
  let req' := save_request_base data em it req in
  RepairRequest.id req' = RepairRequest.id req
  ∧ RepairRequest.start_date req' = Some (RequestInput.start_date data)
  ∧ RepairRequest.equipment_model_id req' = Some (EquipmentModel.id em)
  ∧ RepairRequest.issue_type_id req' = Some (IssueType.id it)
  ∧ RepairRequest.problem_description req'
    = Some (RequestInput.problem_description data)
  ∧ RepairRequest.status_id req' = RepairRequest.status_id req
  ∧ RepairRequest.client_id req' = RepairRequest.client_id req.
Proof. by destruct req. Qed.

(** A ticket that carries what a save assigns satisfies the
    constraints. *)
Lemma saved_ticket_well_formed db data em it q s :
  db_get (Session.equipment_models db) (EquipmentModel.id em) = Some em →
  db_get (Session.issue_types db) (IssueType.id it) = Some it →
  is_Some (Session.request_statuses db !! s) →
  RepairRequest.start_date q = Some (RequestInput.start_date data) →
  RepairRequest.equipment_model_id q = Some (EquipmentModel.id em) →
  RepairRequest.issue_type_id q = Some (IssueType.id it) →
  RepairRequest.problem_description q
  = Some (RequestInput.problem_description data) →
  RepairRequest.status_id q = Some s →
  is_Some (RepairRequest.client_id q) →
  ticket_well_formed db q.
Proof.
  intros Hem%db_get_is_Some Hit%db_get_is_Some Hs H1 H2 H3 H4 H5 H6.
  unfold ticket_well_formed. rewrite H1, H2, H3, H4, H5. simpl.
  by repeat split.
Qed.

Lemma tickets_well_formed_put db k q :
  tickets_well_formed db → ticket_well_formed db q →
  tickets_well_formed (put_request k q db).
Proof.
  intros Hinv Hq k' r. unfold put_request, Session.set_repair_requests.
  simpl. destruct (decide (k = k')) as [<-|Hne].
  - rewrite lookup_insert_eq. intros [= <-]. exact Hq.
  - rewrite lookup_insert_ne by done. intros Hr. exact (Hinv _ _ Hr).
Qed.

Lemma tickets_well_formed_mono db db' :
  Session.request_statuses db' = Session.request_statuses db →
  (∀ k x, Session.equipment_models db !! k = Some x →
          Session.equipment_models db' !! k = Some x) →
  (∀ k x, Session.issue_types db !! k = Some x →
          Session.issue_types db' !! k = Some x) →
  (∀ k r, Session.repair_requests db' !! k = Some r →
          Session.repair_requests db !! k = Some r) →
  tickets_well_formed db → tickets_well_formed db'.
Proof.
  intros Hst Hem Hit Hrr Hinv k r Hr.
  eapply ticket_well_formed_mono; [done..|]. by eapply Hinv, Hrr.
Qed.

(** The stored ticket a save loaded satisfied the constraints when the
    store did. *)
Lemma loaded_ticket_well_formed db user data req0 ns :
  tickets_well_formed db →
  usecases.save_request_begin db user data = Ok (req0, ns) →
  is_Some (RepairRequest.id req0) →
  is_Some (RepairRequest.client_id req0)
  ∧ is_Some (RepairRequest.status_id req0
               ≫= (Session.request_statuses db !!.)).
Proof.
  intros Hinv Hbegin Hid.
  destruct (RequestInput.id data) as [k|] eqn:Hk.
  - destruct (save_request_begin_edit _ _ _ _ _ _ Hk Hbegin) as [Hl _].
    apply db_get_request_Some in Hl as (r & Hr & ->).
    destruct (Hinv _ _ Hr) as (_ & _ & H3 & _ & _ & H6). by destruct r.
  - destruct (save_request_begin_create _ _ _ _ _ Hk Hbegin) as [-> _].
    by destruct Hid.
Qed.

Lemma save_request_well_formed today db user data :
  tickets_well_formed db →
  tickets_well_formed (usecases.save_request today db user data).2.
Proof.
  intros Hinv0.
  pose proof (resolve_equipment_and_issue_frame db data) as Hfr.
  pose proof (resolve_equipment_and_issue_keeps db data) as [Kem Kit].
  destruct (usecases._resolve_equipment_and_issue db data)
    as [[[em it]|e0] db1] eqn:Hres.
  2:{ unfold usecases.save_request. rewrite Hres. simpl.
      destruct (resolve_equipment_and_issue_Raise db data e0) as [Hr _];
        [by rewrite Hres|].
      rewrite Hres in Hr. by injection Hr as ->. }
  pose proof (resolve_equipment_and_issue_stored db data em it db1 Hres)
    as (E1 & _ & _ & I1 & _).
  rewrite (save_request_unfold _ _ _ _ _ _ _ Hres). cbv zeta.
  simpl in Hfr, Kem, Kit. destruct Hfr as (Hst & _ & Hrq & _).
  assert (tickets_well_formed db1) as Hinv
    by (apply (tickets_well_formed_mono db); [done..|by rewrite Hrq|done]).
  destruct (usecases.save_request_begin db1 user data)
    as [[req0 [ns|]]|e] eqn:Hbegin; simpl; [| |done].
  - pose proof (save_request_gated_columns today user data em it ns
                  req0) as (G0 & G1 & G2 & G3 & G4 & G5 & G6 & _).
    simpl in G0, G1, G2, G3, G4, G5, G6.
    pose proof (save_request_begin_status _ _ _ _ _ Hbegin) as Hns.
    apply db_get_is_Some in Hns.
    set (reqf := save_request_gated today user data em it ns req0) in *.
    destruct (usecases._apply_client user reqf data) as [reqc|e] eqn:Hc; simpl.
    + pose proof (apply_client_client _ _ _ _ Hc) as Hcl.
      apply apply_client_columns in Hc
        as (C0 & C1 & C2 & C3 & C4 & C5 & _).
      pose proof (add_request_columns reqc db1)
        as (A1 & A2 & A3 & A4 & A5 & _ & _ & _ & A9).
      pose proof (add_request_tables reqc db1)
        as (B1 & _ & B3 & B4 & _ & _ & k & _ & _ & _ & Btbl).
      simpl in A1, A2, A3, A4, A5, A9, B1, B3, B4, Btbl.
      assert (ticket_well_formed (usecases.add_request reqc db1).2
                (usecases.add_request reqc db1).1) as Hnew.
      { eapply (saved_ticket_well_formed _ data em it _
                  (RequestStatus.id ns)).
        - by rewrite B3.
        - by rewrite B4.
        - by rewrite B1.
        - by rewrite A1, C1.
        - by rewrite A2, C2.
        - by rewrite A3, C3.
        - by rewrite A4, C4.
        - by rewrite A5, C5.
        - rewrite A9. destruct Hcl as [?|[-> Hid]]; [done|].
          rewrite G6. rewrite G0 in Hid.
          by destruct (loaded_ticket_well_formed _ _ _ _ _ Hinv Hbegin Hid). }
      intros k' r. rewrite Btbl.
      destruct (decide (k = k')) as [<-|Hne].
      * rewrite lookup_insert_eq. intros [= <-]. exact Hnew.
      * rewrite lookup_insert_ne by done. intros Hr.
        eapply ticket_well_formed_mono; [..|by eapply Hinv];
          [done|by rewrite B3|by rewrite B4].
    + unfold usecases.leave_request. rewrite G0.
      destruct (RepairRequest.id req0) as [k|] eqn:Hid; [|done].
      apply tickets_well_formed_put; [done|].
      destruct (loaded_ticket_well_formed _ _ _ _ _ Hinv Hbegin)
        as [Hcl _]; [by rewrite Hid|].
      eapply (saved_ticket_well_formed _ data em it _
                (RequestStatus.id ns)); try done. by rewrite G6.
  - pose proof (save_request_base_columns data em it req0)
      as (S0 & S1 & S2 & S3 & S4 & S5 & S6).
    set (reqb := save_request_base data em it req0) in *.
    unfold usecases.leave_request. rewrite S0.
    destruct (RepairRequest.id req0) as [k|] eqn:Hid; [|done].
    apply tickets_well_formed_put; [done|].
    destruct (loaded_ticket_well_formed _ _ _ _ _ Hinv Hbegin)
      as [Hcl Hs]; [by rewrite Hid|].
    destruct (RepairRequest.status_id req0) as [s|] eqn:Hsid;
      [|by destruct Hs].
    eapply (saved_ticket_well_formed _ data em it _ s); try done.
Qed.

Lemma run_preserves_tickets_well_formed op db :
  tickets_well_formed db → tickets_well_formed (run op db).
Proof.
  intros Hinv. destruct op as [today u d|u k|u k m|u d|now u d]; simpl.
  - by apply save_request_well_formed.
  - destruct (delete_request_outcome db u k) as [[e ->]| ->]; [done|].
    simpl. apply (tickets_well_formed_mono db); [done..| |done].
    simpl. intros k' r Hr.
    destruct (decide (k = k')) as [<-|Hne].
    + by rewrite lookup_delete_eq in Hr.
    + by rewrite lookup_delete_ne in Hr.
  - destruct (add_comment_outcome db u k m) as [[e ->]|(c & tbl & ->)];
      [done|].
    by apply (tickets_well_formed_mono db).
  - destruct (create_help_request_outcome db u d)
      as [[e ->]|(req & _ & _ & _ & _ & _ & ->)]; [done|].
    by apply (tickets_well_formed_mono db).
  - destruct (close_help_request_outcome now db u d)
      as [[e ->]|(h & req & nm & _ & _ & _ & Hreq & _ & _ & ->)]; [done|].
    simpl.
    apply (tickets_well_formed_mono
             (put_request (HelpRequest.request_id h)
                (ticket_after_close nm (HelpRequestCloseInput.new_due_date d)
                   req) db)); [done..|].
    apply tickets_well_formed_put; [done|].
    apply db_get_request_Some in Hreq as (r & Hr & ->).
    destruct (Hinv _ _ Hr) as (H1 & H2 & H3 & H4 & H5 & H6).
    unfold ticket_well_formed, ticket_after_close.
    destruct nm, (HelpRequestCloseInput.new_due_date d); by destruct r.
Qed.

(** X17. The tickets of the store satisfy the constraints the schema
    puts on them: start date, problem description and client are set,
    and equipment model, issue type and status are set and name rows
    of their tables.  Every engine operation keeps this, committed,
    rolled back or as the call left it, and it holds in every store the
    engine reaches from one without tickets. *)
Theorem X17_tickets_well_formed :
  (∀ op db,
     tickets_well_formed db →
     tickets_well_formed (run op db)
     ∧ tickets_well_formed (transaction op db))
  ∧ (∀ db, reachable db → tickets_well_formed db).
Proof.
  assert (∀ op db, tickets_well_formed db →
                   tickets_well_formed (transaction op db)) as Htr.
  { intros op db Hinv. unfold transaction.
    destruct (succeeds op db); [|done].
    by apply run_preserves_tickets_well_formed. }
  split.
  - intros op db Hinv.
    split; [by apply run_preserves_tickets_well_formed|by apply Htr].
  - intros db Hreach. induction Hreach as [db (Hrr & _)|op db _ IH|op db _ IH].
    + intros k r. rewrite Hrr, lookup_empty. done.
    + by apply run_preserves_tickets_well_formed.
    + by apply Htr.
Qed.

Lemma db_statuses_well_formed : tickets_well_formed fixtures.db_statuses.
Proof. intros k r H. unfold fixtures.db_statuses in H. simpl in H. done. Qed.

Lemma X17_tickets_well_formed_witness :
  tickets_well_formed
    (run (SaveRequest 738525 fixtures.manager
            (fixtures.new_ticket (Some 1) (Some 7)))
       fixtures.db_statuses).
Proof.
  apply (proj1 X17_tickets_well_formed). exact db_statuses_well_formed.
Defined.

(** ** Escalations (app/usecases.py) *)

Lemma loaded_master_id db k req :
  db_get_request db k = Some req →
  ∃ r, Session.repair_requests db !! k = Some r
       ∧ RepairRequest.master_id req = RepairRequest.master_id r
       ∧ RepairRequest.start_date req = RepairRequest.start_date r.
Proof.
  intros (_ & r & Hr & _ & _ & _ & Hm & Hs)%loaded_request_fields. eauto.
Qed.

(** X18. When an escalation goes through, what it creates, and which
    error stops it.  [create_help_request] succeeds exactly when the
    actor is master-class, the ticket exists and is assigned to the
    actor, no help request of the ticket is open and the message is not
    blank.  The help request it creates is open, carries the trimmed
    message, the actor and the proposed due date, and is stored under
    an unused id; nothing else changes.  Otherwise the session is left
    as it was, and the error is the first of: permission denied (not
    master-class), ticket not found, permission denied (not the
    ticket's master), already open, business rule (blank message). *)
Theorem X18_create_help_request_decision
    (db : Session.t) (user : User.t) (data : HelpRequestCreateInput.t) :
  let rid := HelpRequestCreateInput.request_id data in
  let msg := strip (HelpRequestCreateInput.message data) in
  let out := usecases.create_help_request db user data in
  let master_class := is_master_role (rbac.role_name (Some user)) in
  let assigned :=
    ∃ r, Session.repair_requests db !! rid = Some r
         ∧ RepairRequest.master_id r = Some (User.id user) in
  let none_open :=
    ∀ k h, Session.help_requests db !! k = Some h →
           HelpRequest.request_id h = rid → ¬ is_open h in
  (is_Ok out.1 = true ↔
     master_class = true ∧ assigned ∧ none_open ∧ msg ≠ [])
  ∧ (∀ h, out.1 = Ok h →
          ∃ k, Session.help_requests db !! k = None
               ∧ h = HelpRequest.mk (Some k) rid (User.id user) None None
                       (lit "open") msg None
                       (HelpRequestCreateInput.proposed_due_date data) None
               ∧ out.2 = put_help_request k h db)
  ∧ (∀ e, out.1 = Raise e →
          out.2 = db
          ∧ (master_class = false → e = PermissionDeniedError)
          ∧ (master_class = true →
             Session.repair_requests db !! rid = None →
             e = RequestNotFoundError)
          ∧ (master_class = true →
             is_Some (Session.repair_requests db !! rid) → ¬ assigned →
             e = PermissionDeniedError)
          ∧ (master_class = true → assigned → ¬ none_open →
             e = HelpRequestAlreadyOpenError)
          ∧ (master_class = true → assigned → none_open →
             e = BusinessRuleViolationError ∧ msg = [])).
Proof.
  cbv zeta. unfold usecases.create_help_request.
  change (rbac.user_can_create_help_request user)
    with (is_master_role (rbac.role_name (Some user))).
  destruct (is_master_role (rbac.role_name (Some user))) eqn:Hmc; simpl.
  2:{ split; [|split]; [|done|].
      - split; [done|]. by intros [? _].
      - intros e [= <-]. by repeat split. }
  destruct (db_get_request db (HelpRequestCreateInput.request_id data))
    as [req|] eqn:Hreq.
  2:{ apply db_get_request_None in Hreq.
      split; [|split]; [|done|].
      - split; [done|]. intros (_ & (r & Hr & _) & _). congruence.
      - intros e [= <-]. split; [done|]. split; [done|]. split; [done|].
        split; [|split].
        + rewrite Hreq. by intros _ [? ?].
        + intros _ (r & Hr & _). congruence.
        + intros _ (r & Hr & _). congruence. }
  apply loaded_master_id in Hreq as (r & Hr & Hm & _). rewrite Hm.
  case_bool_decide as Hmaster.
  { split; [|split]; [|done|].
    - split; [done|]. intros (_ & (r' & Hr' & Hm') & _). congruence.
    - intros e [= <-]. split; [done|]. split; [done|].
      split; [congruence|]. split; [done|].
      split; intros _ (r' & Hr' & Hm'); congruence. }
  assert (∃ r, Session.repair_requests db
                 !! HelpRequestCreateInput.request_id data = Some r
               ∧ RepairRequest.master_id r = Some (User.id user)) as Hassigned
    by eauto.
  fold (open_for (HelpRequestCreateInput.request_id data)).
  destruct (query_first _ (Session.help_requests db)) as [h0|] eqn:Hq.
  { assert (¬ ∀ k h, Session.help_requests db !! k = Some h →
                     HelpRequest.request_id h
                     = HelpRequestCreateInput.request_id data →
                     ¬ is_open h) as Hopen.
    { intros Hnone%no_open_help_request. congruence. }
    split; [|split]; [|done|].
    - split; [done|]. by intros (_ & _ & ? & _).
    - intros e [= <-]. split; [done|]. split; [done|].
      split; [congruence|]. split; [by intros _ _ []|]. split; [done|].
      by intros _ _ ?. }
  pose proof (proj1 (no_open_help_request _ _) Hq) as Hnone. clear Hq.
  destruct (strip (HelpRequestCreateInput.message data)) as [|c msg] eqn:Hmsg.
  { split; [|split]; [|done|].
    - split; [done|]. by intros (_ & _ & _ & ?).
    - intros e [= <-]. split; [done|]. split; [done|].
      split; [congruence|]. split; [by intros _ _ []|]. split; [done|].
      done. }
  simpl. split; [|split]; [| |done].
  - split; [|done]. intros _. by repeat split.
  - intros h [= <-].
    exists (fresh (dom (Session.help_requests db))).
    split; [apply db_add_fresh|]. done.
Qed.

Lemma master_is_master_class :
  is_master_role (rbac.role_name (Some fixtures.master)) = true.
Proof. vm_compute. reflexivity. Qed.

Lemma need_parts_not_blank :
  strip (HelpRequestCreateInput.message
           (fixtures.help_input (lit " need parts "))) ≠ [].
Proof. vm_compute. discriminate. Qed.

Lemma X18_create_help_request_decision_witness :
  is_Ok (usecases.create_help_request fixtures.db_ticket fixtures.master
           (fixtures.help_input (lit " need parts "))).1 = true.
Proof.
  apply (proj1 (X18_create_help_request_decision fixtures.db_ticket
                  fixtures.master
                  (fixtures.help_input (lit " need parts ")))).
  split; [exact master_is_master_class|]. split; [|split].
  - eexists. split; [exact db_ticket_10|reflexivity].
  - intros k h Hk. unfold fixtures.db_ticket in Hk. simpl in Hk.
    rewrite lookup_empty in Hk. discriminate Hk.
  - exact need_parts_not_blank.
Defined.

(** ** Closing a help request (app/usecases.py) *)

Lemma close_help_request_master_Ok db data :
  (∃ new_master, usecases.close_help_request_master db data = Ok new_master)
  ↔ ∀ m, HelpRequestCloseInput.assigned_master_id data = Some m →
         ∃ u role, Session.users db !! m = Some u
                   ∧ User.role u = Some role
                   ∧ is_master_role (UserRole.name role) = true.
Proof.
  unfold usecases.close_help_request_master, db_get.
  destruct (HelpRequestCloseInput.assigned_master_id data) as [m|].
  2:{ split; [done|]. intros _. by eexists. }
  destruct (Session.users db !! m) as [u|] eqn:Hu; simpl.
  2:{ split; [by intros [? ?]|]. intros H.
      destruct (H m eq_refl) as (u' & role' & Hu' & _). congruence. }
  destruct (User.role u) as [role|] eqn:Hrole.
  2:{ split; [by intros [? ?]|]. intros H.
      destruct (H m eq_refl) as (u' & role' & Hu' & Hr' & _). congruence. }
  destruct (is_master_role (UserRole.name role)) eqn:Hm; simpl.
  - split; [|by eexists]. intros _ ? [= <-]. eauto.
  - split; [by intros [? ?]|]. intros H.
    destruct (H m eq_refl) as (u' & role' & Hu' & Hr' & Hm'). congruence.
Qed.

Lemma ticket_after_close_columns new_master new_due_date req :
  let req' := ticket_after_close new_master new_due_date req in
  RepairRequest.id req' = RepairRequest.id req
  ∧ RepairRequest.start_date req' = RepairRequest.start_date req
  ∧ RepairRequest.equipment_model_id req' = RepairRequest.equipment_model_id req
  ∧ RepairRequest.issue_type_id req' = RepairRequest.issue_type_id req
  ∧ RepairRequest.problem_description req'
    = RepairRequest.problem_description req
  ∧ RepairRequest.status_id req' = RepairRequest.status_id req
  ∧ RepairRequest.completion_date req' = RepairRequest.completion_date req
  ∧ RepairRequest.repair_parts req' = RepairRequest.repair_parts req
  ∧ RepairRequest.client_id req' = RepairRequest.client_id req.
Proof.
  unfold ticket_after_close.
  by destruct new_master, new_due_date, req.
Qed.

(** X19. When a close goes through, and what it leaves alone.
    [close_help_request] succeeds exactly when the actor may handle
    help requests, the help request exists and is open, its ticket
    exists, a new due date is not before the ticket's start date, and
    an assigned master names a master-class user.  It then replaces
    that help request and its ticket and nothing else; on the ticket it
    changes at most the master and the due date, and on the help
    request it keeps the ticket, the author, the message and the
    proposed due date.  An actor who may not handle help requests gets
    permission denied whatever the input, an entitled one gets help
    request not found for an unknown id and ticket not found when the
    ticket of an open help request is missing. *)
Theorem X19_close_help_request_decision
    (now : datetime) (db : Session.t) (user : User.t)
    (data : HelpRequestCloseInput.t) :
  let hid := HelpRequestCloseInput.help_id data in
  let out := usecases.close_help_request now db user data in
  let entitled := rbac.user_can_handle_help_request user in
  (is_Ok out.1 = true ↔
     entitled = true
     ∧ ∃ h r,
         Session.help_requests db !! hid = Some h
         ∧ HelpRequest.status h = lit "open"
         ∧ Session.repair_requests db !! HelpRequest.request_id h = Some r
         ∧ (∀ d, HelpRequestCloseInput.new_due_date data = Some d →
                 ∃ sd, RepairRequest.start_date r = Some sd ∧ sd ≤ d)
         ∧ (∀ m, HelpRequestCloseInput.assigned_master_id data = Some m →
                 ∃ u role, Session.users db !! m = Some u
                           ∧ User.role u = Some role
                           ∧ is_master_role (UserRole.name role) = true))
  ∧ (∀ closed, out.1 = Ok closed →
       ∃ h r r',
         Session.help_requests db !! hid = Some h
         ∧ Session.repair_requests db !! HelpRequest.request_id h = Some r
         ∧ Session.help_requests out.2
           = <[hid := closed]> (Session.help_requests db)
         ∧ Session.repair_requests out.2
           = <[HelpRequest.request_id h := r']> (Session.repair_requests db)
         ∧ (RepairRequest.id r' = Some (HelpRequest.request_id h)
            ∧ RepairRequest.start_date r' = RepairRequest.start_date r
            ∧ RepairRequest.equipment_model_id r'
              = RepairRequest.equipment_model_id r
            ∧ RepairRequest.issue_type_id r' = RepairRequest.issue_type_id r
            ∧ RepairRequest.problem_description r'
              = RepairRequest.problem_description r
            ∧ RepairRequest.status_id r' = RepairRequest.status_id r
            ∧ RepairRequest.completion_date r'
              = RepairRequest.completion_date r
            ∧ RepairRequest.repair_parts r' = RepairRequest.repair_parts r
            ∧ RepairRequest.client_id r' = RepairRequest.client_id r)
         ∧ (HelpRequest.id closed = Some hid
            ∧ HelpRequest.request_id closed = HelpRequest.request_id h
            ∧ HelpRequest.created_by_master_id closed
              = HelpRequest.created_by_master_id h
            ∧ HelpRequest.message closed = HelpRequest.message h
            ∧ HelpRequest.proposed_due_date closed
              = HelpRequest.proposed_due_date h)
         ∧ Session.users out.2 = Session.users db
         ∧ Session.request_statuses out.2 = Session.request_statuses db
         ∧ Session.request_comments out.2 = Session.request_comments db
         ∧ Session.equipment_models out.2 = Session.equipment_models db
         ∧ Session.issue_types out.2 = Session.issue_types db)
  ∧ (∀ e, out.1 = Raise e →
       (entitled = false → e = PermissionDeniedError)
       ∧ (entitled = true → Session.help_requests db !! hid = None →
          e = HelpRequestNotFoundError)
       ∧ (entitled = true →
          ∀ h, Session.help_requests db !! hid = Some h →
               HelpRequest.status h = lit "open" →
               Session.repair_requests db !! HelpRequest.request_id h = None →
               e = RequestNotFoundError)).
Proof.
  cbv zeta. split; [|split].
  - split.
    + intros Hok.
      destruct (close_help_request_outcome now db user data)
        as [[e Heq]|(h & req & nm & Hcan & Hget & Hopen & Hreq & Hdue & Hnm
                     & Heq)];
        [by rewrite Heq in Hok|].
      split; [done|].
      apply db_get_Some in Hget as (h0 & Hh0 & ->).
      apply loaded_master_id in Hreq as (r & Hr & _ & Hsd).
      exists h0, r. split; [done|]. split; [done|]. split; [done|].
      split; [by rewrite <- Hsd|].
      apply close_help_request_master_Ok. eauto.
    + intros (Hcan & h & r & Hh & Hopen & Hr & Hdue & Hm).
      apply close_help_request_master_Ok in Hm as [nm Hnm].
      unfold usecases.close_help_request. rewrite Hcan. simpl.
      unfold db_get at 1. rewrite Hh. simpl.
      rewrite bool_decide_eq_false_2 by (by intros ?).
      destruct (db_get_request db (HelpRequest.request_id h)) as [req|]
        eqn:Hreq; [|by apply db_get_request_None in Hreq; congruence].
      apply loaded_master_id in Hreq as (r' & Hr' & _ & Hsd).
      rewrite Hr in Hr'. injection Hr' as <-. rewrite Hsd, Hnm.
      destruct (HelpRequestCloseInput.new_due_date data) as [d|] eqn:Hd.
      * destruct (Hdue d eq_refl) as (sd & -> & Hle).
        rewrite bool_decide_eq_false_2 by lia. by destruct nm.
      * by destruct nm.
  - intros closed Hok.
    destruct (close_help_request_outcome now db user data)
      as [[e Heq]|(h & req & nm & Hcan & Hget & Hopen & Hreq & Hdue & Hnm
                   & Heq)];
      [by rewrite Heq in Hok|].
    rewrite Heq in Hok |- *. simpl in Hok |- *. injection Hok as <-.
    apply db_get_Some in Hget as (h0 & Hh0 & ->).
    apply db_get_request_Some in Hreq as (r & Hr & ->).
    exists h0, r. eexists. split; [done|]. split; [done|]. split; [done|].
    split; [done|].
    pose proof (ticket_after_close_columns nm
                  (HelpRequestCloseInput.new_due_date data)
                  (RepairRequest.set_status
                     (RepairRequest.status_id r
                        ≫= db_get (Session.request_statuses db))
                     (RepairRequest.set_id (Some (HelpRequest.request_id h0))
                        r)))
      as (T0 & T1 & T2 & T3 & T4 & T5 & T6 & T7 & T8).
    split.
    { simpl in *. rewrite T0, T1, T2, T3, T4, T5, T6, T7, T8.
      by destruct r. }
    split; [by destruct h0|]. done.
  - intros e He. unfold usecases.close_help_request in He.
    destruct (rbac.user_can_handle_help_request user) eqn:Hcan; simpl in He.
    2:{ injection He as <-. by repeat split. }
    split; [done|]. split.
    + intros _ Hnone. unfold db_get in He. rewrite Hnone in He.
      simpl in He. congruence.
    + intros _ h Hh Hopen Hnone. unfold db_get at 1 in He.
      rewrite Hh in He. simpl in He.
      rewrite bool_decide_eq_false_2 in He by (by intros ?).
      apply db_get_request_None in Hnone. rewrite Hnone in He.
      simpl in He. congruence.
Qed.

Lemma db_escalated_1 :
  Session.help_requests fixtures.db_escalated !! 1 = Some fixtures.help_open.
Proof. apply lookup_singleton_eq. Qed.

Lemma X19_close_help_request_decision_witness :
  is_Ok (usecases.close_help_request 738601 fixtures.db_escalated
           fixtures.quality (fixtures.close_input None (Some 738530))).1
  = true.
Proof.
  apply (proj1 (X19_close_help_request_decision 738601 fixtures.db_escalated
                  fixtures.quality
                  (fixtures.close_input None (Some 738530)))).
  split; [exact can_handle_quality|].
  exists fixtures.help_open, (fixtures.make_request 10 7 2 fixtures.st_work).
  split; [exact db_escalated_1|]. split; [reflexivity|].
  split; [exact db_ticket_10|]. split.
  - intros d [= <-]. exists 738521. split; [reflexivity|lia].
  - intros m Hm. discriminate Hm.
Defined.

(** ** Which saves go through (app/usecases.py) *)

(** The start of a save reads the statuses and the tickets only. *)
Lemma save_request_begin_ext db1 db user data :
  Session.request_statuses db1 = Session.request_statuses db →
  Session.repair_requests db1 = Session.repair_requests db →
  usecases.save_request_begin db1 user data
  = usecases.save_request_begin db user data.
Proof.
  intros Hst Hrq.
  unfold usecases.save_request_begin, usecases._resolve_new_status_for_update,
    usecases._resolve_new_status_for_create, services.get_new_request_status,
    db_get_request.
  by rewrite Hst, Hrq.
Qed.

Lemma apply_client_is_Ok user req data :
  let role := rbac.role_name (Some user) in
  is_Ok (usecases._apply_client user req data) = true ↔
  role = ROLE_CLIENT
  ∨ ((role = ROLE_MANAGER ∨ role = ROLE_OPERATOR)
     ∧ is_Some (truthy_int (RequestInput.client_id data)))
  ∨ (role ≠ ROLE_CLIENT ∧ role ≠ ROLE_MANAGER ∧ role ≠ ROLE_OPERATOR
     ∧ is_Some (RepairRequest.id req)).
Proof.
  cbv zeta. unfold usecases._apply_client. cbv zeta.
  case_bool_decide as Hc; [by split; [left|]|].
  destruct (in_ _ _) eqn:Hin.
  - apply in_true in Hin. rewrite !elem_of_cons, elem_of_nil in Hin.
    destruct (truthy_int _); simpl.
    + split; [|done]. intros _. right. left. split; [tauto|by eexists].
    + split; [done|]. intros [?|[[_ [? [=]]]|(_ & ? & ? & _)]]; tauto.
  - assert (rbac.role_name (Some user) ≠ ROLE_MANAGER
            ∧ rbac.role_name (Some user) ≠ ROLE_OPERATOR) as [Hm Ho].
    { split; intros Heq; rewrite Heq in Hin; by vm_compute in Hin. }
    destruct (RepairRequest.id req); simpl.
    + split; [|done]. intros _. right. right. by repeat split.
    + split; [done|].
      intros [?|[[[?|?] _]|(_ & _ & _ & [? [=]])]]; done.
Qed.

Lemma save_request_is_Ok today db user data :
  is_Ok (usecases.save_request today db user data).1 = true ↔
  is_Ok (usecases._resolve_equipment_and_issue db data).1 = true
  ∧ ∃ req0 ns,
      usecases.save_request_begin db user data = Ok (req0, Some ns)
      ∧ is_Ok (usecases._apply_client user req0 data) = true.
Proof.
  pose proof (resolve_equipment_and_issue_frame db data) as Hfr.
  destruct (usecases._resolve_equipment_and_issue db data)
    as [[[em it]|e0] db1] eqn:Hres.
  2:{ unfold usecases.save_request. rewrite Hres. simpl.
      split; [done|]. by intros [? _]. }
  simpl in Hfr. destruct Hfr as (Hst & _ & Hrq & _).
  rewrite (save_request_unfold _ _ _ _ _ _ _ Hres). cbv zeta.
  rewrite (save_request_begin_ext _ db user data Hst Hrq).
  destruct (usecases.save_request_begin db user data)
    as [[req0 [ns|]]|e]; simpl.
  - pose proof (save_request_gated_columns today user data em it ns
                  req0) as (G0 & _).
    assert (is_Ok (usecases._apply_client user
                     (save_request_gated today user data em it ns req0)
                     data)
            = is_Ok (usecases._apply_client user req0 data)) as Hsame.
    { apply eq_true_iff_eq. rewrite !apply_client_is_Ok. cbv zeta.
      by rewrite G0. }
    destruct (usecases._apply_client user (save_request_gated _ _ _ _ _ _ _)
                data); simpl in *.
    + split; [|done]. intros _. split; [done|]. by exists req0, ns.
    + split; [done|]. intros (_ & ? & ? & [= <- <-] & ?). congruence.
  - split; [done|]. by intros (_ & ? & ? & ? & _).
  - split; [done|]. by intros (_ & ? & ? & ? & _).
Qed.

Lemma get_new_request_status_is_Ok db :
  is_Ok (services.get_new_request_status db) = true ↔
  ∃ k st, db_get (Session.request_statuses db) k = Some st
          ∧ (named_new st ∨ RequestStatus.is_final st = false).
Proof.
  pose proof (get_new_request_status_spec db) as Hspec.
  destruct (services.get_new_request_status db) as [st|e]; simpl.
  - split; [|done]. intros _.
    destruct Hspec as (k & Hk & [Hn|(_ & Hf & _)]); eauto.
  - split; [done|]. intros (k & st & Hk & Hcase).
    destruct Hspec as [_ Hall]. destruct (Hall _ _ Hk) as [Hn Hf].
    destruct Hcase; [done|congruence].
Qed.

Lemma resolve_new_status_for_update_is_Some db user req data :
  (∃ ns, usecases._resolve_new_status_for_update db user req data
         = Ok (Some ns))
  ↔ ∃ old,
      RepairRequest.status req = Some old
      ∧ (rbac.role_name (Some user) = ROLE_CLIENT
         ∨ RequestInput.status_id data = None
         ∨ RequestInput.status_id data = Some (RequestStatus.id old)
         ∨ ∃ s new,
             RequestInput.status_id data = Some s
             ∧ db_get (Session.request_statuses db) s = Some new
             ∧ rbac.user_can_change_status user old new = true).
Proof.
  unfold usecases._resolve_new_status_for_update. cbv zeta.
  case_bool_decide as Hrole.
  { destruct (RepairRequest.status req) as [old|].
    - split; [|by eexists]. intros _. exists old. split; [done|by left].
    - split; [by intros [? [=]]|by intros (? & [=] & _)]. }
  destruct (RequestInput.status_id data) as [sid|].
  2:{ destruct (RepairRequest.status req) as [old|].
      - split; [|by eexists]. intros _. exists old. split; [done|].
        right. by left.
      - split; [by intros [? [=]]|by intros (? & [=] & _)]. }
  destruct (RepairRequest.status req) as [old|];
    [|split; [by intros [? [=]]|by intros (? & [=] & _)]].
  case_bool_decide as Hsame.
  { split; [|by eexists]. intros _. exists old. split; [done|].
    right. right. left. by rewrite Hsame. }
  destruct (db_get (Session.request_statuses db) sid) as [new|] eqn:Hnew.
  2:{ split; [by intros [? [=]]|].
      intros (old' & [= <-] & [?|[[=]|[[= ?]|(s & new & [= <-] & Hs & _)]]]);
        congruence. }
  destruct (rbac.user_can_change_status user old new) eqn:Hcan; simpl.
  - split; [|by eexists]. intros _. exists old. split; [done|].
    right. right. right. by exists sid, new.
  - split; [by intros [? [=]]|].
    intros (old' & [= <-] & [?|[[=]|[[= ?]|(s & new' & [= <-] & Hs & Hc)]]]).
    + by destruct Hrole.
    + congruence.
    + congruence.
Qed.

Lemma save_request_begin_create_Some db user data :
  RequestInput.id data = None →
  let role := rbac.role_name (Some user) in
  (∃ req0 ns, usecases.save_request_begin db user data = Ok (req0, Some ns)
              ∧ is_Ok (usecases._apply_client user req0 data) = true)
  ↔ (role = ROLE_CLIENT
     ∧ is_Ok (services.get_new_request_status db) = true)
    ∨ ((role = ROLE_MANAGER ∨ role = ROLE_OPERATOR)
       ∧ (∃ s, RequestInput.status_id data = Some s
               ∧ is_Some (Session.request_statuses db !! s))
       ∧ is_Some (truthy_int (RequestInput.client_id data))).
Proof.
  intros Hid. cbv zeta.
  unfold usecases.save_request_begin. rewrite Hid.
  unfold rbac.user_can_create_request, usecases._resolve_new_status_for_create.
  cbv zeta.
  assert (is_Ok (usecases._apply_client user RepairRequest.new data)
                = true ↔
                rbac.role_name (Some user) = ROLE_CLIENT
                ∨ ((rbac.role_name (Some user) = ROLE_MANAGER
                    ∨ rbac.role_name (Some user) = ROLE_OPERATOR)
                   ∧ is_Some (truthy_int (RequestInput.client_id data))))
    as Hclient.
  { rewrite apply_client_is_Ok. cbv zeta. simpl.
    split; [|tauto]. intros [?|[?|(_ & _ & _ & [? [=]])]]; tauto. }
  set (role := rbac.role_name (Some user)) in *.
  split.
  - intros (req0 & ns & Hbegin & Hok).
    destruct (in_ role _) eqn:Hin; simpl in Hbegin; [|done].
    case_bool_decide as Hc.
    + left. split; [done|].
      by destruct (services.get_new_request_status db).
    + destruct (RequestInput.status_id data) as [s|]; [|done].
      destruct (db_get (Session.request_statuses db) s) as [st|] eqn:Hst;
        [|done].
      simpl in Hbegin. injection Hbegin as <- <-.
      apply Hclient in Hok as [?|[Hrole Hcl]]; [done|].
      right. split; [done|]. split; [|done].
      exists s. split; [done|]. by eapply db_get_is_Some.
  - intros [[Hrole Hnew]|(Hrole & (s & Hs & [st Hst]) & Hcl)].
    + rewrite Hrole. eval_roles.
      destruct (services.get_new_request_status db) as [ns|]; [|done].
      exists RepairRequest.new, ns. split; [done|].
      apply Hclient. by left.
    + assert (in_ role
                [ROLE_MANAGER; ROLE_OPERATOR; ROLE_QUALITY_MANAGER;
                 ROLE_CLIENT] = true) as ->.
      { apply in_true. rewrite !elem_of_cons. tauto. }
      rewrite bool_decide_eq_false_2
        by (destruct Hrole as [-> | ->]; role_neq).
      rewrite Hs. unfold db_get. rewrite Hst. simpl.
      eexists _, _. split; [done|]. apply Hclient. by right.
Qed.

Lemma save_request_begin_edit_Some db user data k :
  RequestInput.id data = Some k →
  let role := rbac.role_name (Some user) in
  (∃ req0 ns, usecases.save_request_begin db user data = Ok (req0, Some ns)
              ∧ is_Ok (usecases._apply_client user req0 data) = true)
  ↔ ∃ req old,
      db_get_request db k = Some req
      ∧ RepairRequest.status req = Some old
      ∧ rbac.user_can_edit_request user req = Ok true
      ∧ (role = ROLE_CLIENT
         ∨ RequestInput.status_id data = None
         ∨ RequestInput.status_id data = Some (RequestStatus.id old)
         ∨ ∃ s new,
             RequestInput.status_id data = Some s
             ∧ db_get (Session.request_statuses db) s = Some new
             ∧ rbac.user_can_change_status user old new = true)
      ∧ (role = ROLE_MANAGER ∨ role = ROLE_OPERATOR →
         is_Some (truthy_int (RequestInput.client_id data))).
Proof.
  intros Hid. cbv zeta.
  assert (∀ req, db_get_request db k = Some req →
                 (is_Ok (usecases._apply_client user req data) = true ↔
                  (rbac.role_name (Some user) = ROLE_MANAGER
                   ∨ rbac.role_name (Some user) = ROLE_OPERATOR →
                   is_Some (truthy_int (RequestInput.client_id data)))))
    as Hclient.
  { intros req [Hk _]%loaded_request_fields.
    rewrite apply_client_is_Ok. cbv zeta. rewrite Hk.
    set (role := rbac.role_name (Some user)).
    destruct (decide (role = ROLE_CLIENT)) as [Hc|Hc].
    { split; [|by left]. intros _ [Hm|Ho]; exfalso; rewrite Hc in *.
      - revert Hm. role_neq.
      - revert Ho. role_neq. }
    destruct (decide (role = ROLE_MANAGER)) as [Hm|Hm]; [tauto|].
    destruct (decide (role = ROLE_OPERATOR)) as [Ho|Ho]; [tauto|].
    split; [tauto|]. intros _. right. right. by repeat split. }
  unfold usecases.save_request_begin. rewrite Hid.
  destruct (db_get_request db k) as [req|] eqn:Hreq.
  2:{ split; [by intros (? & ? & ? & _)|by intros (? & ? & ? & _)]. }
  specialize (Hclient req eq_refl).
  pose proof (resolve_new_status_for_update_is_Some db user req data)
    as Hstatus.
  destruct (rbac.user_can_edit_request user req) as [[]|e] eqn:Hedit; simpl.
  - split.
    + intros (req0 & ns & Hbegin & Hok).
      destruct (usecases._resolve_new_status_for_update db user req data)
        as [ns'|] eqn:Hres; [|done].
      simpl in Hbegin. injection Hbegin as <- ->.
      destruct (proj1 Hstatus) as (old & Hold & Hcase); [by eexists|].
      exists req, old. split; [done|]. split; [done|]. split; [done|].
      split; [done|]. by apply Hclient.
    + intros (req' & old & [= <-] & Hold & _ & Hcase & Hcl).
      destruct (proj2 Hstatus) as [ns Hns]; [by exists old|].
      rewrite Hns. simpl. exists req, ns. split; [done|]. by apply Hclient.
  - split; [by intros (? & ? & ? & _)|].
    intros (? & ? & [= <-] & _ & ? & _). congruence.
  - split; [by intros (? & ? & ? & _)|].
    intros (? & ? & [= <-] & _ & ? & _). congruence.
Qed.

(** X20. Which saves go through.  Every save that goes through has
    its equipment model accepted: a model of the submitted equipment
    type and trimmed name is stored already, or the trimmed name has
    200 code points at most and the equipment type is stored.  With
    that, a creation succeeds exactly for a Client, when the store has
    a status named for new tickets or any non-final status, and for a
    Manager or Operator who submits the id of a stored status and a
    client id other than 0.  An update succeeds exactly when, besides,
    the ticket exists and has a stored status, the actor may edit it,
    the status is kept (the actor is a Client, or submits no status or
    the current one) or the submitted status is stored and
    [user_can_change_status] admits the move, and a Manager or Operator
    submits a client id other than 0. *)
Theorem X20_save_request_decision
    (today : date) (db : Session.t) (user : User.t) (data : RequestInput.t) :
  let role := rbac.role_name (Some user) in
  let out := usecases.save_request today db user data in
  let statuses := Session.request_statuses db in
  let name := strip (RequestInput.equipment_model_name data) in
  let accepted :=
    (∃ k m, Session.equipment_models db !! k = Some m
            ∧ EquipmentModel.equipment_type_id m
              = RequestInput.equipment_type_id data
            ∧ EquipmentModel.name m = name)
    ∨ ((List.length name ≤ 200)%nat
       ∧ is_Some (Session.equipment_types db
                    !! RequestInput.equipment_type_id data)) in
  (RequestInput.id data = None →
   (is_Ok out.1 = true ↔
      accepted
      ∧ ((role = ROLE_CLIENT
          ∧ ∃ k st, db_get statuses k = Some st
                    ∧ (named_new st ∨ RequestStatus.is_final st = false))
         ∨ ((role = ROLE_MANAGER ∨ role = ROLE_OPERATOR)
            ∧ (∃ s, RequestInput.status_id data = Some s
                    ∧ is_Some (statuses !! s))
            ∧ is_Some (truthy_int (RequestInput.client_id data))))))
  ∧ (∀ k, RequestInput.id data = Some k →
     (is_Ok out.1 = true ↔
        accepted
        ∧ ∃ req old,
            db_get_request db k = Some req
            ∧ RepairRequest.status req = Some old
            ∧ rbac.user_can_edit_request user req = Ok true
            ∧ (role = ROLE_CLIENT
               ∨ RequestInput.status_id data = None
               ∨ RequestInput.status_id data = Some (RequestStatus.id old)
               ∨ ∃ s new,
                   RequestInput.status_id data = Some s
                   ∧ db_get statuses s = Some new
                   ∧ rbac.user_can_change_status user old new = true)
            ∧ (role = ROLE_MANAGER ∨ role = ROLE_OPERATOR →
               is_Some (truthy_int (RequestInput.client_id data))))).
Proof.
  cbv zeta. split.
  - intros Hid. rewrite save_request_is_Ok.
    rewrite resolve_equipment_and_issue_Ok.
    rewrite get_or_create_equipment_model_is_Ok.
    rewrite (save_request_begin_create_Some db user data Hid). cbv zeta.
    by rewrite get_new_request_status_is_Ok.
  - intros k Hid. rewrite save_request_is_Ok.
    rewrite resolve_equipment_and_issue_Ok.
    rewrite get_or_create_equipment_model_is_Ok.
    by rewrite (save_request_begin_edit_Some db user data k Hid).
Qed.

Lemma db_statuses_new :
  db_get (Session.request_statuses fixtures.db_statuses) 1
  = Some fixtures.st_new.
Proof. vm_compute. reflexivity. Qed.

Lemma db_statuses_equipment_type :
  Session.equipment_types fixtures.db_statuses !! 1
  = Some (EquipmentType.mk 1 (lit "Кондиционер")).
Proof. apply lookup_singleton_eq. Qed.

Lemma X20_save_request_decision_witness :
  is_Ok (usecases.save_request 738525 fixtures.db_statuses fixtures.client
           (fixtures.new_ticket None None)).1 = true.
Proof.
  apply (proj1 (X20_save_request_decision 738525 fixtures.db_statuses
                  fixtures.client (fixtures.new_ticket None None))).
  - reflexivity.
  - split.
    + right. split; [vm_compute; lia|].
      eexists. exact db_statuses_equipment_type.
    + left. split; [exact role_of_client|].
      exists 1, fixtures.st_new. split; [exact db_statuses_new|].
      left. reflexivity.
Defined.

(** ** The exceptions of the engine (app/usecases.py, app/main.py) *)

Lemma loaded_status_is_Some db k req :
  tickets_well_formed db → db_get_request db k = Some req →
  is_Some (RepairRequest.status req)
  ∧ is_Some (RepairRequest.start_date req).
Proof.
  intros Hinv (r & Hr & ->)%db_get_request_Some.
  destruct (Hinv _ _ Hr) as (H1 & _ & _ & _ & _ & H6). simpl.
  split; [|by destruct r].
  destruct (RepairRequest.status_id r) as [s|]; [|by destruct H6].
  simpl in *. unfold db_get. destruct H6 as [st ->]. by eexists.
Qed.

Lemma user_can_edit_request_total user req :
  is_Some (RepairRequest.status req) →
  ∃ b, rbac.user_can_edit_request user req = Ok b.
Proof.
  intros [st Hst]. unfold rbac.user_can_edit_request. cbv zeta.
  rewrite Hst. repeat case_match; by eexists.
Qed.

Lemma apply_client_raises user req data e :
  usecases._apply_client user req data = Raise e →
  e = BusinessRuleViolationError.
Proof.
  unfold usecases._apply_client. cbv zeta.
  repeat case_match; congruence.
Qed.

Lemma save_request_begin_raises db user data e :
  tickets_well_formed db →
  usecases.save_request_begin db user data = Raise e →
  is_DomainError e = true
  ∨ (e = RuntimeError
     ∧ rbac.role_name (Some user) = ROLE_CLIENT
     ∧ RequestInput.id data = None
     ∧ ∀ k st, db_get (Session.request_statuses db) k = Some st →
               ¬ named_new st ∧ RequestStatus.is_final st = true).
Proof.
  intros Hinv. unfold usecases.save_request_begin.
  destruct (RequestInput.id data) as [k|] eqn:Hid.
  - destruct (db_get_request db k) as [req|] eqn:Hreq;
      [|intros [= <-]; by left].
    destruct (loaded_status_is_Some _ _ _ Hinv Hreq) as [[old Hold] _].
    destruct (user_can_edit_request_total user req) as [b ->]; [by eexists|].
    simpl. destruct b; simpl; [|intros [= <-]; by left].
    unfold usecases._resolve_new_status_for_update. cbv zeta. rewrite Hold.
    repeat case_match; simpl; intros [= <-]; by left.
  - destruct (rbac.user_can_create_request user); simpl;
      [|intros [= <-]; by left].
    unfold usecases._resolve_new_status_for_create. cbv zeta.
    case_bool_decide as Hrole.
    + pose proof (get_new_request_status_spec db) as Hspec.
      destruct (services.get_new_request_status db) as [st|e']; [done|].
      simpl. intros [= <-]. destruct Hspec as [-> Hall]. by right.
    + repeat case_match; simpl; intros [= <-]; by left.
Qed.

Lemma save_request_raises today db user data e :
  tickets_well_formed db →
  (usecases.save_request today db user data).1 = Raise e →
  is_DomainError e = true
  ∨ (is_SQLAlchemyError e = true
     ∧ (services.get_or_create_equipment_model db
          (RequestInput.equipment_type_id data)
          (RequestInput.equipment_model_name data)).1 = Raise e)
  ∨ (e = RuntimeError
     ∧ rbac.role_name (Some user) = ROLE_CLIENT
     ∧ RequestInput.id data = None
     ∧ ∀ k st, db_get (Session.request_statuses db) k = Some st →
               ¬ named_new st ∧ RequestStatus.is_final st = true).
Proof.
  intros Hinv.
  pose proof (resolve_equipment_and_issue_frame db data) as Hfr.
  destruct (usecases._resolve_equipment_and_issue db data)
    as [[[em it]|e0] db1] eqn:Hres.
  2:{ destruct (resolve_equipment_and_issue_Raise db data e0)
        as (_ & Hsql & Hgoc); [by rewrite Hres|].
      unfold usecases.save_request. rewrite Hres. simpl.
      intros [= <-]. right. by left. }
  simpl in Hfr. destruct Hfr as (Hst & _ & Hrq & _).
  rewrite (save_request_unfold _ _ _ _ _ _ _ Hres). cbv zeta.
  rewrite (save_request_begin_ext _ db user data Hst Hrq).
  destruct (usecases.save_request_begin db user data)
    as [[req0 [ns|]]|e'] eqn:Hbegin; simpl.
  - destruct (usecases._apply_client _ _ _) as [reqc|e'] eqn:Hc; [done|].
    simpl. intros [= <-]. apply apply_client_raises in Hc as ->. by left.
  - exfalso. destruct (RequestInput.id data) as [k|] eqn:Hid.
    + destruct (save_request_begin_edit _ _ _ _ _ _ Hid Hbegin) as [Hl _].
      pose proof (save_request_begin_edit_status _ _ _ _ _ _ Hid Hbegin)
        as Hnew.
      destruct (loaded_status_is_Some _ _ _ Hinv Hl) as [[old Hold] _].
      unfold usecases._resolve_new_status_for_update in Hnew.
      cbv zeta in Hnew. rewrite Hold in Hnew.
      repeat case_match; simplify_eq/=.
    + unfold usecases.save_request_begin in Hbegin. rewrite Hid in Hbegin.
      destruct (rbac.user_can_create_request user); simpl in Hbegin; [|done].
      by destruct (usecases._resolve_new_status_for_create db user data).
  - intros [= <-].
    destruct (save_request_begin_raises _ _ _ _ Hinv Hbegin) as [?|?];
      [by left|by right; right].
Qed.

Lemma close_help_request_raises now db user data e :
  tickets_well_formed db → users_have_roles db →
  (usecases.close_help_request now db user data).1 = Raise e →
  is_DomainError e = true.
Proof.
  intros Hinv Hroles. unfold usecases.close_help_request.
  destruct (rbac.user_can_handle_help_request user); simpl;
    [|by intros [= <-]].
  destruct (db_get (Session.help_requests db) _) as [h|];
    [|by intros [= <-]].
  case_bool_decide; [by intros [= <-]|].
  destruct (db_get_request db (HelpRequest.request_id h)) as [req|] eqn:Hreq;
    [|by intros [= <-]].
  destruct (loaded_status_is_Some _ _ _ Hinv Hreq) as [_ [sd Hsd]].
  rewrite Hsd.
  assert (∀ e', usecases.close_help_request_master db data = Raise e' →
                is_DomainError e' = true) as Hmaster.
  { intros e'. unfold usecases.close_help_request_master.
    destruct (HelpRequestCloseInput.assigned_master_id data) as [m|];
      [|done].
    destruct (db_get (Session.users db) m) as [u|] eqn:Hu;
      [|by intros [= <-]].
    apply db_get_Some in Hu as (u0 & Hu0 & ->).
    destruct (Hroles _ _ Hu0) as [role Hrole]. simpl. rewrite Hrole.
    destruct (is_master_role _); simpl; [done|by intros [= <-]]. }
  destruct (HelpRequestCloseInput.new_due_date data) as [d|].
  - case_bool_decide; [by intros [= <-]|].
    destruct (usecases.close_help_request_master db data) as [[m|]|e'];
      simpl; [done..|]. intros [= <-]. by apply Hmaster.
  - destruct (usecases.close_help_request_master db data) as [[m|]|e'];
      simpl; [done..|]. intros [= <-]. by apply Hmaster.
Qed.

Lemma raised_on_well_formed op db e :
  tickets_well_formed db → users_have_roles db →
  raised op db = Some e →
  is_DomainError e = true
  ∨ (is_SQLAlchemyError e = true ∧ equipment_model_refused op db e)
  ∨ (e = RuntimeError ∧ client_create_without_status op db).
Proof.
  intros Hinv Hroles.
  destruct op as [today u d|u k|u k m|u d|now u d]; simpl.
  - destruct (usecases.save_request today db u d).1 as [req|e'] eqn:Hout;
      [done|].
    intros [= <-].
    destruct (save_request_raises _ _ _ _ _ Hinv Hout)
      as [?|[[Hsql Hgoc]|(-> & Hrole & Hid & Hall)]]; [by left| |].
    + right. left. split; [done|]. by exists today, u, d.
    + right. right. split; [done|]. by exists today, u, d.
  - destruct (delete_request_outcome db u k) as [[e' Heq]|Heq];
      rewrite Heq; [|done].
    unfold usecases.delete_request in Heq.
    repeat case_match; simplify_eq/=; intros [= <-]; by left.
  - unfold usecases.add_comment.
    repeat case_match; simplify_eq/=; try done; intros [= <-]; by left.
  - unfold usecases.create_help_request.
    repeat case_match; simplify_eq/=; try done; intros [= <-]; by left.
  - destruct (usecases.close_help_request now db u d).1 as [h|e'] eqn:Hout;
      [done|].
    intros [= <-]. left. by eapply close_help_request_raises.
Qed.

(** X21. The exceptions of the engine.  In a store whose tickets
    satisfy the constraints of the schema and whose users have roles,
    every exception a use case raises is one of three.  It is a
    [DomainError], which the callers in main.py catch and turn into a
    rollback and a message, and which carries a code.  Or it is an
    exception of the database ([IntegrityError] or [DataError], both
    under [SQLAlchemyError], which the callers catch as well), raised
    by a save whose equipment model the flush refuses.  Or it is the
    [RuntimeError] of a Client's creation when the store has no status
    for a new ticket, which no caller catches.  This holds in every
    store the engine reaches, since no operation touches the users. *)
Theorem X21_exceptions_of_the_engine :
  (∀ op db e,
     tickets_well_formed db → users_have_roles db →
     raised op db = Some e →
     (is_DomainError e = true ∧ is_Some (code e))
     ∨ (is_SQLAlchemyError e = true ∧ equipment_model_refused op db e)
     ∨ (e = RuntimeError ∧ client_create_without_status op db))
  ∧ (∀ op db,
       users_have_roles db →
       users_have_roles (run op db) ∧ users_have_roles (transaction op db))
  ∧ (∀ op db e,
       reachable db → users_have_roles db →
       raised op db = Some e →
       (is_DomainError e = true ∧ is_Some (code e))
       ∨ (is_SQLAlchemyError e = true ∧ equipment_model_refused op db e)
       ∨ (e = RuntimeError ∧ client_create_without_status op db)).
Proof.
  assert (∀ e, is_DomainError e = true → is_Some (code e)) as Hcode
    by (by intros []).
  assert (∀ op db, Session.users (run op db) = Session.users db) as Husers.
  { intros op db. destruct op as [today u d|u k|u k m|u d|now u d]; simpl.
    - by destruct (save_request_tables today db u d) as (_ & ? & _).
    - by destruct (delete_request_outcome db u k) as [[e ->]| ->].
    - by destruct (add_comment_outcome db u k m) as [[e ->]|(c & tbl & ->)].
    - by destruct (create_help_request_outcome db u d)
        as [[e ->]|(req & _ & _ & _ & _ & _ & ->)].
    - by destruct (close_help_request_outcome now db u d)
        as [[e ->]|(h & req & nm & _ & _ & _ & _ & _ & _ & ->)]. }
  split; [|split].
  - intros op db e Hinv Hroles Hraised.
    destruct (raised_on_well_formed _ _ _ Hinv Hroles Hraised) as [?|?];
      [left|by right].
    split; [done|by apply Hcode].
  - intros op db Hroles. split.
    + intros k u. rewrite Husers. apply Hroles.
    + unfold transaction. destruct (succeeds op db); [|done].
      intros k u. rewrite Husers. apply Hroles.
  - intros op db e Hreach Hroles Hraised.
    assert (tickets_well_formed db) as Hinv.
    { clear Hroles Hraised.
      induction Hreach as [db (Hrr & _)|op' db _ IH|op' db _ IH].
      - intros k r. rewrite Hrr, lookup_empty. done.
      - by apply run_preserves_tickets_well_formed.
      - unfold transaction. destruct (succeeds op' db); [|done].
        by apply run_preserves_tickets_well_formed. }
    destruct (raised_on_well_formed _ _ _ Hinv Hroles Hraised) as [?|?];
      [left|by right].
    split; [done|by apply Hcode].
Qed.

Lemma db_statuses_users_have_roles : users_have_roles fixtures.db_statuses.
Proof. intros k u H. unfold fixtures.db_statuses in H. simpl in H. done. Qed.

Lemma unknown_equipment_type_raised :
  raised (SaveRequest 738525 fixtures.manager fixtures.unknown_type_ticket)
    fixtures.db_statuses
  = Some IntegrityError.
Proof. vm_compute. reflexivity. Qed.

Lemma X21_exceptions_of_the_engine_witness :
  let op :=
    SaveRequest 738525 fixtures.manager fixtures.unknown_type_ticket in
  (is_DomainError IntegrityError = true ∧ is_Some (code IntegrityError))
  ∨ (is_SQLAlchemyError IntegrityError = true
     ∧ equipment_model_refused op fixtures.db_statuses IntegrityError)
  ∨ (IntegrityError = RuntimeError
     ∧ client_create_without_status op fixtures.db_statuses).
Proof.
  exact (proj1 X21_exceptions_of_the_engine _
           fixtures.db_statuses IntegrityError
           db_statuses_well_formed db_statuses_users_have_roles
           unknown_equipment_type_raised).
Defined.

(** ** Statistics (app/services.py) *)

Lemma str_le_refl a : str_le a a = true.
Proof.
  induction a as [|x a IH]; [done|]. simpl.
  by rewrite N.ltb_irrefl, N.eqb_refl.
Qed.

Lemma str_le_total a b : str_le a b = true ∨ str_le b a = true.
Proof.
  revert b. induction a as [|x a IH]; intros [|y b]; simpl; try by eauto.
  destruct (N.ltb_spec x y), (N.ltb_spec y x), (N.eqb_spec x y),
    (N.eqb_spec y x); try lia; eauto.
Qed.

Lemma str_le_trans a b c :
  str_le a b = true → str_le b c = true → str_le a c = true.
Proof.
  revert b c. induction a as [|x a IH]; intros [|y b] [|z c]; simpl;
    try done.
  destruct (N.ltb_spec x y), (N.ltb_spec y z), (N.ltb_spec x z),
    (N.eqb_spec x y), (N.eqb_spec y z), (N.eqb_spec x z);
    try done; try lia.
  apply IH.
Qed.

Lemma str_le_antisym a b :
  str_le a b = true → str_le b a = true → a = b.
Proof.
  revert b. induction a as [|x a IH]; intros [|y b]; simpl; try done.
  destruct (N.ltb_spec x y), (N.ltb_spec y x), (N.eqb_spec x y),
    (N.eqb_spec y x); try done; try lia.
  intros H1 H2. f_equal; [done|by apply IH].
Qed.

#[local] Instance by_count_then_name_total : Total by_count_then_name.
Proof.
  intros [a n] [b m]. unfold by_count_then_name. simpl.
  destruct (Z.lt_trichotomy n m) as [?|[->|?]].
  - right. left. lia.
  - destruct (str_le_total a b); [left|right]; by right.
  - left. left. lia.
Qed.

#[local] Instance by_count_then_name_trans : Transitive by_count_then_name.
Proof.
  intros [a n] [b m] [c k]. unfold by_count_then_name. simpl.
  intros [?|[? Hab]] [?|[? Hbc]]; [left; lia..|].
  right. split; [lia|]. by eapply str_le_trans.
Qed.

(** Sorting keeps the items and puts them in order. *)
Lemma sorted_items_spec d :
  sorted_items d ≡ₚ d ∧ StronglySorted by_count_then_name (sorted_items d).
Proof.
  split; [apply merge_sort_Permutation|].
  apply StronglySorted_merge_sort; apply _.
Qed.

Lemma dict_incr_keys k d :
  (dict_incr k d).*1 = if bool_decide (k ∈ d.*1) then d.*1 else d.*1 ++ [k].
Proof.
  induction d as [|[k' n] d IH]; csimpl; [done|].
  destruct (decide (k' = k)) as [->|Hne].
  - rewrite !bool_decide_eq_true_2; [done|left|done].
  - rewrite (bool_decide_eq_false_2 (k' = k)) by done. csimpl. rewrite IH.
    destruct (decide (k ∈ d.*1)) as [Hin|Hin].
    + rewrite !bool_decide_eq_true_2; [done|by right|done].
    + rewrite !bool_decide_eq_false_2; [done| |done].
      rewrite elem_of_cons. intros [?|?]; [congruence|done].
Qed.

Lemma dict_incr_NoDup k d : NoDup d.*1 → NoDup (dict_incr k d).*1.
Proof.
  intros Hd. rewrite dict_incr_keys. case_bool_decide as Hk; [done|].
  apply NoDup_app. split; [done|]. split.
  - intros x Hx ->%list_elem_of_singleton. done.
  - apply NoDup_singleton.
Qed.

Lemma dict_incr_sum k d :
  foldr Z.add 0 (dict_incr k d).*2 = foldr Z.add 0 d.*2 + 1.
Proof.
  induction d as [|[k' n] d IH]; csimpl; [done|].
  case_bool_decide; csimpl; lia.
Qed.

(** The count of [k] goes up by one, from 0 if [k] was not a key; the
    other counts stay. *)
Lemma dict_incr_elem_of k d k' n :
  NoDup d.*1 →
  (k', n) ∈ dict_incr k d ↔
  (k' ≠ k ∧ (k', n) ∈ d)
  ∨ (k' = k ∧ ((k, n - 1) ∈ d ∨ (n = 1 ∧ k ∉ d.*1))).
Proof.
  induction d as [|[k0 n0] d IH]; csimpl; intros Hd.
  - rewrite list_elem_of_singleton. split.
    + intros [= -> ->]. right. split; [done|]. right.
      split; [done|apply not_elem_of_nil].
    + intros [[_ []%elem_of_nil]|[-> [[]%elem_of_nil|[-> _]]]]. done.
  - apply NoDup_cons in Hd as [Hk0 Hd]. specialize (IH Hd).
    assert (∀ m, (k0, m) ∈ d → False) as Hnot0.
    { intros m Hm. destruct Hk0. apply list_elem_of_fmap. by exists (k0, m). }
    destruct (decide (k0 = k)) as [->|Hk].
    + rewrite bool_decide_eq_true_2 by done. rewrite !elem_of_cons. split.
      * intros [[= -> ->]|Hin].
        -- right. split; [done|]. left. left. f_equal. lia.
        -- destruct (decide (k' = k)) as [->|Hne]; [|left; eauto].
           by destruct (Hnot0 n).
      * intros [[Hne [[= ? ?]|Hin]]|[-> [[[= ?]|Hin]|[-> Hnot]]]].
        -- done.
        -- by right.
        -- left. f_equal. lia.
        -- by destruct (Hnot0 (n - 1)).
        -- destruct Hnot. by left.
    + rewrite bool_decide_eq_false_2 by done.
      rewrite !elem_of_cons, IH. split.
      * intros [[= -> ->]|[[Hne Hin]|[-> Hcase]]].
        -- left. split; [done|by left].
        -- left. split; [done|by right].
        -- right. split; [done|].
           destruct Hcase as [Hin|[-> Hnot]]; [left; by right|].
           right. split; [done|]. intros [?|?]; [congruence|done].
      * intros [[Hne [[= -> ->]|Hin]]|[-> [[[= ? ?]|Hin]|[-> Hnot]]]].
        -- by left.
        -- right. left. done.
        -- done.
        -- right. right. split; [done|by left].
        -- right. right. split; [done|]. right. split; [done|].
           intros ?. apply Hnot. by right.
Qed.
(** The counts of a [dict] filled by [dict_incr], one call per row. *)
Lemma dict_counts (name : RequestRow.t → str) (rows : list RequestRow.t) :
  let d := foldl (λ d r, dict_incr (name r) d) [] rows in
  NoDup d.*1
  ∧ foldr Z.add 0 d.*2 = Z.of_nat (List.length rows)
  ∧ ∀ k n, (k, n) ∈ d ↔
           0 < n
           ∧ n = Z.of_nat (List.length (filter (λ r, name r = k) rows)).
Proof.
  cbv zeta. induction rows as [|x rows IH] using rev_ind.
  - simpl. split; [apply NoDup_nil_2|]. split; [done|].
    intros k n. rewrite elem_of_nil. lia.
  - rewrite foldl_snoc. destruct IH as (Hnd & Hsum & Hcount).
    set (d := foldl (λ d r, dict_incr (name r) d) [] rows) in *.
    split; [by apply dict_incr_NoDup|]. split.
    { rewrite dict_incr_sum, Hsum, length_app. simpl. lia. }
    assert (∀ k, k ∈ d.*1 ↔
                 0 < Z.of_nat (List.length (filter (λ r, name r = k) rows)))
      as Hkey.
    { intros k. rewrite list_elem_of_fmap. split.
      - intros ([k' n] & -> & Hin). apply Hcount in Hin. simpl. lia.
      - intros Hpos. eexists (k, _). split; [done|]. by apply Hcount. }
    intros k n. rewrite (dict_incr_elem_of _ _ _ _ Hnd).
    rewrite filter_app, length_app, !Hcount, Hkey.
    destruct (decide (name x = k)) as [Hx|Hx].
    + rewrite filter_cons_True by done. rewrite filter_nil. simpl.
      subst k.
      set (c := Z.of_nat (List.length (filter (λ r, name r = name x) rows))).
      assert (0 ≤ c) by (unfold c; lia).
      rewrite Nat2Z.inj_add. fold c. clearbody c. simpl. split.
      * intros [[? _]|[_ ?]]; [done|lia].
      * intros ?. right. split; [done|lia].
    + rewrite filter_cons_False by done. rewrite filter_nil. simpl.
      rewrite Nat.add_0_r.
      split; [intros [[_ ?]|[? _]]; [done|congruence]|].
      intros ?. left. split; [congruence|done].
Qed.

Lemma count_rows_spec (rows : list RequestRow.t) :
  let acc := foldl count_row (Counters.mk 0 0 [] [] []) rows in
  Counters.total_requests acc = Z.of_nat (List.length rows)
  ∧ Counters.completed_requests acc
    = Z.of_nat (List.length (filter is_completed rows))
  ∧ Counters.durations_days acc = omap repair_days rows
  ∧ Counters.by_equipment_type acc
    = foldl (λ d r, dict_incr (display_name (RequestRow.equipment_type r)) d)
        [] rows
  ∧ Counters.by_issue_type acc
    = foldl (λ d r, dict_incr (display_name (RequestRow.issue_type r)) d)
        [] rows.
Proof.
  cbv zeta. induction rows as [|x rows IH] using rev_ind; [done|].
  rewrite !foldl_snoc, filter_app, omap_app, !length_app.
  destruct IH as (H1 & H2 & H3 & H4 & H5).
  set (acc := foldl count_row (Counters.mk 0 0 [] [] []) rows) in *.
  unfold count_row. rewrite <- H4, <- H5.
  unfold repair_days at 2. simpl.
  destruct (RequestRow.status_is_final x) eqn:Hfin.
  2:{ rewrite filter_cons_False by (by intros [? _]; congruence).
      simpl. rewrite app_nil_r. repeat split; simpl; try done; lia. }
  destruct (RequestRow.completion_date x) as [c|] eqn:Hc; simpl.
  2:{ rewrite filter_cons_False by (by intros [_ [? ?]]; congruence).
      simpl. rewrite app_nil_r. repeat split; simpl; try done; lia. }
  rewrite filter_cons_True by (split; [done|by rewrite Hc]).
  simpl.
  destruct (decide (c - RequestRow.start_date x < 0)) as [Hneg|Hpos].
  - rewrite bool_decide_eq_true_2 by done.
    rewrite bool_decide_eq_false_2 by lia.
    simpl. rewrite app_nil_r. repeat split; simpl; try done; lia.
  - rewrite bool_decide_eq_false_2 by done.
    rewrite bool_decide_eq_true_2 by lia.
    simpl. repeat split; simpl; try done; try lia. by rewrite H3.
Qed.
Lemma StronglySorted_lookup {A} (R : relation A) l i j a b :
  StronglySorted R l → l !! i = Some a → l !! j = Some b → (i < j)%nat →
  R a b.
Proof.
  intros Hs. revert i j. induction Hs as [|x l Hs IH Hall]; intros i j.
  - by rewrite lookup_nil.
  - destruct i as [|i], j as [|j]; simpl; try lia.
    + intros [= <-] Hb _. rewrite Forall_forall in Hall.
      apply Hall. by eapply list_elem_of_lookup_2.
    + intros Ha Hb Hlt. apply (IH i j); [done..|lia].
Qed.

Lemma display_name_trimmed name :
  display_name name ≠ [] ∧ strip (display_name name) = display_name name.
Proof.
  unfold display_name. destruct (strip name) as [|c s] eqn:Hs.
  - split; [by vm_compute|]. by vm_compute.
  - split; [done|]. rewrite <- Hs. apply strip_strip.
Qed.

Lemma sum_Permutation (l1 l2 : list Z) :
  l1 ≡ₚ l2 → foldr Z.add 0 l1 = foldr Z.add 0 l2.
Proof. induction 1; simpl; lia. Qed.

Lemma sum_nonneg (l : list Z) :
  Forall (λ d, 0 ≤ d) l → 0 ≤ foldr Z.add 0 l.
Proof. induction 1; simpl; lia. Qed.

Lemma breakdown_of_sorted rows name :
  let d :=
    sorted_items (foldl (λ d r, dict_incr (display_name (name r)) d) [] rows)
  in
  breakdown_of rows name d
  ∧ foldr Z.add 0 d.*2 = Z.of_nat (List.length rows).
Proof.
  cbv zeta.
  pose proof (dict_counts (λ r, display_name (name r)) rows)
    as (Hnd & Hsum & Hcount).
  cbv zeta in Hnd, Hsum, Hcount.
  set (d := foldl (λ d r, dict_incr (display_name (name r)) d) [] rows) in *.
  destruct (sorted_items_spec d) as [Hperm Hsorted].
  split; [split; [|split]|].
  - by rewrite Hperm.
  - intros k n. rewrite Hperm. apply Hcount.
  - intros i j a b Ha Hb Hlt.
    pose proof (StronglySorted_lookup _ _ _ _ _ _ Hsorted Ha Hb Hlt) as Hab.
    unfold by_count_then_name in Hab.
    destruct Hab as [?|[? ?]]; [left; lia|right; split; [lia|done]].
  - rewrite <- Hsum. apply sum_Permutation. by rewrite Hperm.
Qed.

(** X22. The two breakdowns of the statistics.  [by_equipment_type]
    and [by_issue_type] have one item for each name that occurs among
    the rows, a blank name counting as "not given", with the number of
    rows under that name; the names are trimmed and not empty, and the
    counts of each breakdown add up to [total_requests].  The items
    come by falling count and, among equal counts, by rising name. *)
Theorem X22_statistics_breakdowns (rows : list RequestRow.t) :
  let stats := calculate_statistics_from_rows rows in
  breakdown_of rows RequestRow.equipment_type
    (Statistics.by_equipment_type stats)
  ∧ breakdown_of rows RequestRow.issue_type (Statistics.by_issue_type stats)
  ∧ foldr Z.add 0 (Statistics.by_equipment_type stats).*2
    = Statistics.total_requests stats
  ∧ foldr Z.add 0 (Statistics.by_issue_type stats).*2
    = Statistics.total_requests stats
  ∧ (∀ k n, (k, n) ∈ Statistics.by_equipment_type stats
            ∨ (k, n) ∈ Statistics.by_issue_type stats →
            k ≠ [] ∧ strip k = k).
Proof.
  cbv zeta. unfold calculate_statistics_from_rows. cbv zeta. simpl.
  pose proof (count_rows_spec rows) as (Ht & _ & _ & He & Hi).
  cbv zeta in Ht, He, Hi. rewrite Ht, He, Hi.
  destruct (breakdown_of_sorted rows RequestRow.equipment_type)
    as [Hbe Hse].
  destruct (breakdown_of_sorted rows RequestRow.issue_type) as [Hbi Hsi].
  split; [done|]. split; [done|]. split; [done|]. split; [done|].
  intros k n [Hin|Hin].
  - apply Hbe in Hin as [Hpos Hn].
    destruct (filter _ rows) as [|r l] eqn:Hf; [simpl in Hn; lia|].
    assert (r ∈ filter
                (λ r, display_name (RequestRow.equipment_type r) = k) rows)
      as [<- _]%list_elem_of_filter by (rewrite Hf; left).
    apply display_name_trimmed.
  - apply Hbi in Hin as [Hpos Hn].
    destruct (filter _ rows) as [|r l] eqn:Hf; [simpl in Hn; lia|].
    assert (r ∈ filter
                (λ r, display_name (RequestRow.issue_type r) = k) rows)
      as [<- _]%list_elem_of_filter by (rewrite Hf; left).
    apply display_name_trimmed.
Qed.

(** X23. The totals of the statistics.  [total_requests] is the number
    of rows and [completed_requests] the number of rows in a final
    status that have a completion date.  The average repair time is
    absent exactly when no such row was completed on or after its
    start date; otherwise it is the quotient of the sum of the days
    from start to completion of those rows, none of them negative, by
    their number, which is positive and at most
    [completed_requests]. *)
Theorem X23_statistics_totals (rows : list RequestRow.t) :
  let stats := calculate_statistics_from_rows rows in
  let days := omap repair_days rows in
  Statistics.total_requests stats = Z.of_nat (List.length rows)
  ∧ Statistics.completed_requests stats
    = Z.of_nat (List.length (filter is_completed rows))
  ∧ 0 ≤ Statistics.completed_requests stats ≤ Statistics.total_requests stats
  ∧ (Statistics.average_repair_time_days stats = None ↔ days = [])
  ∧ (∀ s n, Statistics.average_repair_time_days stats = Some (s, n) →
            s = foldr Z.add 0 days
            ∧ n = Z.of_nat (List.length days)
            ∧ 0 < n ≤ Statistics.completed_requests stats
            ∧ 0 ≤ s)
  ∧ Forall (λ d, 0 ≤ d) days.
Proof.
  cbv zeta. unfold calculate_statistics_from_rows. cbv zeta. simpl.
  pose proof (count_rows_spec rows) as (Ht & Hc & Hd & _).
  cbv zeta in Ht, Hc, Hd. rewrite Ht, Hc, Hd.
  assert (Forall (λ d, 0 ≤ d) (omap repair_days rows)) as Hnonneg.
  { apply Forall_forall. intros d (r & _ & Hr)%list_elem_of_omap.
    unfold repair_days in Hr.
    destruct (RequestRow.status_is_final r); [|done].
    destruct (RequestRow.completion_date r) as [c|]; [|done].
    simpl in Hr. case_bool_decide; [|done]. by injection Hr as <-. }
  assert (List.length (omap repair_days rows)
          ≤ List.length (filter is_completed rows))%nat as Hlen.
  { clear. induction rows as [|r rows IH]; [done|]. csimpl.
    unfold repair_days at 1.
    destruct (RequestRow.status_is_final r) eqn:Hf.
    - destruct (RequestRow.completion_date r) as [c|] eqn:Hcd; csimpl.
      + rewrite filter_cons_True by (split; [done|by rewrite Hcd]).
        case_bool_decide; csimpl; lia.
      + rewrite filter_cons_False by (by intros [_ [? ?]]; congruence).
        done.
    - rewrite filter_cons_False by (by intros [? _]; congruence). done. }
  assert (0 ≤ foldr Z.add 0 (omap repair_days rows)) as Hsum.
  { by apply sum_nonneg. }
  pose proof (length_filter is_completed rows) as Hle.
  split; [done|]. split; [done|]. split; [lia|].
  destruct (omap repair_days rows) as [|d days] eqn:Hdays.
  - split; [done|]. split; [done|]. done.
  - split; [done|]. split; [|done].
    intros s n [= <- <-]. simpl in *. split; [done|]. split; [done|].
    split; [lia|done].
Qed.

Lemma X22_statistics_breakdowns_witness :
  Statistics.by_equipment_type
    (calculate_statistics_from_rows fixtures.statistics_rows)
  = [(lit "Кондиционер", 2); (lit "Увлажнитель", 1)]
  ∧ foldr Z.add 0
      (Statistics.by_equipment_type
         (calculate_statistics_from_rows fixtures.statistics_rows)).*2
    = Statistics.total_requests
        (calculate_statistics_from_rows fixtures.statistics_rows).
Proof.
  split; [vm_compute; reflexivity|].
  apply (X22_statistics_breakdowns fixtures.statistics_rows).
Defined.

Lemma X23_statistics_totals_witness :
  Statistics.total_requests
    (calculate_statistics_from_rows fixtures.statistics_rows) = 3
  ∧ Statistics.completed_requests
      (calculate_statistics_from_rows fixtures.statistics_rows) = 2
  ∧ Statistics.average_repair_time_days
      (calculate_statistics_from_rows fixtures.statistics_rows)
    = Some (6, 2).
Proof.
  destruct (X23_statistics_totals fixtures.statistics_rows)
    as (Htotal & Hcompleted & _).
  split; [exact Htotal|]. split; [exact Hcompleted|].
  vm_compute. reflexivity.
Defined.
(** ** Overdue tickets (app/services.py) *)

#[local] Instance by_due_date_then_id_total : Total by_due_date_then_id.
Proof.
  intros [[d1 k1] r1] [[d2 k2] r2]. unfold by_due_date_then_id. simpl. lia.
Qed.

#[local] Instance by_due_date_then_id_trans : Transitive by_due_date_then_id.
Proof.
  intros [[d1 k1] r1] [[d2 k2] r2] [[d3 k3] r3].
  unfold by_due_date_then_id. simpl. lia.
Qed.

Lemma rows_NoDup `{Model T} (tbl : gmap Z T) : NoDup (rows tbl).*1.
Proof. unfold rows. apply NoDup_fst_map_to_list. Qed.

Lemma omap_keys_NoDup {A B} (f : Z * A → option B) (key : B → Z) l :
  (∀ e y, f e = Some y → key y = e.1) →
  NoDup l.*1 → NoDup (key <$> omap f l).
Proof.
  intros Hkey. induction l as [|e l IH]; csimpl; [done|].
  intros [Hnot Hnd]%NoDup_cons. specialize (IH Hnd).
  destruct (f e) as [y|] eqn:Hy; csimpl; [|done].
  apply NoDup_cons. split; [|done].
  rewrite (Hkey _ _ Hy). intros (y' & Hk & (e' & He' & Hy')%list_elem_of_omap)
    %list_elem_of_fmap.
  apply Hnot. rewrite Hk, (Hkey _ _ Hy'). apply list_elem_of_fmap. eauto.
Qed.

(** X24. The overdue list.  [get_overdue_requests] returns exactly the
    stored tickets that have a status, which is not final, and a due
    date before today, each of them once, loaded under its id; they
    come by rising due date and, among equal due dates, by rising
    id. *)
Theorem X24_get_overdue_requests (today : date) (db : Session.t) :
  let result := get_overdue_requests today db in
  (∀ req,
     req ∈ result ↔
     ∃ k status due_date,
       db_get_request db k = Some req
       ∧ RepairRequest.status req = Some status
       ∧ RequestStatus.is_final status = false
       ∧ RepairRequest.due_date req = Some due_date
       ∧ due_date < today)
  ∧ NoDup (RepairRequest.id <$> result)
  ∧ (∀ i j a b,
       result !! i = Some a → result !! j = Some b → (i < j)%nat →
       ∃ da db ka kb,
         RepairRequest.due_date a = Some da
         ∧ RepairRequest.due_date b = Some db
         ∧ RepairRequest.id a = Some ka
         ∧ RepairRequest.id b = Some kb
         ∧ (da < db ∨ (da = db ∧ ka < kb))).
Proof.
  cbv zeta. unfold get_overdue_requests. cbv zeta.
  set (f := λ e : Z * RepairRequest.t,
         req ← db_get_request db e.1;
         status ← RepairRequest.status req;
         due_date ← RepairRequest.due_date req;
         if negb (RequestStatus.is_final status)
            && bool_decide (due_date < today)
         then Some (due_date, e.1, req)
         else None).
  set (L := omap f (rows (Session.repair_requests db))).
  assert (∀ e d k req, f e = Some (d, k, req) ↔
            k = e.1
            ∧ db_get_request db k = Some req
            ∧ RepairRequest.due_date req = Some d
            ∧ d < today
            ∧ ∃ status, RepairRequest.status req = Some status
                        ∧ RequestStatus.is_final status = false) as Hf.
  { intros e d k req. unfold f. split.
    - destruct (db_get_request db e.1) as [req'|] eqn:Hreq; csimpl; [|done].
      destruct (RepairRequest.status req') as [st|] eqn:Hst; csimpl; [|done].
      destruct (RepairRequest.due_date req') as [d'|] eqn:Hd; csimpl;
        [|done].
      destruct (RequestStatus.is_final st) eqn:Hfin; csimpl; [done|].
      case_bool_decide as Hlt; [|done].
      intros [= <- <- <-]. repeat split; try done. by exists st.
    - intros (-> & Hreq & Hd & Hlt & st & Hst & Hfin).
      rewrite Hreq. csimpl. rewrite Hst. csimpl. rewrite Hd. csimpl.
      rewrite Hfin. simpl. by rewrite bool_decide_eq_true_2. }
  assert (∀ d k req, (d, k, req) ∈ L ↔
            db_get_request db k = Some req
            ∧ RepairRequest.due_date req = Some d
            ∧ d < today
            ∧ ∃ status, RepairRequest.status req = Some status
                        ∧ RequestStatus.is_final status = false) as HL.
  { intros d k req. unfold L. rewrite list_elem_of_omap. split.
    - intros (e & _ & (-> & ?)%Hf). done.
    - intros (Hreq & Hrest).
      pose proof Hreq as (r & Hr & _)%db_get_request_Some.
      exists (k, with_id k r). split.
      + apply elem_of_rows, db_get_Some. eauto.
      + apply Hf. done. }
  assert (NoDup ((λ t : Z * Z * RepairRequest.t, t.1.2) <$> L)) as Hkeys.
  { unfold L. apply omap_keys_NoDup; [|apply rows_NoDup].
    intros e [[d k] req] Hy. by apply Hf in Hy as [-> _]. }
  pose proof (merge_sort_Permutation by_due_date_then_id L) as Hperm.
  pose proof (StronglySorted_merge_sort by_due_date_then_id L) as Hsorted.
  set (S := merge_sort by_due_date_then_id L) in *.
  assert (∀ t, t ∈ S → RepairRequest.due_date t.2 = Some t.1.1
                       ∧ RepairRequest.id t.2 = Some t.1.2) as Hcols.
  { intros [[d k] req]. rewrite Hperm, HL. intros (Hreq & Hd & _).
    split; [done|]. by apply loaded_request_fields in Hreq as [? _]. }
  split; [|split].
  - intros req. rewrite list_elem_of_fmap. split.
    + intros ([[d k] req'] & -> & Hin). rewrite Hperm in Hin.
      apply HL in Hin as (Hreq & Hd & Hlt & st & Hst & Hfin).
      by exists k, st, d.
    + intros (k & st & d & Hreq & Hst & Hfin & Hd & Hlt).
      exists (d, k, req). split; [done|]. rewrite Hperm. apply HL.
      repeat split; try done. by exists st.
  - rewrite <- list_fmap_compose.
    assert (RepairRequest.id ∘ snd <$> S
            = Some <$> ((λ t : Z * Z * RepairRequest.t, t.1.2) <$> S))
      as ->.
    { rewrite <- list_fmap_compose. apply list_fmap_ext.
      intros i t Ht. simpl. apply Hcols. by eapply list_elem_of_lookup_2. }
    apply (NoDup_fmap_2 _). by rewrite Hperm.
  - intros i j a b Ha Hb Hlt.
    rewrite list_lookup_fmap in Ha, Hb.
    destruct (S !! i) as [ta|] eqn:Hta; [|done].
    destruct (S !! j) as [tb|] eqn:Htb; [|done].
    simpl in Ha, Hb. injection Ha as <-. injection Hb as <-.
    destruct (Hcols ta) as [Hda Hka]; [by eapply list_elem_of_lookup_2|].
    destruct (Hcols tb) as [Hdb Hkb]; [by eapply list_elem_of_lookup_2|].
    exists ta.1.1, tb.1.1, ta.1.2, tb.1.2.
    split; [done|]. split; [done|]. split; [done|]. split; [done|].
    pose proof (StronglySorted_lookup _ _ _ _ _ _ Hsorted Hta Htb Hlt)
      as Hab.
    assert (ta.1.2 ≠ tb.1.2) as Hne.
    { intros Heq.
      assert (NoDup ((λ t : Z * Z * RepairRequest.t, t.1.2) <$> S)) as Hnd
        by (by rewrite Hperm).
      assert (i = j); [|lia].
      eapply (NoDup_lookup _ _ _ _ Hnd).
      - rewrite list_lookup_fmap, Hta. done.
      - rewrite list_lookup_fmap, Htb. simpl. by rewrite Heq. }
    unfold by_due_date_then_id in Hab. lia.
Qed.

Lemma db_due_10 :
  ∃ req, db_get_request fixtures.db_due 10 = Some req
         ∧ RepairRequest.status req = Some fixtures.st_work
         ∧ RepairRequest.due_date req = Some 738530.
Proof. eexists. split; [vm_compute; reflexivity|]. by split. Qed.

Lemma X24_get_overdue_requests_witness :
  ∃ req, req ∈ get_overdue_requests 738600 fixtures.db_due
         ∧ db_get_request fixtures.db_due 10 = Some req.
Proof.
  destruct db_due_10 as (req & Hreq & Hst & Hdue). exists req.
  split; [|exact Hreq].
  apply (proj1 (X24_get_overdue_requests 738600 fixtures.db_due)).
  exists 10, fixtures.st_work, 738530.
  split; [exact Hreq|]. split; [exact Hst|]. split; [reflexivity|].
  split; [exact Hdue|lia].
Defined.
(** ** Authentication (app/services.py) *)

(** X25. Who [authenticate_user] lets in.  It returns a user only for a
    login that is not blank; the user it returns is stored, has the
    trimmed login as login, and passes [verify_password] with the given
    password.  Blanks around the login are ignored.  With unique
    logins it returns the stored user of that login exactly when the
    password passes, and nobody otherwise. *)
Theorem X25_authenticate_user
    (verify_password : str → str → bool) (db : Session.t)
    (login password : str) :
  let out := authenticate_user verify_password db login password in
  (∀ user,
     out = Some user →
     strip login ≠ []
     ∧ db_get (Session.users db) (User.id user) = Some user
     ∧ User.login user = strip login
     ∧ verify_password password (User.password_hash user) = true)
  ∧ authenticate_user verify_password db (strip login) password = out
  ∧ (logins_unique db →
     ∀ k u,
       Session.users db !! k = Some u →
       User.login u = strip login →
       strip login ≠ [] →
       out = if verify_password password (User.password_hash u)
             then db_get (Session.users db) k
             else None)
  ∧ ((∀ k u, Session.users db !! k = Some u → User.login u ≠ strip login) →
     out = None).
Proof.
  cbv zeta. unfold authenticate_user. cbv zeta. rewrite strip_strip.
  split; [|split; [done|split]].
  - intros user.
    destruct (strip login) as [|c s] eqn:Hlogin; [done|].
    destruct (query_first _ _) as [u|] eqn:Hq; [|done].
    destruct (verify_password password (User.password_hash u)) eqn:Hv;
      [|done].
    simpl. intros [= <-].
    apply query_first_Some in Hq as (k & Hk & HP & _).
    apply bool_decide_eq_true in HP.
    split; [done|]. split; [|done].
    by rewrite (db_get_id_user _ _ _ Hk).
  - intros Huniq k u Hu Hlogin Hne.
    destruct (strip login) as [|c s] eqn:Hs; [done|].
    assert (db_get (Session.users db) k = Some (with_id k u)) as Hget
      by (apply db_get_Some; eauto).
    destruct (query_first_is_Some
                (λ u, bool_decide (User.login u = c :: s))
                (Session.users db) k (with_id k u) Hget) as [u' Hq].
    { by apply bool_decide_eq_true_2. }
    rewrite Hq.
    apply query_first_Some in Hq as (k' & Hk' & HP' & _).
    apply bool_decide_eq_true in HP'.
    pose proof Hk' as (u0 & Hu0 & ->)%db_get_Some.
    assert (k' = k) as -> by (eapply Huniq; [done..|]; simpl in HP';
                               congruence).
    rewrite Hu in Hu0. injection Hu0 as <-. simpl.
    rewrite Hget. by destruct (verify_password _ _).
  - intros Hnone.
    destruct (strip login) as [|c s] eqn:Hs; [done|].
    destruct (query_first _ _) as [u|] eqn:Hq; [|done].
    apply query_first_Some in Hq as (k & Hk & HP & _).
    apply bool_decide_eq_true in HP.
    apply db_get_Some in Hk as (u0 & Hu0 & ->).
    by destruct (Hnone _ _ Hu0).
Qed.

Lemma manager_logs_in :
  authenticate_user (λ _ _, true) fixtures.db_ticket (lit " u ") (lit "pw")
  = Some fixtures.manager.
Proof. vm_compute. reflexivity. Qed.

Lemma X25_authenticate_user_witness :
  User.login fixtures.manager = strip (lit " u ")
  ∧ db_get (Session.users fixtures.db_ticket) (User.id fixtures.manager)
    = Some fixtures.manager.
Proof.
  destruct (proj1 (X25_authenticate_user (λ _ _, true) fixtures.db_ticket
                     (lit " u ") (lit "pw"))
              fixtures.manager manager_logs_in)
    as (_ & Hget & Hlogin & _).
  split; [exact Hlogin|exact Hget].
Defined.
(** ** Saving twice (app/usecases.py) *)

(** A second [get_or_create] with the same arguments finds what the
    first one found or created, in any session that has the table the
    first one left. *)
Lemma get_or_create_equipment_model_again db equipment_type_id model_name
    em db1 db' :
  services.get_or_create_equipment_model db equipment_type_id model_name
  = (Ok em, db1) →
  Session.equipment_models db' = Session.equipment_models db1 →
  services.get_or_create_equipment_model db' equipment_type_id model_name
  = (Ok em, db').
Proof.
  unfold services.get_or_create_equipment_model. cbv zeta.
  set (P := λ m, bool_decide (EquipmentModel.equipment_type_id m
                              = equipment_type_id)
                 && bool_decide (EquipmentModel.name m = strip model_name)).
  destruct (query_first P (Session.equipment_models db)) as [e|] eqn:Hq.
  - intros [= <- <-] ->. by rewrite Hq.
  - case_bool_decide as Hlen; [done|]. case_bool_decide as Hty; [done|].
    pose proof (@query_first_db_add _ EquipmentModel_Model P
                  (λ _ _, eq_refl) (λ _ _, eq_refl)
                  (Session.equipment_models db)
                  (EquipmentModel.mk 0 equipment_type_id (strip model_name))
                  Hq) as Hadd.
    unfold db_add in *. simpl in *. intros [= <- <-]. simpl. intros ->.
    rewrite Hadd; [done|].
    unfold P. simpl. by rewrite !bool_decide_eq_true_2.
Qed.

Lemma get_or_create_issue_type_again db problem_description db' :
  let out := services.get_or_create_issue_type db problem_description in
  Session.issue_types db' = Session.issue_types out.2 →
  services.get_or_create_issue_type db' problem_description = (out.1, db').
Proof.
  cbv zeta. unfold services.get_or_create_issue_type. cbv zeta.
  set (P := λ i, bool_decide
                   (IssueType.name i
                    = services.normalize_issue_type_name
                        problem_description)).
  destruct (query_first P (Session.issue_types db)) as [e|] eqn:Hq.
  - simpl. intros ->. by rewrite Hq.
  - pose proof (@query_first_db_add _ IssueType_Model P
                  (λ _ _, eq_refl) (λ _ _, eq_refl)
                  (Session.issue_types db)
                  (IssueType.mk 0
                     (services.normalize_issue_type_name
                        problem_description)) Hq) as Hadd.
    unfold db_add in *. simpl in *. intros ->. rewrite Hadd; [done|].
    unfold P. simpl. by rewrite bool_decide_eq_true_2.
Qed.

(** An issue type looked up by id in the table a [get_or_create] left,
    where the id was not in the table before, is the created one. *)
Lemma get_or_create_issue_type_lookup db problem_description iid obj :
  let out := services.get_or_create_issue_type db problem_description in
  db_get (Session.issue_types db) iid = None →
  db_get (Session.issue_types out.2) iid = Some obj →
  obj = out.1.
Proof.
  cbv zeta. unfold services.get_or_create_issue_type. cbv zeta.
  destruct (query_first _ (Session.issue_types db)) as [e|]; simpl.
  - congruence.
  - unfold db_get.
    destruct (decide (fresh (dom (Session.issue_types db)) = iid))
      as [<-|Hne].
    + rewrite lookup_insert_eq. simpl. by intros _ [= <-].
    + rewrite lookup_insert_ne by done. congruence.
Qed.

Lemma resolve_equipment_and_issue_again db data em0 it0 db0 db' :
  usecases._resolve_equipment_and_issue db data = (Ok (em0, it0), db0) →
  Session.equipment_models db' = Session.equipment_models db0 →
  Session.issue_types db' = Session.issue_types db0 →
  usecases._resolve_equipment_and_issue db' data = (Ok (em0, it0), db').
Proof.
  unfold usecases._resolve_equipment_and_issue.
  pose proof (get_or_create_equipment_model_again db
                (RequestInput.equipment_type_id data)
                (RequestInput.equipment_model_name data)) as He.
  pose proof (get_or_create_equipment_model_frame db
                (RequestInput.equipment_type_id data)
                (RequestInput.equipment_model_name data)) as Hf.
  destruct (services.get_or_create_equipment_model db _ _) as [[em|e] db1];
    [|done].
  specialize (He em db1 db' eq_refl).
  cbv zeta in Hf. simpl in Hf.
  destruct Hf as (_ & _ & Hf & _).
  pose proof (get_or_create_issue_type_again db1
                (RequestInput.problem_description data) db') as Hi.
  pose proof (get_or_create_issue_type_frame db1
                (RequestInput.problem_description data)) as Hg.
  pose proof (get_or_create_issue_type_lookup db1
                (RequestInput.problem_description data)) as Hl.
  destruct (services.get_or_create_issue_type db1 _) as [it db2].
  cbv zeta in Hi, Hg, Hl. simpl in Hi, Hg, Hl.
  destruct Hg as (_ & _ & Hg & _).
  destruct (truthy_int (RequestInput.issue_type_id data)) as [iid|].
  - destruct (db_get (Session.issue_types db1) iid) as [obj|] eqn:Hobj;
      intros [= <- <- <-].
    + intros Hem Hit. rewrite (He Hem). rewrite Hit, Hobj. done.
    + intros Hem Hit. rewrite Hg in Hem. rewrite (He Hem). rewrite Hit.
      destruct (db_get (Session.issue_types db2) iid) as [obj|] eqn:Hobj2.
      * by rewrite (Hl iid obj Hobj Hobj2).
      * by rewrite (Hi Hit).
  - intros [= <- <- <-]. intros Hem Hit. rewrite Hg in Hem. rewrite (He Hem).
    by rewrite (Hi Hit).
Qed.

(** The gates of a save, applied to the ticket the same save left, give
    that ticket again, but for the completion date, which is set
    anew. *)
Lemma save_request_gated_again today today' user data em it ns x y s :
  let again :=
    RepairRequest.set_completion_date
      (if RequestStatus.is_final ns
       then Some (default today' (RequestInput.completion_date data))
       else RequestInput.completion_date data)
      (RepairRequest.set_status s y) in
  usecases._apply_client user
    (save_request_gated today user data em it ns x) data = Ok y →
  save_request_gated today' user data em it ns (RepairRequest.set_status s y)
  = again
  ∧ usecases._apply_client user again data = Ok again.
Proof.
  unfold save_request_gated, save_request_base, usecases._apply_client,
    usecases._apply_master, usecases._apply_repair_parts,
    usecases._apply_due_date, usecases._apply_completion_date,
    rbac.user_can_assign_master.
  cbv zeta.
  generalize (rbac.role_name (Some user)). intros role.
  generalize (RequestInput.completion_date data). intros cd.
  generalize (User.id user). intros uid.
  generalize (or_None (strip (or_empty (RequestInput.repair_parts data)))).
  intros parts.
  generalize (truthy_int (RequestInput.master_id data)). intros mid.
  generalize (truthy_int (RequestInput.client_id data)). intros cid.
  generalize (in_ role [ROLE_MANAGER; ROLE_OPERATOR; ROLE_QUALITY_MANAGER]).
  generalize
    (in_ role [ROLE_MANAGER; ROLE_OPERATOR; ROLE_MASTER; ROLE_SPECIALIST]).
  generalize (bool_decide (role = ROLE_CLIENT)).
  generalize (in_ role [ROLE_MANAGER; ROLE_OPERATOR]).
  generalize (RequestStatus.is_final ns).
  intros b1 b2 b3 b4 b5.
  destruct x as [[idx|] ? ? ? ? ? ? ? ? ? ? ?], b1, b2, b3, b4, b5, cid;
    intros H; cbv in H; try discriminate H; injection H as <-;
    split; cbv; reflexivity.
Qed.

Lemma set_id_same k (r : RepairRequest.t) :
  RepairRequest.id r = Some k → RepairRequest.set_id (Some k) r = r.
Proof. destruct r. simpl. by intros ->. Qed.

Lemma resolve_new_status_for_update_again db db' user req req' data ns :
  usecases._resolve_new_status_for_update db user req data = Ok (Some ns) →
  RepairRequest.status req' = Some ns →
  usecases._resolve_new_status_for_update db' user req' data = Ok (Some ns).
Proof.
  unfold usecases._resolve_new_status_for_update. cbv zeta.
  intros Hres ->. case_bool_decide; [done|].
  destruct (RequestInput.status_id data) as [sid|]; [|done].
  destruct (RepairRequest.status req) as [old|]; [|done].
  case_bool_decide as Hsame.
  - injection Hres as ->. by rewrite bool_decide_eq_true_2.
  - destruct (db_get (Session.request_statuses db) sid) as [new|] eqn:Hnew;
      [|done].
    destruct (rbac.user_can_change_status user old new); [|done].
    simpl in Hres. injection Hres as ->.
    rewrite bool_decide_eq_true_2; [done|].
    by rewrite (db_get_id_status _ _ _ Hnew).
Qed.

Lemma user_can_edit_request_again db today user data em it ns req0 y :
  is_Some (RepairRequest.id req0) →
  rbac.user_can_edit_request user req0 = Ok true →
  usecases._resolve_new_status_for_update db user req0 data = Ok (Some ns) →
  usecases._apply_client user
    (save_request_gated today user data em it ns req0) data = Ok y →
  rbac.user_can_edit_request user (RepairRequest.set_status (Some ns) y)
  = Ok true.
Proof.
  intros [k Hid] Hedit Hres Hc.
  pose proof (apply_client_fields _ _ _ _ Hc) as (_ & _ & _ & Hclient & _).
  apply apply_client_columns in Hc as (_ & _ & _ & _ & _ & _ & _ & _ & C8 & _).
  pose proof (save_request_gated_columns today user data em it ns req0)
    as (_ & _ & _ & _ & _ & _ & _ & _ & _ & G9).
  cbv zeta in G9. rewrite Hid in G9.
  unfold rbac.user_can_edit_request, rbac.user_can_assign_master in *.
  cbv zeta in *.
  assert (RepairRequest.master_id (RepairRequest.set_status (Some ns) y)
          = RepairRequest.master_id y) as -> by (by destruct y).
  assert (RepairRequest.client_id (RepairRequest.set_status (Some ns) y)
          = RepairRequest.client_id y) as -> by (by destruct y).
  assert (RepairRequest.status (RepairRequest.set_status (Some ns) y)
          = Some ns) as -> by (by destruct y).
  destruct (in_ _ [ROLE_MANAGER; ROLE_OPERATOR; ROLE_QUALITY_MANAGER]);
    [done|].
  destruct (is_master_role _); [by rewrite C8, G9|].
  unfold usecases._resolve_new_status_for_update in Hres. cbv zeta in Hres.
  destruct (bool_decide (rbac.role_name (Some user) = ROLE_CLIENT));
    [|done].
  rewrite Hclient. rewrite bool_decide_eq_true_2 by done.
  case_bool_decide; [|done].
  injection Hres as Hst. by rewrite Hst in Hedit.
Qed.

Lemma set_completion_date_same (r : RepairRequest.t) v :
  RepairRequest.completion_date r = v →
  RepairRequest.set_completion_date v r = r.
Proof. destruct r. simpl. by intros ->. Qed.

(** X26. Saving an update twice.  After an update that went through,
    the same save again, on that day or another, goes through as well.
    It gives the ticket the first save gave, with the status object now
    loaded and with the completion date set anew: for a final status
    the submitted date or, when none was submitted, the day of the
    second save; else the submitted value.  It stores that ticket under
    the same id and touches nothing else.  When the second save is made
    on the same day, or a completion date was submitted, or the status
    is not final, all the columns of the ticket are the ones the first
    save gave, and every ticket loads from the session as it did after
    the first save. *)
Theorem X26_update_is_idempotent
    (today today' : date) (db : Session.t) (user : User.t)
    (data : RequestInput.t) (k : Z) (req : RepairRequest.t) :
  RequestInput.id data = Some k →
  (usecases.save_request today db user data).1 = Ok req →
  let db' := (usecases.save_request today db user data).2 in
  let again := usecases.save_request today' db' user data in
  ∃ ns,
    RepairRequest.status_id req = Some (RequestStatus.id ns)
    ∧ db_get (Session.request_statuses db) (RequestStatus.id ns) = Some ns
    ∧ RepairRequest.completion_date req
      = (if RequestStatus.is_final ns
         then Some (default today (RequestInput.completion_date data))
         else RequestInput.completion_date data)
    ∧ let req' :=
        RepairRequest.set_completion_date
          (if RequestStatus.is_final ns
           then Some (default today' (RequestInput.completion_date data))
           else RequestInput.completion_date data)
          (RepairRequest.set_status (Some ns) req) in
      again.1 = Ok req'
      ∧ again.2 = put_request k req' db'
      ∧ (today' = today
         ∨ is_Some (RequestInput.completion_date data)
         ∨ RequestStatus.is_final ns = false →
         req' = RepairRequest.set_status (Some ns) req
         ∧ ∀ k', db_get_request again.2 k' = db_get_request db' k').
Proof.
  intros Hid Hok. cbv zeta.
  pose proof (save_request_Ok_completion _ _ _ _ _ Hok)
    as (ns' & Hsid' & Hns' & Hcd').
  apply save_request_Ok_inv in Hok
    as (em & it & db1 & req0 & ns & reqc & Hresolve & Hbegin & Hc & -> & Hdb).
  rewrite Hdb. clear Hdb.
  pose proof (resolve_equipment_and_issue_frame db data) as Hfr.
  rewrite Hresolve in Hfr. simpl in Hfr. destruct Hfr as (Hst & _).
  pose proof (resolve_equipment_and_issue_again db data em it db1)
    as Hagain.
  destruct (save_request_begin_edit _ _ _ _ _ _ Hid Hbegin) as [Hload Hedit].
  pose proof (save_request_begin_edit_status _ _ _ _ _ _ Hid Hbegin) as Hres.
  pose proof (save_request_begin_status _ _ _ _ _ Hbegin) as Hns.
  pose proof (loaded_request_fields _ _ _ Hload) as [Hid0 _].
  pose proof (save_request_gated_columns today user data em it ns req0)
    as (G0 & _ & _ & _ & _ & G5 & _).
  cbv zeta in G0, G5.
  pose proof (apply_client_columns _ _ _ _ Hc)
    as (C0 & _ & _ & _ & _ & C5 & _).
  assert (RepairRequest.id reqc = Some k) as Hidc by (by rewrite C0, G0).
  assert (RepairRequest.status_id reqc = Some (RequestStatus.id ns)) as Hsidc
    by (by rewrite C5, G5).
  assert (usecases.add_request reqc db1 = (reqc, put_request k reqc db1))
    as Hadd by (unfold usecases.add_request; by rewrite Hidc).
  rewrite Hadd in Hsid', Hcd' |- *. simpl in Hsid', Hcd' |- *.
  assert (ns' = ns) as ->.
  { rewrite Hsidc in Hsid'. injection Hsid' as Hsame.
    rewrite <- Hsame, <- Hst, Hns in Hns'. by injection Hns'. }
  set (db' := put_request k reqc db1).
  set (cd' := if RequestStatus.is_final ns
              then Some (default today' (RequestInput.completion_date data))
              else RequestInput.completion_date data).
  set (req' := RepairRequest.set_completion_date cd'
                 (RepairRequest.set_status (Some ns) reqc)).
  assert (db_get_request db' k
          = Some (RepairRequest.set_status (Some ns) reqc)) as Hload'.
  { unfold db_get_request, db_get, db', put_request. simpl.
    rewrite lookup_insert_eq. simpl. rewrite Hsidc. simpl.
    fold (db_get (Session.request_statuses db1) (RequestStatus.id ns)).
    rewrite Hns. unfold with_id, RepairRequest_Model.
    by rewrite (set_id_same _ _ Hidc). }
  assert (usecases.save_request today' db' user data
          = (Ok req', put_request k req' db')) as Hsecond.
  { rewrite (save_request_unfold today' db' user data em it db'
               (Hagain db' Hresolve eq_refl eq_refl)).
    cbv zeta.
    unfold usecases.save_request_begin. rewrite Hid, Hload'.
    rewrite (user_can_edit_request_again db1 today user data em it ns
               req0 reqc); [|by rewrite Hid0|done..].
    simpl.
    rewrite (resolve_new_status_for_update_again db1 db' user req0
               (RepairRequest.set_status (Some ns) reqc) data
               ns Hres); [|by destruct reqc].
    simpl.
    destruct (save_request_gated_again today today' user data em it ns req0
                reqc (Some ns) Hc) as [Hg Hcl].
    fold cd' in Hg, Hcl. fold req' in Hg, Hcl.
    rewrite Hg, Hcl.
    unfold usecases.add_request.
    assert (RepairRequest.id req' = Some k) as -> by (by destruct reqc).
    done. }
  exists ns. rewrite Hsecond. simpl.
  split; [done|]. split; [by rewrite <- Hst|]. split; [done|].
  split; [done|]. split; [done|].
  intros Hsame.
  assert (req' = RepairRequest.set_status (Some ns) reqc) as Heq.
  { apply set_completion_date_same.
    assert (RepairRequest.completion_date
              (RepairRequest.set_status (Some ns) reqc)
            = RepairRequest.completion_date reqc) as -> by (by destruct reqc).
    rewrite Hcd'. unfold cd'.
    destruct Hsame as [->|[[d ->]| ->]]; [done| |done].
    by destruct (RequestStatus.is_final ns). }
  split; [done|]. rewrite Heq.
  intros k'. unfold db_get_request, db_get, db', put_request. simpl.
  destruct (decide (k = k')) as [<-|Hne].
  - rewrite !lookup_insert_eq. simpl. by destruct reqc.
  - by rewrite !lookup_insert_ne.
Qed.

Lemma manager_completes_saved :
  ∃ req,
    (usecases.save_request 738600 fixtures.db_ticket fixtures.manager
       (fixtures.edit_ticket (Some 3) (Some 7))).1
    = Ok req.
Proof. eexists. vm_compute. reflexivity. Qed.

Lemma X26_update_is_idempotent_witness :
  let data := fixtures.edit_ticket (Some 3) (Some 7) in
  let first :=
    usecases.save_request 738600 fixtures.db_ticket fixtures.manager data in
  ∃ req ns,
    first.1 = Ok req
    ∧ RepairRequest.status_id req = Some (RequestStatus.id ns)
    ∧ RepairRequest.completion_date req
      = (if RequestStatus.is_final ns then Some 738600 else None)
    ∧ (usecases.save_request 738601 first.2 fixtures.manager data).1
      = Ok (RepairRequest.set_completion_date
              (if RequestStatus.is_final ns then Some 738601 else None)
              (RepairRequest.set_status (Some ns) req)).
Proof.
  cbv zeta. destruct manager_completes_saved as [req Hreq]. exists req.
  destruct (X26_update_is_idempotent 738600 738601 fixtures.db_ticket
              fixtures.manager (fixtures.edit_ticket (Some 3) (Some 7)) 10 req
              eq_refl Hreq)
    as (ns & Hsid & _ & Hcd & Hagain & _).
  exists ns. split; [exact Hreq|]. split; [exact Hsid|].
  split; [exact Hcd|exact Hagain].
Defined.

(** ** Status messages (app/ui_utils.py) *)

Lemma mapping_keys_NoDup : NoDup ui_utils.mapping.*1.
Proof. apply (bool_decide_unpack _). vm_compute. exact I. Qed.

(** No use case raises the base class [DomainError]. *)
Lemma never_raises_base_class op db : raised op db ≠ Some DomainError.
Proof.
  destruct op as [today u d|u k|u k m|u d|now u d]; simpl.
  - destruct (save_request_outcome today db u d)
      as [e0 _ Hsql ->
         |db1 e Hres Hbegin ->
         |db1 req0 new_status req1 e Hres Hbegin Hid Hkind -> ->
         |db1 req0 ns req1 Hres Hbegin Hid Hsid Hcd _ _ ->]; simpl.
    + intros [= ->]. done.
    + intros [= ->]. revert Hbegin. unfold usecases.save_request_begin,
        usecases._resolve_new_status_for_update,
        usecases._resolve_new_status_for_create,
        services.get_new_request_status, rbac.user_can_edit_request, bind.
      cbv zeta. repeat case_match; simplify_eq/=; done.
    + by destruct new_status.
    + done.
  - unfold usecases.delete_request.
    repeat case_match; simplify_eq/=; done.
  - unfold usecases.add_comment.
    repeat case_match; simplify_eq/=; done.
  - unfold usecases.create_help_request.
    repeat case_match; simplify_eq/=; done.
  - unfold usecases.close_help_request, usecases.close_help_request_master.
    repeat case_match; simplify_eq/=; done.
Qed.

(** X27. The errors of the engine have messages.  For the code of
    each [DomainError] subclass of usecases.py, which the callers in
    main.py pass on in the [status] parameter, [build_status_messages]
    gives exactly one message, of type error or warning, with a title
    and a text.  The base class [DomainError] itself, which no use case
    raises, has the code [error], for which there is no message.  For
    any code [build_status_messages] gives at most one message, and
    only for a key of its table, whose keys are distinct. *)
Theorem X27_domain_errors_have_messages :
  (∀ e, is_DomainError e = true → e ≠ DomainError →
        ∃ m, ui_utils.build_status_messages (code e) = [m]
             ∧ (ui_utils.Message.type m = lit "error"
                ∨ ui_utils.Message.type m = lit "warning")
             ∧ ui_utils.Message.title m ≠ []
             ∧ ui_utils.Message.text m ≠ [])
  ∧ (is_DomainError DomainError = true
     ∧ code DomainError = Some (lit "error")
     ∧ ui_utils.build_status_messages (code DomainError) = [])
  ∧ (∀ op db, raised op db ≠ Some DomainError)
  ∧ (∀ c, (List.length (ui_utils.build_status_messages c) ≤ 1)%nat)
  ∧ (∀ c m,
       ui_utils.build_status_messages c = [m] →
       ∃ k, c = Some k
            ∧ k ≠ []
            ∧ (k, (ui_utils.Message.type m, ui_utils.Message.title m,
                   ui_utils.Message.text m)) ∈ ui_utils.mapping)
  ∧ NoDup ui_utils.mapping.*1.
Proof.
  split; [|split; [|split; [|split; [|split]]]].
  - intros e He Hne.
    destruct e; try discriminate He; try (by destruct Hne); eexists;
      (split; [vm_compute; reflexivity|]);
      (split; [(left; vm_compute; reflexivity)
               || (right; vm_compute; reflexivity)|]);
      split; vm_compute; discriminate.
  - split; [reflexivity|]. split; vm_compute; reflexivity.
  - apply never_raises_base_class.
  - intros [[|c s]|]; simpl; [lia| |lia].
    destruct (ui_utils.mapping_get (c :: s)) as [[[? ?] ?]|]; simpl; lia.
  - intros [[|c s]|] m; simpl; [done| |done].
    unfold ui_utils.mapping_get.
    destruct (list_find _ ui_utils.mapping) as [[i [k [[t ti] te]]]|] eqn:Hf;
      [|done].
    simpl. intros [= <-]. apply list_find_Some in Hf as (Hi & Hk & _).
    simpl in Hk. subst k. exists (c :: s). split; [done|]. split; [done|].
    simpl. by eapply list_elem_of_lookup_2.
  - exact mapping_keys_NoDup.
Qed.

Lemma X27_domain_errors_have_messages_witness :
  ∃ m, ui_utils.build_status_messages (Some (lit "help_exists")) = [m]
       ∧ (ui_utils.Message.type m = lit "error"
          ∨ ui_utils.Message.type m = lit "warning").
Proof.
  destruct (proj1 X27_domain_errors_have_messages
              HelpRequestAlreadyOpenError eq_refl)
    as (m & Hm & Htype & _).
  - discriminate.
  - exists m. split; [exact Hm|exact Htype].
Defined.
